(** * Task lifecycle and deadline notifications: a shallow embedding

    The development follows the TypeScript sources of the assistant bot:
    - [usecases/tasks/updateStatus.ts]  (status transition engine),
    - [data/repo/tasksRepo.ts], [data/repo/usersRepo.ts] (SQL repositories),
    - [data/db.ts] (the SQLite schema, with its CHECK and UNIQUE constraints),
    - [jobs/reminders.ts] (the deadline sweep, [sendReminders]),
    - [jobs/digest.ts] (the daily digest),
    - [config/constants.ts] ([REMINDER_WINDOWS]).

    The database is a record of tables, each table a list of rows; the
    external board and the chat gateway are oracles of an environment and
    every call to them is appended to a trace kept in the world state.
    Asynchronous functions are run to completion: the sources await every
    call, so one invocation is a sequential program over that state. *)

From Stdlib Require Import ZArith List Bool String Ascii Lia Sorted Permutation.
Import ListNotations.
Local Open Scope string_scope.
Local Open Scope list_scope.
Local Open Scope Z_scope.

Set Implicit Arguments.

(* ------------------------------------------------------------------ *)
(** ** Strings as the sources use them *)

Module JsString.

Definition lower_ascii (c : ascii) : ascii :=
  let n := N_of_ascii c in
  if ((65 <=? n) && (n <=? 90))%N then ascii_of_N (n + 32) else c.

(** [String.prototype.toLowerCase] on UTF-8 text, for the two alphabets
    the board list names are written in: Latin letters and the basic
    Cyrillic block (0xD0 0x90..0xAF, and 0xD0 0x81 for the letter IO). *)
Fixpoint toLowerCase (s : string) : string :=
  match s with
  | EmptyString => EmptyString
  | String c rest =>
      match rest with
      | EmptyString => String (lower_ascii c) EmptyString
      | String d rest' =>
          let cn := N_of_ascii c in
          let dn := N_of_ascii d in
          if ((cn =? 208) && (144 <=? dn) && (dn <=? 159))%N then
            String c (String (ascii_of_N (dn + 32)) (toLowerCase rest'))
          else if ((cn =? 208) && (160 <=? dn) && (dn <=? 175))%N then
            String (ascii_of_N 209) (String (ascii_of_N (dn - 32)) (toLowerCase rest'))
          else if ((cn =? 208) && (dn =? 129))%N then
            String (ascii_of_N 209) (String (ascii_of_N 145) (toLowerCase rest'))
          else String (lower_ascii c) (toLowerCase rest)
      end
  end.

(** [hay.includes(needle)] *)
Fixpoint includes (hay needle : string) : bool :=
  String.prefix needle hay
  || match hay with
     | EmptyString => false
     | String _ hay' => includes hay' needle
     end.

End JsString.

(* ------------------------------------------------------------------ *)
(** ** Data model: interfaces/task.ts, interfaces/user.ts, data/db.ts *)

Inductive TaskStatus := TODO | IN_PROGRESS | IN_REVIEW | DONE.

Definition TaskStatus_eqb (a b : TaskStatus) : bool :=
  match a, b with
  | TODO, TODO | IN_PROGRESS, IN_PROGRESS
  | IN_REVIEW, IN_REVIEW | DONE, DONE => true
  | _, _ => false
  end.

Inductive UserRole := ADMIN | OWNER | EMPLOYEE.

Definition UserRole_eqb (a b : UserRole) : bool :=
  match a, b with
  | ADMIN, ADMIN | OWNER, OWNER | EMPLOYEE, EMPLOYEE => true
  | _, _ => false
  end.

Inductive Language := RU | UZ.

(** Instants are milliseconds since the epoch. *)
Definition Time := Z.

(** A row of table [tasks]. *)
Record TaskRow := mkTaskRow {
  t_id : Z;
  t_planka_card_id : string;
  t_title : string;
  t_description : option string;
  t_priority : string;
  t_category : string;
  t_status : TaskStatus;
  t_created_by : Z;
  t_assigned_to : option Z;
  t_chat_id : Z;
  t_due_date : option Time;
  t_created_at : Time;
  t_updated_at : Time
}.

(** A row of table [users]. *)
Record UserRow := mkUserRow {
  u_id : Z;
  u_telegram_id : Z;
  u_username : option string;
  u_full_name : option string;
  u_role : UserRole;
  u_language : Language;
  u_created_at : Time
}.

(** A row of table [reminders]: the reminder ledger. *)
Record ReminderRow := mkReminderRow {
  r_task_id : Z;
  r_user_id : Z;
  r_type : string;
  r_sent_at : option Time
}.

(** A row of table [settings]; SQLite keeps BOOLEAN columns as integers. *)
Record SettingsRow := mkSettingsRow {
  s_user_id : Z;
  s_digest_hour : Z;
  s_digest_enabled : Z;
  s_notifications_enabled : Z
}.

Record Db := mkDb {
  tasks : list TaskRow;
  users : list UserRow;
  reminders : list ReminderRow;
  settings : list SettingsRow
}.

(** A [Date] the source builds with [new Date(text)] from a DATETIME column
    that CURRENT_TIMESTAMP filled.  The text has no zone, so JavaScript
    reads it as local time: [wall_clock] is the instant the text denotes in
    UTC, as the row keeps it, and [getTime] below is the instant of the
    [Date] in the zone of the process. *)
Record LocalDate := mkLocalDate { wall_clock : Time }.

(** The [Task] object built by [tasksRepo.mapRowToTask].  The display
    columns joined from [users] (creator_username, assignee_name, ...) are
    read by none of the functions below and are left out; [createdBy] and
    [assigneeId] are decimal strings in the source, converted back with
    [parseInt] where they are used, and are kept as the integers they print. *)
Record Task := mkTask {
  id : string;
  title : string;
  description : option string;
  priority : string;
  category : string;
  assigneeId : option Z;
  dueDate : option Time;
  createdAt : LocalDate;
  updatedAt : LocalDate;
  createdBy : Z;
  status : TaskStatus;
  plankaCardId : string;
  chatId : Z
}.

(** The [User] object built by [usersRepo.mapRowToUser]. *)
Record User := mkUser {
  telegramId : Z;
  username : option string;
  fullName : option string;
  role : UserRole;
  language : Language
}.

Record PlankaList := mkPlankaList {
  list_id : string;
  list_name : string
}.

(* ------------------------------------------------------------------ *)
(** ** Errors, environment, world, and the monad of the use cases *)

Inductive ErrorCode :=
| NOT_FOUND
| INVALID_STATUS_TRANSITION
| PLANKA_ERROR
| DB_ERROR.

(** What a call can throw: an [AppError] of the application, the error
    SQLite raises for a violated CHECK constraint, and the [TypeError]
    JavaScript raises when a property of [null] is read. *)
Inductive Error :=
| AppError (code : ErrorCode)
| SqliteConstraintCheck
| JsTypeError.

Inductive Result (A : Type) :=
| Ok (a : A)
| Throw (e : Error).
Arguments Ok {A} a.
Arguments Throw {A} e.

(** Text of the window line chosen by the [switch] of [sendReminderToUser]. *)
Inductive WindowLine := In24h | In6h | In2h.

Inductive MsgKind :=
| Reminder (type : string) (line : option WindowLine)
| OverdueNotice
| MorningDigest
| EveningDigest.

(** One call of [bot.telegram.sendMessage] and whether it returned. *)
Record Sent := mkSent {
  to : Z;
  about : option string;
  kind : MsgKind;
  delivered : bool
}.

(** One call of the board client and whether it returned. *)
Inductive BoardCall :=
| GetBoardLists (ok : bool)
| UpdateCard (cardId listId : string) (ok : bool).

(** What the outside answers during one invocation.  [tz_offset] is the
    zone of the process: local time minus UTC, in milliseconds. *)
Record Env := mkEnv {
  now : Time;
  tz_offset : Z;
  tg_ok : Z -> bool;
  board_lists : option (list PlankaList);
  card_patch_ok : string -> string -> bool
}.


Record World := mkWorld {
  db : Db;
  board_calls : list BoardCall;
  outbox : list Sent
}.

Definition M (A : Type) : Type := Env -> World -> World * Result A.

Definition ret {A} (a : A) : M A := fun _ w => (w, Ok a).

Definition bind {A B} (m : M A) (k : A -> M B) : M B :=
  fun env w =>
    match m env w with
    | (w', Ok a) => k a env w'
    | (w', Throw e) => (w', Throw e)
    end.

Definition throw {A} (e : Error) : M A := fun _ w => (w, Throw e).

(** [try { m } catch (error) { Log.error(...) }] *)
Definition try_log (m : M unit) : M unit :=
  fun env w =>
    match m env w with
    | (w', _) => (w', Ok tt)
    end.

Definition ask : M Env := fun env w => (w, Ok env).
Definition get_db : M Db := fun _ w => (w, Ok (db w)).
Definition put_db (d : Db) : M unit :=
  fun _ w => (mkWorld d (board_calls w) (outbox w), Ok tt).
Definition log_board (c : BoardCall) : M unit :=
  fun _ w => (mkWorld (db w) (board_calls w ++ [c]) (outbox w), Ok tt).
Definition log_sent (s : Sent) : M unit :=
  fun _ w => (mkWorld (db w) (board_calls w) (outbox w ++ [s]), Ok tt).

Declare Scope m_scope.
Delimit Scope m_scope with m.
Notation "x <- c1 ;; c2" := (bind c1 (fun x => c2))
  (at level 61, c1 at next level, right associativity) : m_scope.
Notation "c1 ;;; c2" := (bind c1 (fun _ => c2))
  (at level 61, right associativity) : m_scope.
Local Open Scope m_scope.

(** [for (const x of xs) { body(x) }] *)
Fixpoint forM_ {A} (xs : list A) (body : A -> M unit) : M unit :=
  match xs with
  | [] => ret tt
  | x :: xs' => body x ;;; forM_ xs' body
  end.

(** [try { r = m } catch (error) { ... error ... }]: the outcome of [m] as a
    value; what [m] did to the world before throwing stays done. *)
Definition attempt {A} (m : M A) : M (Result A) :=
  fun env w =>
    match m env w with
    | (w', r) => (w', Ok r)
    end.

(** Stable insertion sort, for the ORDER BY clauses. *)
Fixpoint insert_by {A} (le : A -> A -> bool) (x : A) (l : list A) : list A :=
  match l with
  | [] => [x]
  | y :: l' => if le x y then x :: l else y :: insert_by le x l'
  end.

Definition sort_by {A} (le : A -> A -> bool) (l : list A) : list A :=
  fold_right (insert_by le) [] l.

(* ------------------------------------------------------------------ *)
(** ** SQL clock and date comparisons *)

Module Sql.

Definition MS_PER_HOUR : Z := 3600000.
Definition MS_PER_DAY : Z := 86400000.

(** [CURRENT_TIMESTAMP] has a resolution of one second. *)
Definition current_timestamp (env : Env) : Time := (now env / 1000) * 1000.

Definition utc_day (t : Time) : Z := t / MS_PER_DAY.

(** [due_date] is stored by [tasksRepo] as [Date.toISOString()], the text
    [YYYY-MM-DDTHH:mm:ss.sssZ]; [CURRENT_TIMESTAMP] is the text
    [YYYY-MM-DD HH:MM:SS].  SQLite compares the two as text: the first ten
    characters decide, and on the same day the letter T of the stored
    value is above the space of the timestamp. *)
Definition iso_ge_current_timestamp (due : Time) (env : Env) : bool :=
  utc_day (now env) <=? utc_day due.

Definition iso_lt_current_timestamp (due : Time) (env : Env) : bool :=
  utc_day due <? utc_day (now env).

(** Two ISO texts compare as the instants they denote. *)
Definition iso_le (a b : Time) : bool := a <=? b.

End Sql.

(* ------------------------------------------------------------------ *)
(** ** data/repo/tasksRepo.ts *)

Module tasksRepo.

Definition mapRowToTask (row : TaskRow) : Task :=
  {| id := t_planka_card_id row;
     title := t_title row;
     description := t_description row;
     priority := t_priority row;
     category := t_category row;
     assigneeId :=
       match t_assigned_to row with
       | Some a => if a =? 0 then None else Some a
       | None => None
       end;
     dueDate := t_due_date row;
     createdAt := mkLocalDate (t_created_at row);
     updatedAt := mkLocalDate (t_updated_at row);
     createdBy := t_created_by row;
     status := t_status row;
     plankaCardId := t_planka_card_id row;
     chatId := t_chat_id row |}.

Definition has_card (card : string) (row : TaskRow) : bool :=
  String.eqb (t_planka_card_id row) card.

Definition getByPlankaId (d : Db) (card : string) : option Task :=
  option_map mapRowToTask (find (has_card card) (tasks d)).

(** The [data] argument of [update]: a field left [undefined] is [None]. *)
Record TaskPatch := mkTaskPatch {
  p_title : option string;
  p_description : option string;
  p_priority : option string;
  p_status : option TaskStatus;
  p_assignedTo : option (option Z);
  p_dueDate : option (option Time)
}.

Definition status_patch (s : TaskStatus) : TaskPatch :=
  mkTaskPatch None None None (Some s) None None.

Definition patch_is_empty (p : TaskPatch) : bool :=
  match p_title p, p_description p, p_priority p,
        p_status p, p_assignedTo p, p_dueDate p with
  | None, None, None, None, None, None => true
  | _, _, _, _, _, _ => false
  end.

Definition or_keep {A} (new : option A) (old : A) : A :=
  match new with Some v => v | None => old end.

Definition apply_patch (p : TaskPatch) (stamp : Time) (row : TaskRow) : TaskRow :=
  {| t_id := t_id row;
     t_planka_card_id := t_planka_card_id row;
     t_title := or_keep (p_title p) (t_title row);
     t_description :=
       match p_description p with
       | Some v => Some v
       | None => t_description row
       end;
     t_priority := or_keep (p_priority p) (t_priority row);
     t_category := t_category row;
     t_status := or_keep (p_status p) (t_status row);
     t_created_by := t_created_by row;
     t_assigned_to := or_keep (p_assignedTo p) (t_assigned_to row);
     t_chat_id := t_chat_id row;
     t_due_date := or_keep (p_dueDate p) (t_due_date row);
     t_created_at := t_created_at row;
     t_updated_at := stamp |}.

Definition with_tasks (d : Db) (ts : list TaskRow) : Db :=
  mkDb ts (users d) (reminders d) (settings d).

(** [UPDATE tasks SET ..., updated_at = CURRENT_TIMESTAMP
     WHERE planka_card_id = @plankaCardId]; [info.changes] is the number
    of rows the WHERE clause selects. *)
Definition update (card : string) (p : TaskPatch) : M (option Task) :=
  env <- ask ;;
  d <- get_db ;;
  if patch_is_empty p then ret (getByPlankaId d card)
  else
    let changes := List.length (filter (has_card card) (tasks d)) in
    let d' :=
      with_tasks d
        (map (fun row =>
                if has_card card row
                then apply_patch p (Sql.current_timestamp env) row
                else row)
             (tasks d)) in
    put_db d' ;;;
    if Nat.eqb changes 0 then ret None
    else ret (getByPlankaId d' card).

Definition due_le (a b : TaskRow) : bool :=
  match t_due_date a, t_due_date b with
  | Some x, Some y => x <=? y
  | None, _ => true
  | Some _, None => false
  end.

Definition due_ge (a b : TaskRow) : bool := due_le b a.

(** [WHERE t.due_date <= ? AND t.due_date >= CURRENT_TIMESTAMP
     AND t.status != 'done' ORDER BY t.due_date ASC], the parameter being
    [deadline.toISOString()] with [deadline] = now + [hoursAhead] hours. *)
Definition upcoming (env : Env) (hoursAhead : Z) (row : TaskRow) : bool :=
  match t_due_date row with
  | Some due =>
      Sql.iso_le due (now env + hoursAhead * Sql.MS_PER_HOUR)
      && Sql.iso_ge_current_timestamp due env
      && negb (TaskStatus_eqb (t_status row) DONE)
  | None => false
  end.

Definition getUpcomingDeadlines (env : Env) (d : Db) (hoursAhead : Z) : list Task :=
  map mapRowToTask (sort_by due_le (filter (upcoming env hoursAhead) (tasks d))).

(** [WHERE t.due_date < CURRENT_TIMESTAMP AND t.status != 'done'
     ORDER BY t.due_date DESC] *)
Definition overdue (env : Env) (row : TaskRow) : bool :=
  match t_due_date row with
  | Some due =>
      Sql.iso_lt_current_timestamp due env
      && negb (TaskStatus_eqb (t_status row) DONE)
  | None => false
  end.

Definition getOverdueTasks (env : Env) (d : Db) : list Task :=
  map mapRowToTask (sort_by due_ge (filter (overdue env) (tasks d))).

Definition assigned_to_user (telegramId : Z) (row : TaskRow) : bool :=
  match t_assigned_to row with
  | Some a => a =? telegramId
  | None => false
  end.

Definition has_status (st : option TaskStatus) (row : TaskRow) : bool :=
  match st with
  | Some s => TaskStatus_eqb (t_status row) s
  | None => true
  end.

(** [ORDER BY t.due_date ASC, t.created_at DESC]; NULL sorts first. *)
Definition user_tasks_order (a b : TaskRow) : bool :=
  match t_due_date a, t_due_date b with
  | None, None => t_created_at b <=? t_created_at a
  | None, Some _ => true
  | Some _, None => false
  | Some x, Some y => (x <? y) || ((x =? y) && (t_created_at b <=? t_created_at a))
  end.

(** [WHERE t.assigned_to = ? (AND t.status = ?)
     ORDER BY t.due_date ASC, t.created_at DESC] *)
Definition getUserTasks (d : Db) (telegramId : Z) (st : option TaskStatus)
  : list Task :=
  map mapRowToTask
      (sort_by user_tasks_order
               (filter (fun row => assigned_to_user telegramId row && has_status st row)
                       (tasks d))).

(** Keys of a GROUP BY, each once. *)
Fixpoint distinct {K} (eqb : K -> K -> bool) (l : list K) : list K :=
  match l with
  | [] => []
  | x :: r => if existsb (eqb x) r then distinct eqb r else x :: distinct eqb r
  end.

(** [SELECT key, COUNT( * ) ... GROUP BY key] *)
Definition group_count {K} (eqb : K -> K -> bool) (keys : list K) : list (K * nat) :=
  map (fun k => (k, List.length (filter (eqb k) keys))) (distinct eqb keys).

Record Stats := mkStats {
  total : nat;
  byStatus : list (TaskStatus * nat);
  byPriority : list (string * nat);
  overdue_count : nat
}.

(** [chatId ? 'WHERE chat_id = ?' : '']: the filter is dropped for no chat
    and for chat 0. *)
Definition in_chat (chat : option Z) (row : TaskRow) : bool :=
  match chat with
  | Some c => if c =? 0 then true else t_chat_id row =? c
  | None => true
  end.

Definition getStats (env : Env) (d : Db) (chat : option Z) : Stats :=
  let rows := filter (in_chat chat) (tasks d) in
  {| total := List.length rows;
     byStatus := group_count TaskStatus_eqb (map t_status rows);
     byPriority := group_count String.eqb (map t_priority rows);
     overdue_count := List.length (filter (overdue env) rows) |}.

End tasksRepo.

(* ------------------------------------------------------------------ *)
(** ** data/repo/usersRepo.ts *)

Module usersRepo.

Definition mapRowToUser (row : UserRow) : User :=
  {| telegramId := u_telegram_id row;
     username := u_username row;
     fullName := u_full_name row;
     role := u_role row;
     language := u_language row |}.

Definition getByTelegramId (d : Db) (tid : Z) : option User :=
  option_map mapRowToUser (find (fun row => u_telegram_id row =? tid) (users d)).

Definition newer_first (a b : UserRow) : bool := u_created_at b <=? u_created_at a.

(** [SELECT * FROM users WHERE role = ? ORDER BY created_at DESC] *)
Definition getAll (d : Db) (r : UserRole) : list User :=
  map mapRowToUser
      (sort_by newer_first (filter (fun row => UserRole_eqb (u_role row) r) (users d))).

End usersRepo.

(* ------------------------------------------------------------------ *)
(** ** clients/planka.ts, as far as the transition engine calls it *)

Module plankaClient.

(** Any failure of the request is rethrown as [AppError(PLANKA_ERROR)]. *)
Definition getBoardLists : M (list PlankaList) :=
  env <- ask ;;
  match board_lists env with
  | Some ls => log_board (GetBoardLists true) ;;; ret ls
  | None => log_board (GetBoardLists false) ;;; throw (AppError PLANKA_ERROR)
  end.

Definition updateCard (cardId listId : string) : M unit :=
  env <- ask ;;
  if card_patch_ok env cardId listId
  then log_board (UpdateCard cardId listId true)
  else log_board (UpdateCard cardId listId false) ;;; throw (AppError PLANKA_ERROR).

End plankaClient.

(* ------------------------------------------------------------------ *)
(** ** usecases/tasks/updateStatus.ts *)

Module updateStatus.

Definition allowedTransitions (from : TaskStatus) : list TaskStatus :=
  match from with
  | TODO => [IN_PROGRESS; DONE]
  | IN_PROGRESS => [TODO; IN_REVIEW; DONE]
  | IN_REVIEW => [IN_PROGRESS; DONE]
  | DONE => [TODO; IN_PROGRESS]
  end.

Definition validateStatusTransition (from to_ : TaskStatus) : M unit :=
  if existsb (TaskStatus_eqb to_) (allowedTransitions from)
  then ret tt
  else throw (AppError INVALID_STATUS_TRANSITION).

Definition statusToListName (s : TaskStatus) : list string :=
  match s with
  | TODO => ["todo"; "новые"; "новая"; "backlog"; "к выполнению"]
  | IN_PROGRESS => ["in progress"; "в работе"; "doing"; "выполняется"]
  | IN_REVIEW => ["review"; "проверка"; "на проверке"; "testing"]
  | DONE => ["done"; "готово"; "выполнено"; "completed"; "finished"]
  end.

Definition name_matches (name : string) (l : PlankaList) : bool :=
  JsString.includes (JsString.toLowerCase (list_name l)) (JsString.toLowerCase name).

Fixpoint find_by_names (lists : list PlankaList) (names : list string)
  : option PlankaList :=
  match names with
  | [] => None
  | name :: names' =>
      match find (name_matches name) lists with
      | Some l => Some l
      | None => find_by_names lists names'
      end
  end.

Definition statusToIndex (lists : list PlankaList) (s : TaskStatus) : Z :=
  match s with
  | TODO => 0
  | IN_PROGRESS => 1
  | IN_REVIEW => 2
  | DONE => Z.of_nat (List.length lists) - 1
  end.

(** [lists[index]]: [undefined] outside the array. *)
Definition js_index {A} (l : list A) (i : Z) : option A :=
  if i <? 0 then None else nth_error l (Z.to_nat i).

Definition getListForStatus (lists : list PlankaList) (s : TaskStatus)
  : option PlankaList :=
  match find_by_names lists (statusToListName s) with
  | Some l => Some l
  | None => js_index lists (statusToIndex lists s)
  end.

Record StatusUpdate := mkStatusUpdate {
  task : Task;
  previousStatus : TaskStatus;
  movedBy : option User
}.

Definition updateTaskStatus (taskId : string) (newStatus : TaskStatus) (userId : Z)
  : M StatusUpdate :=
  d <- get_db ;;
  match tasksRepo.getByPlankaId d taskId with
  | None => throw (AppError NOT_FOUND)
  | Some t =>
      let previous := status t in
      if TaskStatus_eqb previous newStatus then
        ret (mkStatusUpdate t previous (usersRepo.getByTelegramId d userId))
      else
        validateStatusTransition previous newStatus ;;;
        lists <- plankaClient.getBoardLists ;;
        match getListForStatus lists newStatus with
        | None => throw (AppError PLANKA_ERROR)
        | Some targetList =>
            plankaClient.updateCard (plankaCardId t) (list_id targetList) ;;;
            updated <- tasksRepo.update (plankaCardId t)
                                        (tasksRepo.status_patch newStatus) ;;
            match updated with
            | None => throw (AppError DB_ERROR)
            | Some updatedTask =>
                (* formatStatusChangeComment reads [user.fullName]: for an
                   id that is not registered [user] is null and the read
                   throws, after the board and the store were written *)
                d' <- get_db ;;
                match usersRepo.getByTelegramId d' userId with
                | None => throw JsTypeError
                | Some user =>
                    ret (mkStatusUpdate updatedTask previous (Some user))
                end
            end
        end
  end.

Definition autoUpdateStatusOnAssign (taskId : string) (assignee : Z)
  : M (option Task) :=
  d <- get_db ;;
  match tasksRepo.getByPlankaId d taskId with
  | None => ret None
  | Some t =>
      if TaskStatus_eqb (status t) TODO && negb (assignee =? 0) then
        result <- updateTaskStatus taskId IN_PROGRESS assignee ;;
        ret (Some (task result))
      else ret (Some t)
  end.

(** The [failed] list of the source keeps the message of the caught error;
    the error itself is kept here. *)
Record BulkResult := mkBulkResult {
  updated : list string;
  failed : list (string * Error)
}.

Fixpoint bulk_loop (taskIds : list string) (newStatus : TaskStatus) (userId : Z)
         (acc : BulkResult) : M BulkResult :=
  match taskIds with
  | [] => ret acc
  | taskId :: rest =>
      r <- attempt (updateTaskStatus taskId newStatus userId) ;;
      match r with
      | Ok _ =>
          bulk_loop rest newStatus userId
                    (mkBulkResult (updated acc ++ [taskId]) (failed acc))
      | Throw e =>
          bulk_loop rest newStatus userId
                    (mkBulkResult (updated acc) (failed acc ++ [(taskId, e)]))
      end
  end.

Definition bulkUpdateStatus (taskIds : list string) (newStatus : TaskStatus)
           (userId : Z) : M BulkResult :=
  bulk_loop taskIds newStatus userId (mkBulkResult [] []).

End updateStatus.

(* ------------------------------------------------------------------ *)
(** ** jobs/reminders.ts *)

Module reminders.

(** [Object.entries(REMINDER_WINDOWS)] of config/constants.ts: the loop
    variable [type] is the key, [hours] the value, in declaration order. *)
Definition REMINDER_WINDOWS : list (string * Z) :=
  [("FIRST", 24); ("SECOND", 6); ("THIRD", 2)].

(** data/db.ts: [type TEXT CHECK(type IN ('24h', '6h', '2h')) NOT NULL] *)
Definition type_check (type : string) : bool :=
  existsb (String.eqb type) ["24h"; "6h"; "2h"].

(** data/db.ts: [UNIQUE(task_id, user_id, type)] *)
Definition same_key (a b : ReminderRow) : bool :=
  (r_task_id a =? r_task_id b)
  && (r_user_id a =? r_user_id b)
  && String.eqb (r_type a) (r_type b).

Inductive OnConflict := DoUpdateSentAt | OrReplace.

(** One row offered to table [reminders].  The CHECK constraint is tested
    on the offered row before the unique index is consulted, and neither
    conflict clause resolves a CHECK failure: the statement aborts.  The
    foreign keys of the table are not modelled; a violation of one would
    only make more statements abort, leaving the table as it was. *)
Definition insert_row (mode : OnConflict) (new : ReminderRow)
           (rows : list ReminderRow) : Result (list ReminderRow) :=
  if negb (type_check (r_type new)) then Throw SqliteConstraintCheck
  else if existsb (same_key new) rows then
    match mode with
    | DoUpdateSentAt =>
        Ok (map (fun r =>
                   if same_key new r
                   then mkReminderRow (r_task_id r) (r_user_id r) (r_type r)
                                      (r_sent_at new)
                   else r)
                rows)
    | OrReplace =>
        Ok (filter (fun r => negb (same_key new r)) rows ++ [new])
    end
  else Ok (rows ++ [new]).

(** [INSERT INTO reminders (...) SELECT ... FROM tasks t WHERE ...]: the
    selected rows are offered one after the other; a failure leaves the
    table as it was before the statement. *)
Fixpoint insert_rows (mode : OnConflict) (news : list ReminderRow)
         (rows : list ReminderRow) : Result (list ReminderRow) :=
  match news with
  | [] => Ok rows
  | new :: news' =>
      match insert_row mode new rows with
      | Ok rows' => insert_rows mode news' rows'
      | Throw e => Throw e
      end
  end.

Definition with_reminders (d : Db) (rs : list ReminderRow) : Db :=
  mkDb (tasks d) (users d) rs (settings d).

Definition run_insert (mode : OnConflict) (news : list ReminderRow) : M unit :=
  d <- get_db ;;
  match insert_rows mode news (reminders d) with
  | Ok rows' => put_db (with_reminders d rows')
  | Throw e => throw e
  end.

(** [(SELECT id FROM tasks WHERE planka_card_id = ?)] *)
Definition task_rowid (d : Db) (card : string) : option Z :=
  option_map t_id (find (tasksRepo.has_card card) (tasks d)).

Definition is_some {A} (o : option A) : bool :=
  match o with Some _ => true | None => false end.

Definition wasReminderSent (d : Db) (taskId type : string) : bool :=
  match task_rowid d taskId with
  | None => false
  | Some tid =>
      existsb (fun r => (r_task_id r =? tid)
                        && String.eqb (r_type r) type
                        && is_some (r_sent_at r))
              (reminders d)
  end.

(** The rows [SELECT t.id, t.created_by, type, CURRENT_TIMESTAMP
    FROM tasks t WHERE t.planka_card_id = ?] *)
Definition selected_rows (env : Env) (d : Db) (card type : string)
  : list ReminderRow :=
  map (fun t => mkReminderRow (t_id t) (t_created_by t) type
                              (Some (Sql.current_timestamp env)))
      (filter (tasksRepo.has_card card) (tasks d)).

Definition markReminderSent (taskId type : string) : M unit :=
  env <- ask ;;
  d <- get_db ;;
  run_insert DoUpdateSentAt (selected_rows env d taskId type).

Definition max_sent (acc : option Time) (r : ReminderRow) : option Time :=
  match r_sent_at r, acc with
  | Some s, Some a => Some (Z.max a s)
  | Some s, None => Some s
  | None, _ => acc
  end.

(** [SELECT MAX(sent_at) ... AND type = 'overdue'], then
    [new Date(row.last_sent)]: the text has no zone and is read as local
    time. *)
Definition getLastOverdueReminder (env : Env) (d : Db) (taskId : string)
  : option Time :=
  match task_rowid d taskId with
  | None => None
  | Some tid =>
      option_map (fun s => s - tz_offset env)
        (fold_left max_sent
           (filter (fun r => (r_task_id r =? tid)
                             && String.eqb (r_type r) "overdue")
                   (reminders d))
           None)
  end.

Definition markOverdueReminderSent (taskId : string) : M unit :=
  env <- ask ;;
  d <- get_db ;;
  run_insert OrReplace (selected_rows env d taskId "overdue").

Definition window_line (type : string) : option WindowLine :=
  if String.eqb type "24h" then Some In24h
  else if String.eqb type "6h" then Some In6h
  else if String.eqb type "2h" then Some In2h
  else None.

Definition sendReminderToUser (userId : Z) (t : Task) (type : string) : M unit :=
  try_log
    (d <- get_db ;;
     match usersRepo.getByTelegramId d userId with
     | None => ret tt
     | Some _ =>
         env <- ask ;;
         log_sent (mkSent userId (Some (plankaCardId t))
                          (Reminder type (window_line type))
                          (tg_ok env userId))
     end).

Definition sendOverdueReminderToUser (userId : Z) (t : Task) : M unit :=
  try_log
    (d <- get_db ;;
     match usersRepo.getByTelegramId d userId with
     | None => ret tt
     | Some _ =>
         env <- ask ;;
         log_sent (mkSent userId (Some (plankaCardId t)) OverdueNotice
                          (tg_ok env userId))
     end).

(** [new Set<number>()], creator added first, then the assignee. *)
Definition recipients (t : Task) : list Z :=
  createdBy t ::
  match assigneeId t with
  | Some a => if a =? createdBy t then [] else [a]
  | None => []
  end.

Definition DAY_MS : Z := 24 * 60 * 60 * 1000.

(** Body of the loop over the tasks of one window. *)
Definition remind_task (type : string) (t : Task) : M unit :=
  if TaskStatus_eqb (status t) DONE then ret tt
  else
    d1 <- get_db ;;
    if wasReminderSent d1 (plankaCardId t) type then ret tt
    else
      forM_ (recipients t) (fun userId => sendReminderToUser userId t type) ;;;
      markReminderSent (plankaCardId t) type.

Definition window_pass (w : string * Z) : M unit :=
  let (type, hours) := w in
  env <- ask ;;
  d <- get_db ;;
  forM_ (tasksRepo.getUpcomingDeadlines env d hours) (remind_task type).

(** Body of the loop over the overdue tasks. *)
Definition escalate_task (t : Task) : M unit :=
  env <- ask ;;
  d1 <- get_db ;;
  let due :=
    match getLastOverdueReminder env d1 (plankaCardId t) with
    | None => true
    | Some last => now env - last >? DAY_MS
    end in
  if due then
    forM_ (recipients t) (fun userId => sendOverdueReminderToUser userId t) ;;;
    markOverdueReminderSent (plankaCardId t)
  else ret tt.

Definition overdue_pass : M unit :=
  env <- ask ;;
  d <- get_db ;;
  forM_ (tasksRepo.getOverdueTasks env d) escalate_task.

Definition sendReminders : M unit :=
  try_log (forM_ REMINDER_WINDOWS window_pass ;;; overdue_pass).

(** The world after one sweep, and after a run of sweeps. *)
Definition sweep (env : Env) (w : World) : World := fst (sendReminders env w).

Definition sweeps (envs : list Env) (w : World) : World :=
  fold_left (fun w' env => sweep env w') envs w.

End reminders.

(* ------------------------------------------------------------------ *)
(** ** jobs/digest.ts *)

Module digest.

Inductive DigestType := morning | evening.

Record UserSettings := mkUserSettings {
  digestEnabled : bool;
  digestHour : Z;
  notificationsEnabled : bool
}.

(** [Boolean(x)] of an integer column. *)
Definition Boolean (x : Z) : bool := negb (x =? 0).

Definition getUserSettings (d : Db) (userId : Z) : UserSettings :=
  match find (fun s => s_user_id s =? userId) (settings d) with
  | None => mkUserSettings true 9 true
  | Some row =>
      mkUserSettings (Boolean (s_digest_enabled row))
                     (s_digest_hour row)
                     (Boolean (s_notifications_enabled row))
  end.

(** The two digests read tasks and send one message; the text of the
    message is not modelled. *)
Definition sendMorningDigest (userId : Z) : M unit :=
  try_log
    (d <- get_db ;;
     match usersRepo.getByTelegramId d userId with
     | None => ret tt
     | Some _ =>
         env <- ask ;;
         log_sent (mkSent userId None MorningDigest (tg_ok env userId))
     end).

Definition sendEveningDigest (userId : Z) : M unit :=
  try_log
    (d <- get_db ;;
     match usersRepo.getByTelegramId d userId with
     | None => ret tt
     | Some _ =>
         env <- ask ;;
         log_sent (mkSent userId None EveningDigest (tg_ok env userId))
     end).

Definition is_morning (ty : DigestType) : bool :=
  match ty with morning => true | evening => false end.

Definition digest_recipients (d : Db) : list User :=
  usersRepo.getAll d OWNER ++ usersRepo.getAll d ADMIN.

Definition digest_one (ty : DigestType) (user : User) : M unit :=
  d <- get_db ;;
  let s := getUserSettings d (telegramId user) in
  if negb (digestEnabled s) then ret tt
  else if is_morning ty && negb (digestHour s =? 9) then ret tt
  else if is_morning ty then sendMorningDigest (telegramId user)
  else sendEveningDigest (telegramId user).

Definition sendDailyDigest (ty : DigestType) : M unit :=
  try_log
    (d <- get_db ;;
     forM_ (digest_recipients d) (digest_one ty)).

End digest.

(* ------------------------------------------------------------------ *)
(** ** usecases/tasks/assignTask.ts: the workload report *)

Module assignTask.

Record Workload := mkWorkload {
  user : User;
  activeTasks : nat;
  overdueTasks : nat;
  isAvailable : bool
}.

(** [t.status !== 'done'] *)
Definition is_active (t : Task) : bool := negb (TaskStatus_eqb (status t) DONE).

(** [t.status !== 'done' && t.dueDate && new Date(t.dueDate) < new Date()]:
    two Date objects, compared as instants. *)
Definition is_overdue_now (env : Env) (t : Task) : bool :=
  is_active t
  && match dueDate t with
     | Some due => due <? now env
     | None => false
     end.

Definition workload_of (env : Env) (d : Db) (u : User) : Workload :=
  let ts := tasksRepo.getUserTasks d (telegramId u) None in
  let active := List.length (filter is_active ts) in
  mkWorkload u active (List.length (filter (is_overdue_now env) ts))
             (Nat.ltb active 10).

(** The comparator of [result.sort]. *)
Definition compare_workload (a b : Workload) : Z :=
  if Bool.eqb (isAvailable a) (isAvailable b)
  then Z.of_nat (activeTasks a) - Z.of_nat (activeTasks b)
  else if isAvailable a then -1 else 1.

Definition getAssigneesWithWorkload (env : Env) (d : Db) : list Workload :=
  sort_by (fun a b => compare_workload a b <=? 0)
          (map (workload_of env d)
               (usersRepo.getAll d EMPLOYEE ++ usersRepo.getAll d OWNER)).

End assignTask.

(* ------------------------------------------------------------------ *)
(** ** data/repo/settingsRepo.ts *)

Module settingsRepo.

(** [UserSettings] of interfaces/user.ts.  The two time stamps of the
    interface are left out: rows of table [settings] are modelled without
    their [created_at] and [updated_at] columns, which no decision reads. *)
Record UserSettings := mkUserSettings {
  userId : Z;
  digestHour : Z;
  digestEnabled : bool;
  notificationsEnabled : bool
}.

(** [UpdateSettingsInput]: a field left [undefined] is [None]. *)
Record UpdateSettingsInput := mkInput {
  i_userId : Z;
  i_digestHour : option Z;
  i_digestEnabled : option bool;
  i_notificationsEnabled : option bool
}.

(** What a call can throw: the error SQLite raises when the INSERT names a
    user that table [users] does not hold (better-sqlite3 enforces foreign
    keys), and the [Error] of [setDigestHour]. *)
Inductive Failure :=
| SqliteConstraintForeignKey
| HourOutOfRange.

Inductive Outcome (A : Type) :=
| Returned (a : A)
| Raised (e : Failure).

Arguments Returned {A} a.
Arguments Raised {A} e.

Definition has_user (u : Z) (row : SettingsRow) : bool := s_user_id row =? u.

Definition mapRowToSettings (row : SettingsRow) : UserSettings :=
  {| userId := s_user_id row;
     digestHour := s_digest_hour row;
     digestEnabled := digest.Boolean (s_digest_enabled row);
     notificationsEnabled := digest.Boolean (s_notifications_enabled row) |}.

Definition get (d : Db) (u : Z) : option UserSettings :=
  option_map mapRowToSettings (find (has_user u) (settings d)).

Definition getOrDefault (d : Db) (u : Z) : UserSettings :=
  match get d u with
  | Some s => s
  | None => mkUserSettings u 9 true true
  end.

Definition with_settings (d : Db) (ss : list SettingsRow) : Db :=
  mkDb (tasks d) (users d) (reminders d) ss.

Definition registered (d : Db) (u : Z) : bool :=
  existsb (fun row => u_telegram_id row =? u) (users d).

(** [INSERT INTO settings (...) VALUES (?, 9, 1, 1)]; a violation of
    UNIQUE(user_id) is caught and answered with the row in place, any
    other error is thrown on. *)
Definition create (d : Db) (u : Z) : Db * Outcome (option UserSettings) :=
  if existsb (has_user u) (settings d) then (d, Returned (get d u))
  else if registered d u then
    let d' := with_settings d (settings d ++ [mkSettingsRow u 9 1 1]) in
    (d', Returned (get d' u))
  else (d, Raised SqliteConstraintForeignKey).

Definition input_is_empty (i : UpdateSettingsInput) : bool :=
  match i_digestHour i, i_digestEnabled i, i_notificationsEnabled i with
  | None, None, None => true
  | _, _, _ => false
  end.

Definition flag (b : bool) : Z := if b then 1 else 0.

(** The SET clause built from the input. *)
Definition set_fields (i : UpdateSettingsInput) (row : SettingsRow) : SettingsRow :=
  {| s_user_id := s_user_id row;
     s_digest_hour :=
       match i_digestHour i with Some h => h | None => s_digest_hour row end;
     s_digest_enabled :=
       match i_digestEnabled i with
       | Some b => flag b
       | None => s_digest_enabled row
       end;
     s_notifications_enabled :=
       match i_notificationsEnabled i with
       | Some b => flag b
       | None => s_notifications_enabled row
       end |}.

Definition run_update (d : Db) (i : UpdateSettingsInput) : Db :=
  with_settings d
    (map (fun row => if has_user (i_userId i) row then set_fields i row else row)
         (settings d)).

Definition update (d : Db) (i : UpdateSettingsInput)
  : Db * Outcome (option UserSettings) :=
  let u := i_userId i in
  let ensured :=
    match get d u with
    | Some s => (d, Returned (Some s))
    | None =>
        match create d u with
        | (d1, Returned _) => (d1, Returned (get d1 u))
        | (d1, Raised e) => (d1, Raised e)
        end
    end in
  match ensured with
  | (d1, Raised e) => (d1, Raised e)
  | (d1, Returned current) =>
      if input_is_empty i then (d1, Returned current)
      else
        let d2 := run_update d1 i in
        (d2, Returned (get d2 u))
  end.

(** [result !== null] *)
Definition not_null {A} (d : Db * Outcome (option A)) : Db * Outcome bool :=
  match d with
  | (d', Returned (Some _)) => (d', Returned true)
  | (d', Returned None) => (d', Returned false)
  | (d', Raised e) => (d', Raised e)
  end.

Definition setDigestEnabled (d : Db) (u : Z) (enabled : bool) : Db * Outcome bool :=
  not_null (update d (mkInput u None (Some enabled) None)).

Definition setDigestHour (d : Db) (u : Z) (hour : Z) : Db * Outcome bool :=
  if (hour <? 0) || (hour >? 23) then (d, Raised HourOutOfRange)
  else not_null (update d (mkInput u (Some hour) None None)).

Definition setNotificationsEnabled (d : Db) (u : Z) (enabled : bool)
  : Db * Outcome bool :=
  not_null (update d (mkInput u None None (Some enabled))).

(** [SELECT user_id FROM settings WHERE digest_enabled = 1 AND digest_hour = ?] *)
Definition getUsersForDigest (d : Db) (hour : Z) : list Z :=
  map s_user_id
      (filter (fun row => (s_digest_enabled row =? 1) && (s_digest_hour row =? hour))
              (settings d)).

(** [DELETE FROM settings WHERE user_id = ?]; the answer is
    [info.changes > 0]. *)
Definition delete (d : Db) (u : Z) : Db * bool :=
  (with_settings d (filter (fun row => negb (has_user u row)) (settings d)),
   existsb (has_user u) (settings d)).

(** The loop of [bulkUpdate]: an error of [update] is not caught and ends
    the loop, the rows written before it stay written. *)
Fixpoint bulk_loop (d : Db) (userIds : list Z)
         (fields : Z -> UpdateSettingsInput) (updated : nat) : Db * Outcome nat :=
  match userIds with
  | [] => (d, Returned updated)
  | u :: rest =>
      match update d (fields u) with
      | (d', Returned (Some _)) => bulk_loop d' rest fields (S updated)
      | (d', Returned None) => bulk_loop d' rest fields updated
      | (d', Raised e) => (d', Raised e)
      end
  end.

Definition bulkUpdate (d : Db) (userIds : list Z)
           (hour : option Z) (enabled notifications : option bool)
  : Db * Outcome nat :=
  bulk_loop d userIds (fun u => mkInput u hour enabled notifications) 0.

(** [settingsHelpers.toggleDigest] and [toggleNotifications]. *)
Definition toggleDigest (d : Db) (u : Z) : Db * Outcome bool :=
  setDigestEnabled d u (negb (digestEnabled (getOrDefault d u))).

Definition toggleNotifications (d : Db) (u : Z) : Db * Outcome bool :=
  setNotificationsEnabled d u (negb (notificationsEnabled (getOrDefault d u))).

End settingsRepo.

(* ------------------------------------------------------------------ *)
(** ** jobs/cleanup.ts: the ledger part *)

Module cleanup.





End cleanup.

(* ------------------------------------------------------------------ *)
(** ** Vocabulary of the statements *)

(** A computation preserves [P] when the world it leaves satisfies [P]
    whenever the world it started from did, whether it returns or throws. *)
Definition preserves {A} (P : World -> Prop) (m : M A) : Prop :=
  forall env w, P w -> P (fst (m env w)).

(** The window types a ledger row may carry according to the data model. *)
Definition LEDGER_TYPES : list string := ["24h"; "6h"; "2h"; "overdue"].

Definition ledger_key (r : ReminderRow) : Z * Z * string :=
  (r_task_id r, r_user_id r, r_type r).

(** Every row has a window type of the data model and no two rows share
    their (task, recipient, window) key. *)
Definition ledger_ok (rows : list ReminderRow) : Prop :=
  Forall (fun r => In (r_type r) LEDGER_TYPES) rows
  /\ NoDup (map ledger_key rows).

(** The stored rows satisfy the CHECK constraint of the schema. *)
Definition schema_ok (rows : list ReminderRow) : Prop :=
  Forall (fun r => reminders.type_check (r_type r) = true) rows.

(** The messages addressed to one user. *)
Definition sent_to (u : Z) (l : list Sent) : list Sent :=
  filter (fun s => to s =? u) l.

(** The messages one candidate of a digest run contributes to the outbox. *)
Definition digest_messages (ty : digest.DigestType) (env : Env) (d : Db) (v : User)
  : list Sent :=
  let s := digest.getUserSettings d (telegramId v) in
  if negb (digest.digestEnabled s) then []
  else if digest.is_morning ty && negb (digest.digestHour s =? 9) then []
  else
    match usersRepo.getByTelegramId d (telegramId v) with
    | Some _ =>
        [mkSent (telegramId v) None
                (if digest.is_morning ty then MorningDigest else EveningDigest)
                (tg_ok env (telegramId v))]
    | None => []
    end.

(** A morning run includes a user when it sends them the morning digest. *)
Definition included_in_morning_run (env : Env) (w : World) (u : Z) : Prop :=
  exists s,
    In s (outbox (fst (digest.sendDailyDigest digest.morning env w)))
    /\ to s = u /\ kind s = MorningDigest.

(** The digest default read literally: every user without a settings row
    is included in the morning run. *)
Definition defaults_include_every_user (env : Env) (w : World) : Prop :=
  forall row,
    In row (users (db w)) ->
    find (fun s => s_user_id s =? u_telegram_id row) (settings (db w)) = None ->
    included_in_morning_run env w (u_telegram_id row).

(** The example of the deadline sweep read literally: every notification
    the sweep enqueues is for the six-hour window, both the assignee [A] and
    the creator [B] get one, and afterwards the ledger holds two rows with
    [sent_at] set for the task. *)
Definition six_hour_kind (k : MsgKind) : bool :=
  match k with
  | Reminder type _ => String.eqb type "SECOND" || String.eqb type "6h"
  | _ => false
  end.

Definition six_hour_example_as_stated (env : Env) (w : World) (task_rowid A B : Z)
  : Prop :=
  let w' := reminders.sweep env w in
  (forall s, In s (outbox w') -> six_hour_kind (kind s) = true)
  /\ (exists s, In s (outbox w') /\ to s = A)
  /\ (exists s, In s (outbox w') /\ to s = B)
  /\ List.length
       (filter (fun r => (r_task_id r =? task_rowid) && reminders.is_some (r_sent_at r))
               (reminders (db w')))
     = 2%nat.

(** The message [sendReminderToUser] sends for the window key FIRST. *)
Definition first_to (env : Env) (card : string) (u : Z) : Sent :=
  mkSent u (Some card) (Reminder "FIRST" None) (tg_ok env u).

(** The world after some more calls of the board client. *)
Definition with_board_calls (w : World) (cs : list BoardCall) : World :=
  mkWorld (db w) (board_calls w ++ cs) (outbox w).

(** The database after the status-only UPDATE of one card. *)
Definition status_written (env : Env) (d : Db) (card : string) (s : TaskStatus) : Db :=
  tasksRepo.with_tasks d
    (map (fun row =>
            if tasksRepo.has_card card row
            then tasksRepo.apply_patch (tasksRepo.status_patch s)
                                       (Sql.current_timestamp env) row
            else row)
         (tasks d)).

(** A task with another status and modification time, all else the same. *)
Definition with_status_at (t : Task) (s : TaskStatus) (stamp : Time) : Task :=
  mkTask (id t) (title t) (description t) (priority t) (category t)
         (assigneeId t) (dueDate t) (createdAt t) (mkLocalDate stamp) (createdBy t) s
         (plankaCardId t) (chatId t).

(** The least number of board lists for which the positional fallback of
    [getListForStatus] finds a list. *)
Definition min_lists (s : TaskStatus) : nat :=
  match s with
  | TODO => 1
  | IN_PROGRESS => 2
  | IN_REVIEW => 3
  | DONE => 1
  end.

(** The messages [sendReminderToUser] sends to a list of recipients: one to
    each recipient that is a registered user. *)
Definition reminder_msgs (env : Env) (d : Db) (t : Task) (type : string)
           (us : list Z) : list Sent :=
  flat_map (fun u =>
              match usersRepo.getByTelegramId d u with
              | Some _ =>
                  [mkSent u (Some (plankaCardId t))
                          (Reminder type (reminders.window_line type)) (tg_ok env u)]
              | None => []
              end)
           us.

(** The same for [sendOverdueReminderToUser]. *)
Definition overdue_msgs (env : Env) (d : Db) (t : Task) (us : list Z) : list Sent :=
  flat_map (fun u =>
              match usersRepo.getByTelegramId d u with
              | Some _ => [mkSent u (Some (plankaCardId t)) OverdueNotice (tg_ok env u)]
              | None => []
              end)
           us.

(** A message of the sweep about the task of one row: a reminder or an
    overdue notice, about that card, to its creator or its assignee, who is
    a registered user. *)
Definition sweep_message_for (d : Db) (row : TaskRow) (s : Sent) : Prop :=
  about s = Some (t_planka_card_id row)
  /\ (to s = t_created_by row \/ t_assigned_to row = Some (to s))
  /\ usersRepo.getByTelegramId d (to s) <> None
  /\ ((exists type line, kind s = Reminder type line) \/ kind s = OverdueNotice).

(** The ledger holds a row with this key whose [sent_at] is set. *)
Definition has_sent (rows : list ReminderRow) (k : Z * Z * string) : Prop :=
  exists r, In r rows /\ ledger_key r = k /\ r_sent_at r <> None.

(** The kind of message a digest run of this type sends. *)
Definition digest_kind (ty : digest.DigestType) : MsgKind :=
  if digest.is_morning ty then MorningDigest else EveningDigest.

(** The user is a row of [users] with one of the two managing roles. *)
Definition is_manager (d : Db) (u : Z) : Prop :=
  exists row,
    In row (users d) /\ u_telegram_id row = u
    /\ (u_role row = OWNER \/ u_role row = ADMIN).

(** UNIQUE(telegram_id) of table [users]. *)
Definition users_unique (d : Db) : Prop :=
  NoDup (map u_telegram_id (users d)).

(** The settings object an input asks for, given the one in force. *)
Definition apply_input (i : settingsRepo.UpdateSettingsInput)
           (s : settingsRepo.UserSettings) : settingsRepo.UserSettings :=
  settingsRepo.mkUserSettings
    (settingsRepo.userId s)
    (match settingsRepo.i_digestHour i with
     | Some h => h
     | None => settingsRepo.digestHour s
     end)
    (match settingsRepo.i_digestEnabled i with
     | Some b => b
     | None => settingsRepo.digestEnabled s
     end)
    (match settingsRepo.i_notificationsEnabled i with
     | Some b => b
     | None => settingsRepo.notificationsEnabled s
     end).

(** UNIQUE(user_id) of table [settings]. *)
Definition settings_unique (d : Db) : Prop :=
  NoDup (map s_user_id (settings d)).

(** Everything of the store but table [settings] is the same. *)
Definition same_but_settings (d d' : Db) : Prop :=
  tasks d' = tasks d /\ users d' = users d /\ reminders d' = reminders d.

(* ------------------------------------------------------------------ *)
(** ** Concrete scenarios *)

Module Scenario.

Definition now0 : Time := 1700000000000.

Definition env_at (t : Time) : Env :=
  mkEnv t 0 (fun _ => true)
        (Some [mkPlankaList "l1" "Backlog"; mkPlankaList "l2" "In progress";
               mkPlankaList "l3" "Review"; mkPlankaList "l4" "Done"])
        (fun _ _ => true).

Definition env0 : Env := env_at now0.
Definition env_5min : Env := env_at (now0 + 5 * 60 * 1000).
Definition env_23h : Env := env_at (now0 + 23 * Sql.MS_PER_HOUR).
Definition env_25h : Env := env_at (now0 + 25 * Sql.MS_PER_HOUR).

(** An environment whose board has two lists, neither named after a
    status: the review status resolves to no list. *)
Definition env_two_lists : Env :=
  mkEnv now0 0 (fun _ => true)
        (Some [mkPlankaList "l1" "Alpha"; mkPlankaList "l2" "Beta"])
        (fun _ _ => true).


Definition userB : UserRow := mkUserRow 1 100 (Some "bobur") None OWNER RU 10.
Definition userA : UserRow := mkUserRow 2 200 (Some "aziza") None ADMIN RU 20.
Definition userE : UserRow := mkUserRow 3 300 (Some "elyor") None EMPLOYEE UZ 30.

Definition task_with (s : TaskStatus) (due : option Time) : TaskRow :=
  mkTaskRow 7 "card-7" "Quarterly report" None "средний" "другое" s
            100 (Some 200) 5000 due 0 0.

Definition world_with (ts : list TaskRow) (rs : list ReminderRow)
           (ss : list SettingsRow) : World :=
  mkWorld (mkDb ts [userB; userA; userE] rs ss) [] [].

(** A [todo] task due in five hours, created by 100 and assigned to 200. *)
Definition due_in_5h : World :=
  world_with [task_with TODO (Some (now0 + 5 * Sql.MS_PER_HOUR))] [] [].

(** A [todo] task that was due two days ago. *)
Definition overdue_2d : World :=
  world_with [task_with TODO (Some (now0 - 2 * Sql.MS_PER_DAY))] [] [].

Definition in_status (s : TaskStatus) : World :=
  world_with [task_with s None] [] [].

(** A ledger with two rows the schema accepts. *)
Definition with_ledger : World :=
  world_with [task_with TODO (Some (now0 + 5 * Sql.MS_PER_HOUR))]
             [mkReminderRow 7 100 "24h" (Some 1699990000000);
              mkReminderRow 7 100 "6h" None]
             [].

(** Owner 100 has switched the digest off; admin 200 and employee 300
    have no settings row. *)
Definition digest_world : World :=
  world_with [] [] [mkSettingsRow 100 9 0 1].


(** Owner 100 keeps the digest on and has chosen hour 18. *)
Definition digest_at_18 : World :=
  world_with [] [] [mkSettingsRow 100 18 1 1].

Definition reminder_to (u : Z) : Sent :=
  mkSent u (Some "card-7") (Reminder "FIRST" None) true.

Definition overdue_to (u : Z) : Sent :=
  mkSent u (Some "card-7") OverdueNotice true.

End Scenario.

(* ------------------------------------------------------------------ *)
(** * Properties of the status transition engine *)

Section TransitionFacts.

Import tasksRepo updateStatus.

Lemma TaskStatus_eqb_eq a b : TaskStatus_eqb a b = true <-> a = b.
Proof. destruct a, b; simpl; split; intro H; try reflexivity; discriminate. Qed.

Lemma TaskStatus_eqb_refl a : TaskStatus_eqb a a = true.
Proof. now destruct a. Qed.

Lemma TaskStatus_eqb_neq a b : a <> b -> TaskStatus_eqb a b = false.
Proof.
  intro H. destruct (TaskStatus_eqb a b) eqn:E; [|reflexivity].
  apply TaskStatus_eqb_eq in E. contradiction.
Qed.

Lemma allowed_existsb from to_ :
  existsb (TaskStatus_eqb to_) (allowedTransitions from) = true
  <-> In to_ (allowedTransitions from).
Proof.
  rewrite existsb_exists. split.
  - intros [x [Hin Hx]]. apply TaskStatus_eqb_eq in Hx. now subst.
  - intro Hin. exists to_. split; [assumption | apply TaskStatus_eqb_refl].
Qed.

(** The pairs of different statuses that the adjacency table leaves out. *)
Lemma disallowed_pairs s1 s2 :
  s1 <> s2 ->
  (~ In s2 (allowedTransitions s1)
   <-> In (s1, s2) [(TODO, IN_REVIEW); (IN_REVIEW, TODO); (DONE, IN_REVIEW)]).
Proof.
  intro Hneq. split.
  - intro Hnot. destruct s1, s2; simpl in *; try tauto;
      try (exfalso; apply Hneq; reflexivity);
      exfalso; apply Hnot; tauto.
  - intros Hin Hal. simpl in Hin.
    destruct Hin as [E|[E|[E|[]]]]; injection E as <- <-; simpl in Hal;
      repeat (destruct Hal as [Hal|Hal]; try discriminate); exact Hal.
Qed.

(** What [getByPlankaId] found is a row carrying the looked-up card id. *)
Lemma getByPlankaId_row d card t :
  getByPlankaId d card = Some t ->
  exists row, find (has_card card) (tasks d) = Some row
              /\ t = mapRowToTask row
              /\ t_planka_card_id row = card.
Proof.
  unfold getByPlankaId. destruct (find (has_card card) (tasks d)) as [row|] eqn:F;
    simpl; [|discriminate].
  intro H. injection H as <-. exists row. repeat split.
  apply find_some in F. destruct F as [_ F]. now apply String.eqb_eq in F.
Qed.

Lemma getByPlankaId_card d card t :
  getByPlankaId d card = Some t -> plankaCardId t = card.
Proof.
  intro H. apply getByPlankaId_row in H. destruct H as [row [_ [-> Hc]]]. exact Hc.
Qed.

Lemma has_card_apply_patch card p stamp row :
  has_card card (apply_patch p stamp row) = has_card card row.
Proof. reflexivity. Qed.

Lemma find_patched card p stamp rows :
  find (has_card card)
       (map (fun row => if has_card card row then apply_patch p stamp row else row) rows)
  = option_map (apply_patch p stamp) (find (has_card card) rows).
Proof.
  induction rows as [|r rows IH]; simpl; [reflexivity|].
  destruct (has_card card r) eqn:E.
  - rewrite has_card_apply_patch, E. reflexivity.
  - rewrite E. exact IH.
Qed.

Lemma find_filter_nonempty {A} (f : A -> bool) l x :
  find f l = Some x -> Nat.eqb (List.length (filter f l)) 0 = false.
Proof.
  induction l as [|y l IH]; simpl; [discriminate|].
  destruct (f y); simpl; [reflexivity | exact IH].
Qed.

(** After a status-only [update] of an existing card, the store holds the
    new status under that card. *)
Lemma update_status_found env w card s row :
  find (has_card card) (tasks (db w)) = Some row ->
  exists w',
    update card (status_patch s) env w
    = (w', Ok (Some (mapRowToTask
                       (apply_patch (status_patch s) (Sql.current_timestamp env) row))))
    /\ board_calls w' = board_calls w
    /\ outbox w' = outbox w
    /\ getByPlankaId (db w') card
       = Some (mapRowToTask
                 (apply_patch (status_patch s) (Sql.current_timestamp env) row))
    /\ users (db w') = users (db w).
Proof.
  intro F. unfold update, bind, ask, get_db, put_db, ret. simpl.
  rewrite (find_filter_nonempty _ _ F).
  unfold getByPlankaId. simpl. rewrite find_patched, F. simpl.
  eexists. split; [reflexivity|]. simpl.
  rewrite find_patched, F. repeat split.
Qed.

End TransitionFacts.

(** C7. A transition whose target status equals the task's current status
    returns the task as it is, with the previous status equal to the
    current one, and leaves the whole world as it was: no call is added to
    the trace of board-API calls and the database is the same (no store
    write).  With a task already [DONE] and target [DONE] this is the
    no-op of the example. *)
Theorem same_status_is_noop (env : Env) (w : World) (taskId : string) (t : Task)
        (userId : Z) :
  tasksRepo.getByPlankaId (db w) taskId = Some t ->
  exists w' r,
    updateStatus.updateTaskStatus taskId (status t) userId env w = (w', Ok r)
    /\ updateStatus.task r = t
    /\ updateStatus.previousStatus r = status t
    /\ board_calls w' = board_calls w
    /\ db w' = db w.
Proof.
  intro H. unfold updateStatus.updateTaskStatus, bind, get_db. simpl.
  rewrite H, TaskStatus_eqb_refl. unfold ret.
  do 2 eexists. repeat split.
Qed.

(** C4. For a task in status s1 and a target s2, different from s1 and not
    listed for s1 in the adjacency table, the transition throws
    [InvalidStatusTransition], adds no call to the board trace, and leaves
    the database as it was, so the persisted status of the task is still
    s1. *)
Theorem invalid_transition_rejected (env : Env) (w : World) (taskId : string)
        (t : Task) (s2 : TaskStatus) (userId : Z) :
  tasksRepo.getByPlankaId (db w) taskId = Some t ->
  status t <> s2 ->
  ~ In s2 (updateStatus.allowedTransitions (status t)) ->
  exists w',
    updateStatus.updateTaskStatus taskId s2 userId env w
    = (w', Throw (AppError INVALID_STATUS_TRANSITION))
    /\ board_calls w' = board_calls w
    /\ db w' = db w
    /\ option_map status (tasksRepo.getByPlankaId (db w') taskId) = Some (status t).
Proof.
  intros H Hneq Hnot.
  unfold updateStatus.updateTaskStatus, bind, get_db. simpl.
  rewrite H, (TaskStatus_eqb_neq Hneq).
  unfold updateStatus.validateStatusTransition.
  destruct (existsb (TaskStatus_eqb s2)
                    (updateStatus.allowedTransitions (status t))) eqn:E.
  - apply allowed_existsb in E. contradiction.
  - unfold throw. eexists. repeat split. now rewrite H.
Qed.

(** Settles a clause about one answer of the board in a run where the
    board gave another answer, or gave this one. *)
Ltac board_answer :=
  intros;
  repeat match goal with
         | H : Some _ = Some _ |- _ => injection H as H; subst
         end;
  first [ discriminate | congruence | split; reflexivity | reflexivity ].

(** C5. For a task in status s1 and a target s2 that the adjacency table
    allows: the transition throws a [PlankaError] and leaves the database
    exactly as it was when the board lists cannot be fetched, when no
    target list is resolved for s2, and when the card update is refused;
    whenever it throws an [AppError] the database is as it was; the
    database changes only in runs whose board trace ends with a successful
    [updateCard] for the task's card; and when the board accepts the update
    the status persisted for the task is s2, the call returning the updated
    task for a registered caller (for a caller that is not registered the
    comment that follows the write raises a [TypeError]). *)
Theorem persist_only_after_board_success (env : Env) (w : World)
        (taskId : string) (t : Task) (s2 : TaskStatus) (userId : Z) :
  tasksRepo.getByPlankaId (db w) taskId = Some t ->
  status t <> s2 ->
  In s2 (updateStatus.allowedTransitions (status t)) ->
  exists w' r,
    updateStatus.updateTaskStatus taskId s2 userId env w = (w', r)
    /\ (forall c, r = Throw (AppError c) -> db w' = db w)
    /\ (board_lists env = None ->
        r = Throw (AppError PLANKA_ERROR) /\ db w' = db w)
    /\ (forall lists,
           board_lists env = Some lists ->
           updateStatus.getListForStatus lists s2 = None ->
           r = Throw (AppError PLANKA_ERROR) /\ db w' = db w)
    /\ (forall lists l,
           board_lists env = Some lists ->
           updateStatus.getListForStatus lists s2 = Some l ->
           card_patch_ok env (plankaCardId t) (list_id l) = false ->
           r = Throw (AppError PLANKA_ERROR) /\ db w' = db w)
    /\ (db w' <> db w ->
        exists l,
          board_calls w'
          = board_calls w ++ [GetBoardLists true;
                              UpdateCard (plankaCardId t) (list_id l) true])
    /\ (forall lists l,
           board_lists env = Some lists ->
           updateStatus.getListForStatus lists s2 = Some l ->
           card_patch_ok env (plankaCardId t) (list_id l) = true ->
           option_map status (tasksRepo.getByPlankaId (db w') taskId) = Some s2
           /\ (usersRepo.getByTelegramId (db w) userId <> None ->
               exists u,
                 r = Ok u
                 /\ status (updateStatus.task u) = s2
                 /\ updateStatus.previousStatus u = status t)
           /\ (usersRepo.getByTelegramId (db w) userId = None ->
               r = Throw JsTypeError)).
Proof.
  intros H Hneq Hin.
  destruct (getByPlankaId_row _ _ H) as [row [F [Ht Hcard]]].
  assert (Hc : plankaCardId t = taskId) by (subst t; exact Hcard).
  unfold updateStatus.updateTaskStatus, bind at 1, get_db at 1. simpl.
  rewrite H, (TaskStatus_eqb_neq Hneq).
  unfold updateStatus.validateStatusTransition.
  apply allowed_existsb in Hin. rewrite Hin.
  unfold plankaClient.getBoardLists, plankaClient.updateCard.
  destruct (board_lists env) as [lists|] eqn:BL.
  - destruct (updateStatus.getListForStatus lists s2) as [l|] eqn:GL.
    + destruct (card_patch_ok env (plankaCardId t) (list_id l)) eqn:CP.
      * (* the board accepted the update *)
        set (w1 := mkWorld (db w)
                     (board_calls w ++ [GetBoardLists true]
                        ++ [UpdateCard (plankaCardId t) (list_id l) true])
                     (outbox w)).
        assert (F1 : find (tasksRepo.has_card (plankaCardId t)) (tasks (db w1))
                     = Some row)
          by (rewrite Hc; exact F).
        destruct (@update_status_found env w1 (plankaCardId t) s2 row F1)
          as [w2 [U [B2 [_ [G2 U2]]]]].
        assert (GU : usersRepo.getByTelegramId (db w2) userId
                     = usersRepo.getByTelegramId (db w) userId).
        { unfold usersRepo.getByTelegramId. now rewrite U2. }
        exists w2.
        exists (match usersRepo.getByTelegramId (db w) userId with
                | Some user =>
                    Ok (updateStatus.mkStatusUpdate
                          (tasksRepo.mapRowToTask
                             (tasksRepo.apply_patch (tasksRepo.status_patch s2)
                                                    (Sql.current_timestamp env) row))
                          (status t) (Some user))
                | None => Throw JsTypeError
                end).
        split.
        { unfold bind, ret, ask, log_board, get_db. simpl. rewrite BL. simpl.
          rewrite GL, CP. simpl. rewrite <- app_assoc. fold w1.
          unfold bind in U. rewrite U. simpl. rewrite GU.
          destruct (usersRepo.getByTelegramId (db w) userId); reflexivity. }
        split.
        { intros c. destruct (usersRepo.getByTelegramId (db w) userId); discriminate. }
        split; [discriminate|].
        split.
        { intros lists' BL'. injection BL' as <-. rewrite GL. discriminate. }
        split.
        { intros lists' l' BL' GL'. injection BL' as <-. rewrite GL in GL'.
          injection GL' as <-. rewrite CP. discriminate. }
        split.
        { intros _. exists l. rewrite B2. reflexivity. }
        intros lists' l' BL' GL' _. split; [|split].
        { rewrite <- Hc, G2. reflexivity. }
        { intro R. destruct (usersRepo.getByTelegramId (db w) userId) as [u|];
            [|now contradiction R].
          eexists. split; [reflexivity|]. simpl. split; reflexivity. }
        { intros ->. reflexivity. }
      * (* updateCard failed *)
        eexists. eexists. split.
        { unfold bind, ret, ask, log_board, throw. simpl. rewrite BL. simpl.
          rewrite GL, CP. simpl. reflexivity. }
        simpl. do 4 (split; [board_answer|]).
        split; [intro C; exfalso; now apply C | board_answer].
    + (* no target list *)
      eexists. eexists. split.
      { unfold bind, ret, ask, log_board, throw. simpl. rewrite BL. simpl.
        rewrite GL. reflexivity. }
      simpl. do 4 (split; [board_answer|]).
      split; [intro C; exfalso; now apply C | board_answer].
  - (* getBoardLists failed *)
    eexists. eexists. split.
    { unfold bind, ret, ask, log_board, throw. simpl. rewrite BL. simpl. reflexivity. }
    simpl. do 4 (split; [board_answer|]).
    split; [intro C; exfalso; now apply C | board_answer].
Qed.

(** C10. [autoUpdateStatusOnAssign] on an unknown task identifier returns
    [null] without throwing, and on an existing task whose status is not
    [todo] it returns that task; in both cases the world is unchanged, so
    there is no board-API call and no store write. *)
Theorem auto_update_skips (env : Env) (w : World) (taskId : string) (assignee : Z) :
  (tasksRepo.getByPlankaId (db w) taskId = None ->
   updateStatus.autoUpdateStatusOnAssign taskId assignee env w = (w, Ok None))
  /\ (forall t,
         tasksRepo.getByPlankaId (db w) taskId = Some t ->
         status t <> TODO ->
         updateStatus.autoUpdateStatusOnAssign taskId assignee env w = (w, Ok (Some t))).
Proof.
  unfold updateStatus.autoUpdateStatusOnAssign, bind, get_db, ret. simpl. split.
  - intro H. now rewrite H.
  - intros t H Hs. rewrite H, (TaskStatus_eqb_neq Hs). reflexivity.
Qed.

(* ------------------------------------------------------------------ *)
(** * Frame rules of the monad *)

Section Preservation.

Variable P : World -> Prop.

Lemma preserves_ret A (a : A) : preserves P (ret a).
Proof. intros env w H. exact H. Qed.

Lemma preserves_throw A (e : Error) : preserves P (@throw A e).
Proof. intros env w H. exact H. Qed.

Lemma preserves_ask : preserves P ask.
Proof. intros env w H. exact H. Qed.

Lemma preserves_get_db : preserves P get_db.
Proof. intros env w H. exact H. Qed.

Lemma preserves_bind A B (m : M A) (k : A -> M B) :
  preserves P m -> (forall a, preserves P (k a)) -> preserves P (bind m k).
Proof.
  intros Hm Hk env w H. unfold bind.
  specialize (Hm env w H). destruct (m env w) as [w' [a|e]]; simpl in *.
  - apply Hk. exact Hm.
  - exact Hm.
Qed.

Lemma preserves_try_log (m : M unit) : preserves P m -> preserves P (try_log m).
Proof.
  intros Hm env w H. unfold try_log.
  specialize (Hm env w H). now destruct (m env w).
Qed.

Lemma preserves_forM A (xs : list A) (body : A -> M unit) :
  (forall x, preserves P (body x)) -> preserves P (forM_ xs body).
Proof.
  intro Hb. induction xs as [|x xs IH]; simpl.
  - apply preserves_ret.
  - apply preserves_bind; [apply Hb | intros _; exact IH].
Qed.

Lemma preserves_if A (b : bool) (m1 m2 : M A) :
  preserves P m1 -> preserves P m2 -> preserves P (if b then m1 else m2).
Proof. now destruct b. Qed.

(** The sweep talks to the outside through [sendMessage] only. *)
Hypothesis P_sent : forall s, preserves P (log_sent s).

Lemma preserves_sendReminderToUser u t type :
  preserves P (reminders.sendReminderToUser u t type).
Proof.
  apply preserves_try_log, preserves_bind; [apply preserves_get_db|].
  intro d. destruct (usersRepo.getByTelegramId d u).
  - apply preserves_bind; [apply preserves_ask | intro; apply P_sent].
  - apply preserves_ret.
Qed.

Lemma preserves_sendOverdueReminderToUser u t :
  preserves P (reminders.sendOverdueReminderToUser u t).
Proof.
  apply preserves_try_log, preserves_bind; [apply preserves_get_db|].
  intro d. destruct (usersRepo.getByTelegramId d u).
  - apply preserves_bind; [apply preserves_ask | intro; apply P_sent].
  - apply preserves_ret.
Qed.

(** The sweep preserves whatever its two INSERT statements preserve, the
    first one being issued with the keys of [REMINDER_WINDOWS] only. *)
Hypothesis P_mark : forall card type,
    In type (map fst reminders.REMINDER_WINDOWS) ->
    preserves P (reminders.markReminderSent card type).
Hypothesis P_overdue : forall card,
    preserves P (reminders.markOverdueReminderSent card).

Lemma preserves_remind_task type t :
  In type (map fst reminders.REMINDER_WINDOWS) ->
  preserves P (reminders.remind_task type t).
Proof.
  intro Hin. unfold reminders.remind_task.
  apply preserves_if; [apply preserves_ret|].
  apply preserves_bind; [apply preserves_get_db | intro d1].
  apply preserves_if; [apply preserves_ret|].
  apply preserves_bind.
  - apply preserves_forM. intro u. apply preserves_sendReminderToUser.
  - intros _. now apply P_mark.
Qed.

Lemma preserves_window_pass type hours :
  In type (map fst reminders.REMINDER_WINDOWS) ->
  preserves P (reminders.window_pass (type, hours)).
Proof.
  intro Hin. unfold reminders.window_pass.
  apply preserves_bind; [apply preserves_ask | intro env].
  apply preserves_bind; [apply preserves_get_db | intro d].
  apply preserves_forM. intro t. now apply preserves_remind_task.
Qed.

Lemma preserves_escalate_task t : preserves P (reminders.escalate_task t).
Proof.
  unfold reminders.escalate_task.
  apply preserves_bind; [apply preserves_ask | intro env].
  apply preserves_bind; [apply preserves_get_db | intro d1]. cbv zeta.
  apply preserves_if; [|apply preserves_ret].
  apply preserves_bind.
  - apply preserves_forM. intro u. apply preserves_sendOverdueReminderToUser.
  - intros _. apply P_overdue.
Qed.

Lemma preserves_overdue_pass : preserves P reminders.overdue_pass.
Proof.
  unfold reminders.overdue_pass.
  apply preserves_bind; [apply preserves_ask | intro env].
  apply preserves_bind; [apply preserves_get_db | intro d].
  apply preserves_forM. intro t. apply preserves_escalate_task.
Qed.

Lemma preserves_sendReminders : preserves P reminders.sendReminders.
Proof.
  apply preserves_try_log, preserves_bind.
  - simpl. repeat (apply preserves_bind; [|intros _]);
      try (apply preserves_window_pass; simpl; tauto).
    apply preserves_ret.
  - intros _. apply preserves_overdue_pass.
Qed.

End Preservation.

(* ------------------------------------------------------------------ *)
(** * The sweep and the task store *)

(** An INSERT into [reminders] touches that table only. *)
Lemma run_insert_frame mode news env w :
  let w' := fst (reminders.run_insert mode news env w) in
  tasks (db w') = tasks (db w)
  /\ users (db w') = users (db w)
  /\ settings (db w') = settings (db w)
  /\ board_calls w' = board_calls w
  /\ outbox w' = outbox w.
Proof.
  unfold reminders.run_insert, bind, get_db. simpl.
  destruct (reminders.insert_rows mode news (reminders (db w))); simpl; repeat split.
Qed.

(** Hence so do the two statements that mark a reminder as sent. *)
Lemma mark_frame (T : list TaskRow) (U : list UserRow) (S : list SettingsRow)
      (B : list BoardCall) :
  let P := fun w' : World =>
             tasks (db w') = T /\ users (db w') = U
             /\ settings (db w') = S /\ board_calls w' = B in
  (forall card type, preserves P (reminders.markReminderSent card type))
  /\ (forall card, preserves P (reminders.markOverdueReminderSent card)).
Proof.
  assert (G : forall mode news env w,
             tasks (db w) = T /\ users (db w) = U
             /\ settings (db w) = S /\ board_calls w = B ->
             let w' := fst (reminders.run_insert mode news env w) in
             tasks (db w') = T /\ users (db w') = U
             /\ settings (db w') = S /\ board_calls w' = B).
  { intros mode news env w [H1 [H2 [H3 H4]]].
    destruct (run_insert_frame mode news env w) as [F1 [F2 [F3 [F4 _]]]].
    cbv zeta. rewrite F1, F2, F3, F4. repeat split; assumption. }
  split; intros; intros env w HP;
    unfold reminders.markReminderSent, reminders.markOverdueReminderSent,
           bind at 1 2, ask, get_db at 1; simpl; now apply G.
Qed.

(** C8. One sweep, from any world and at any time, leaves table [tasks]
    exactly as it found it, so that the status persisted for every card is
    the one it had before; it also leaves [users], [settings] and the trace
    of board calls alone: what it changes is the outbox of notifications
    and the reminder ledger. *)
Theorem sweep_never_touches_tasks (env : Env) (w : World) :
  tasks (db (reminders.sweep env w)) = tasks (db w)
  /\ (forall card,
         option_map status (tasksRepo.getByPlankaId (db (reminders.sweep env w)) card)
         = option_map status (tasksRepo.getByPlankaId (db w) card))
  /\ users (db (reminders.sweep env w)) = users (db w)
  /\ settings (db (reminders.sweep env w)) = settings (db w)
  /\ board_calls (reminders.sweep env w) = board_calls w.
Proof.
  pose (P := fun w' : World =>
               tasks (db w') = tasks (db w)
               /\ users (db w') = users (db w)
               /\ settings (db w') = settings (db w)
               /\ board_calls w' = board_calls w).
  assert (HP : P (reminders.sweep env w)).
  { unfold reminders.sweep. apply (@preserves_sendReminders P).
    - intros s env' w' H. exact H.
    - intros card type _ env' w' HP. now apply mark_frame.
    - intros card env' w' HP. now apply mark_frame.
    - unfold P. repeat split. }
  destruct HP as [H1 [H2 [H3 H4]]]. repeat split; try assumption.
  intro card. unfold tasksRepo.getByPlankaId. now rewrite H1.
Qed.

(* ------------------------------------------------------------------ *)
(** * The reminder ledger under the schema constraints *)

Section Ledger.

Import reminders.

Lemma same_key_iff a b : same_key a b = true <-> ledger_key a = ledger_key b.
Proof.
  unfold same_key, ledger_key. rewrite !andb_true_iff, !Z.eqb_eq, String.eqb_eq.
  split.
  - intros [[-> ->] ->]. reflexivity.
  - intro H. injection H as -> -> ->. repeat split.
Qed.

Lemma type_check_ledger type : type_check type = true -> In type LEDGER_TYPES.
Proof.
  unfold type_check. rewrite existsb_exists. intros [x [Hin Hx]].
  apply String.eqb_eq in Hx. subst x. simpl in *. tauto.
Qed.

Lemma NoDup_snoc {A} (l : list A) (x : A) :
  NoDup l -> ~ In x l -> NoDup (l ++ [x]).
Proof.
  induction l as [|y l IH]; simpl; intros Hnd Hx.
  - constructor; [tauto | constructor].
  - inversion Hnd as [|? ? Hy Hl]; subst. constructor.
    + rewrite in_app_iff. simpl. intros [H|[H|[]]]; [tauto | subst; tauto].
    + apply IH; tauto.
Qed.

Lemma NoDup_map_filter {A B} (f : A -> B) (g : A -> bool) (l : list A) :
  NoDup (map f l) -> NoDup (map f (filter g l)).
Proof.
  induction l as [|y l IH]; simpl; intro Hnd; [constructor|].
  inversion Hnd as [|? ? Hy Hl]; subst.
  destruct (g y); simpl; [constructor|]; auto.
  intro Hin. apply Hy. rewrite in_map_iff in *.
  destruct Hin as [z [Hz Hin]]. exists z. split; [exact Hz|].
  now apply filter_In in Hin.
Qed.

Lemma no_key_when_absent new rows :
  existsb (same_key new) rows = false -> ~ In (ledger_key new) (map ledger_key rows).
Proof.
  intros E Hin. apply in_map_iff in Hin. destruct Hin as [r [Hk Hr]].
  assert (existsb (same_key new) rows = true); [|congruence].
  apply existsb_exists. exists r. split; [exact Hr|].
  apply same_key_iff. now symmetry.
Qed.

(** One accepted row keeps the ledger well formed, under either conflict
    clause. *)
Lemma insert_row_ok mode new rows rows' :
  ledger_ok rows -> insert_row mode new rows = Ok rows' -> ledger_ok rows'.
Proof.
  intros [Hty Hnd]. unfold insert_row.
  destruct (type_check (r_type new)) eqn:TC; simpl; [|discriminate].
  apply type_check_ledger in TC.
  destruct (existsb (same_key new) rows) eqn:EX.
  - destruct mode; intro H; injection H as <-; split.
    + apply Forall_forall. intros r Hin. apply in_map_iff in Hin.
      destruct Hin as [r0 [<- Hr0]]. rewrite Forall_forall in Hty.
      specialize (Hty r0 Hr0). now destruct (same_key new r0).
    + rewrite map_map.
      rewrite (map_ext _ ledger_key); [exact Hnd|].
      intro r. now destruct (same_key new r).
    + apply Forall_app. split.
      * apply Forall_forall. intros r Hin. apply filter_In in Hin.
        rewrite Forall_forall in Hty. now apply Hty.
      * constructor; [exact TC | constructor].
    + rewrite map_app. simpl. apply NoDup_snoc.
      * now apply NoDup_map_filter.
      * intro Hin. apply in_map_iff in Hin. destruct Hin as [r [Hk Hr]].
        apply filter_In in Hr. destruct Hr as [_ Hr].
        apply negb_true_iff in Hr.
        assert (same_key new r = true) by (apply same_key_iff; now symmetry).
        congruence.
  - intro H; injection H as <-; split.
    + apply Forall_app. split; [exact Hty | constructor; [exact TC | constructor]].
    + rewrite map_app. simpl. apply NoDup_snoc; [exact Hnd|].
      now apply no_key_when_absent.
Qed.

Lemma insert_rows_ok mode news : forall rows rows',
  ledger_ok rows -> insert_rows mode news rows = Ok rows' -> ledger_ok rows'.
Proof.
  induction news as [|new news IH]; simpl; intros rows rows' Hok H.
  - injection H as <-. exact Hok.
  - destruct (insert_row mode new rows) as [rows1|e] eqn:E; [|discriminate].
    eapply IH; [|exact H]. eapply insert_row_ok; eassumption.
Qed.

Lemma run_insert_ledger_ok mode news :
  preserves (fun w => ledger_ok (reminders (db w))) (run_insert mode news).
Proof.
  intros env w Hok. unfold run_insert, bind, get_db. simpl.
  destruct (insert_rows mode news (reminders (db w))) as [rows'|e] eqn:E; simpl.
  - eapply insert_rows_ok; eassumption.
  - exact Hok.
Qed.

Lemma sweep_ledger_ok env w :
  ledger_ok (reminders (db w)) -> ledger_ok (reminders (db (sweep env w))).
Proof.
  intro Hok. unfold sweep.
  apply (@preserves_sendReminders (fun w => ledger_ok (reminders (db w)))).
  - intros s env' w' H. exact H.
  - intros card type _ env' w' H.
    unfold markReminderSent, bind at 1 2, ask, get_db at 1. simpl.
    now apply run_insert_ledger_ok.
  - intros card env' w' H.
    unfold markOverdueReminderSent, bind at 1 2, ask, get_db at 1. simpl.
    now apply run_insert_ledger_ok.
  - exact Hok.
Qed.

End Ledger.

(** C3. Starting from a ledger whose rows all carry a window type among
    24h, 6h, 2h and overdue and whose (task, recipient, window) keys are
    pairwise distinct, any sequence of sweeps, each at its own time and with
    its own answers of the outside, leaves a ledger with the same two
    properties: every row written has one of the four window types and no
    key has two rows. *)
Theorem ledger_invariant (envs : list Env) (w : World) :
  ledger_ok (reminders (db w)) ->
  ledger_ok (reminders (db (reminders.sweeps envs w))).
Proof.
  revert w. induction envs as [|env envs IH]; intros w Hok; simpl.
  - exact Hok.
  - apply IH. now apply sweep_ledger_ok.
Qed.

(* ------------------------------------------------------------------ *)
(** * The daily digest *)

Section Digest.

Import digest.

Lemma In_insert_by {A} (le : A -> A -> bool) (a x : A) (l : list A) :
  In x (insert_by le a l) <-> x = a \/ In x l.
Proof.
  induction l as [|y l IH]; simpl.
  - split; intros [H|H]; auto.
  - destruct (le a y); simpl; [split; intros [H|H]; auto|].
    rewrite IH. split; intros H; tauto.
Qed.

Lemma In_sort_by {A} (le : A -> A -> bool) (x : A) (l : list A) :
  In x (sort_by le l) <-> In x l.
Proof.
  induction l as [|y l IH]; simpl; [tauto|].
  rewrite In_insert_by, IH. split; intros [H|H]; auto.
Qed.

(** Every candidate of a run is a row of [users] with role owner or admin,
    and conversely. *)
Lemma digest_recipients_spec d v :
  In v (digest_recipients d)
  <-> exists row, In row (users d)
                  /\ (u_role row = OWNER \/ u_role row = ADMIN)
                  /\ v = usersRepo.mapRowToUser row.
Proof.
  unfold digest_recipients, usersRepo.getAll.
  rewrite in_app_iff, !in_map_iff. split.
  - intros [[row [<- H]]|[row [<- H]]]; apply In_sort_by, filter_In in H;
      destruct H as [Hin Hr]; exists row; (split; [exact Hin|]);
      (split; [|reflexivity]); destruct (u_role row); simpl in Hr;
      try discriminate; auto.
  - intros [row [Hin [[Hr|Hr] ->]]]; [left|right]; exists row;
      (split; [reflexivity|]); apply In_sort_by, filter_In;
      (split; [exact Hin|]); rewrite Hr; reflexivity.
Qed.

Lemma user_row_is_found d row :
  In row (users d) ->
  usersRepo.getByTelegramId d (u_telegram_id row) <> None.
Proof.
  intros Hin. unfold usersRepo.getByTelegramId.
  destruct (find (fun r => u_telegram_id r =? u_telegram_id row) (users d)) eqn:F;
    simpl; [discriminate|].
  exfalso. apply (find_none _ _ F) in Hin. rewrite Z.eqb_refl in Hin. discriminate.
Qed.

(** What one candidate does to the world. *)
Lemma digest_one_run ty v env w :
  digest_one ty v env w
  = (mkWorld (db w) (board_calls w)
             (outbox w ++ digest_messages ty env (db w) v), Ok tt).
Proof.
  unfold digest_one, digest_messages, bind, get_db. simpl.
  destruct (negb (digestEnabled (getUserSettings (db w) (telegramId v)))).
  { unfold ret. rewrite app_nil_r. now destruct w. }
  destruct ty; simpl.
  - destruct (negb (digestHour (getUserSettings (db w) (telegramId v)) =? 9)).
    { unfold ret. rewrite app_nil_r. now destruct w. }
    unfold sendMorningDigest, try_log, bind, get_db, ask, log_sent, ret. simpl.
    destruct (usersRepo.getByTelegramId (db w) (telegramId v)); simpl.
    + reflexivity.
    + rewrite app_nil_r. now destruct w.
  - unfold sendEveningDigest, try_log, bind, get_db, ask, log_sent, ret. simpl.
    destruct (usersRepo.getByTelegramId (db w) (telegramId v)); simpl.
    + reflexivity.
    + rewrite app_nil_r. now destruct w.
Qed.

(** What a whole run does to the world. *)
Lemma sendDailyDigest_run ty env w :
  sendDailyDigest ty env w
  = (mkWorld (db w) (board_calls w)
             (outbox w
                ++ flat_map (digest_messages ty env (db w)) (digest_recipients (db w))),
     Ok tt).
Proof.
  unfold sendDailyDigest, try_log, bind at 1, get_db at 1. simpl.
  generalize (digest_recipients (db w)) as l.
  assert (G : forall l w0,
             forM_ l (digest_one ty) env w0
             = (mkWorld (db w0) (board_calls w0)
                        (outbox w0 ++ flat_map (digest_messages ty env (db w0)) l),
                Ok tt)).
  { induction l as [|v l IH]; intro w0; simpl.
    - unfold ret. rewrite app_nil_r. now destruct w0.
    - unfold bind. rewrite digest_one_run, IH. simpl. now rewrite app_assoc. }
  intro l. now rewrite G.
Qed.

Lemma sent_to_app u l1 l2 : sent_to u (l1 ++ l2) = sent_to u l1 ++ sent_to u l2.
Proof. apply filter_app. Qed.

Lemma disabled_contributes_nothing ty env d u l :
  digestEnabled (getUserSettings d u) = false ->
  sent_to u (flat_map (digest_messages ty env d) l) = [].
Proof.
  intro Hoff. induction l as [|v l IH]; simpl; [reflexivity|].
  rewrite sent_to_app, IH, app_nil_r.
  unfold digest_messages.
  destruct (Z.eq_dec (telegramId v) u) as [->|Hne].
  - now rewrite Hoff.
  - destruct (negb _); [reflexivity|].
    destruct (_ && _); [reflexivity|].
    destruct (usersRepo.getByTelegramId d (telegramId v)); [|reflexivity].
    simpl. apply Z.eqb_neq in Hne. now rewrite Hne.
Qed.

End Digest.

(** C9, as the code has it.  A morning run sends nothing to a user whose
    settings have [digestEnabled] false: the messages addressed to that
    user are the same before and after the run.  A user without a settings
    row gets the synthesized defaults, enabled with hour 9; and when such a
    user is a row of [users] with role owner or admin, the roles a run
    takes its candidates from, the run sends them the morning digest. *)
Theorem morning_digest_gates (env : Env) (w : World) :
  (forall u,
      digest.digestEnabled (digest.getUserSettings (db w) u) = false ->
      sent_to u (outbox (fst (digest.sendDailyDigest digest.morning env w)))
      = sent_to u (outbox w))
  /\ (forall u,
         find (fun s => s_user_id s =? u) (settings (db w)) = None ->
         digest.getUserSettings (db w) u = digest.mkUserSettings true 9 true)
  /\ (forall row,
         In row (users (db w)) ->
         u_role row = OWNER \/ u_role row = ADMIN ->
         find (fun s => s_user_id s =? u_telegram_id row) (settings (db w)) = None ->
         included_in_morning_run env w (u_telegram_id row)).
Proof.
  repeat split.
  - intros u Hoff. rewrite sendDailyDigest_run. simpl.
    rewrite sent_to_app, (disabled_contributes_nothing _ _ _ _ _ Hoff).
    apply app_nil_r.
  - intros u Hnone. unfold digest.getUserSettings. now rewrite Hnone.
  - intros row Hin Hrole Hnone. unfold included_in_morning_run.
    rewrite sendDailyDigest_run. simpl.
    exists (mkSent (u_telegram_id row) None MorningDigest
                   (tg_ok env (u_telegram_id row))).
    repeat split. apply in_or_app. right. apply in_flat_map.
    exists (usersRepo.mapRowToUser row). split.
    + apply digest_recipients_spec. exists row. auto.
    + unfold digest_messages, digest.getUserSettings. simpl. rewrite Hnone. simpl.
      destruct (usersRepo.getByTelegramId (db w) (u_telegram_id row)) eqn:G.
      * left. reflexivity.
      * exfalso. now apply (user_row_is_found _ _ Hin).
Qed.

(* ------------------------------------------------------------------ *)
(** * The sweep and the ledger: what is sent and what is recorded *)

Section SweepFacts.

Import reminders.

Lemma insert_rows_rejected mode env d card type rows :
  type_check type = false ->
  insert_rows mode (selected_rows env d card type) rows = Ok rows
  \/ insert_rows mode (selected_rows env d card type) rows
     = Throw SqliteConstraintCheck.
Proof.
  intro TC. unfold selected_rows.
  destruct (filter (tasksRepo.has_card card) (tasks d)) as [|row l]; simpl.
  - now left.
  - right. unfold insert_row. simpl. now rewrite TC.
Qed.

Lemma run_insert_rejected mode env d card type env' w :
  type_check type = false ->
  reminders (db (fst (run_insert mode (selected_rows env d card type) env' w)))
  = reminders (db w).
Proof.
  intro TC. unfold run_insert, bind, get_db. simpl.
  destruct (@insert_rows_rejected mode env d card type (reminders (db w)) TC) as [E|E];
    rewrite E; reflexivity.
Qed.

(** No sweep records anything: the window keys FIRST, SECOND, THIRD and the
    type overdue all fail the CHECK constraint of table [reminders]. *)
Lemma sweep_never_records env w :
  reminders (db (sweep env w)) = reminders (db w).
Proof.
  unfold sweep.
  apply (@preserves_sendReminders (fun w' => reminders (db w') = reminders (db w))).
  - intros s env' w' H. exact H.
  - intros card type Hin env' w' H.
    unfold markReminderSent, bind at 1 2, ask, get_db at 1. simpl.
    rewrite run_insert_rejected; [exact H|].
    simpl in Hin. destruct Hin as [<-|[<-|[<-|[]]]]; reflexivity.
  - intros card env' w' H.
    unfold markOverdueReminderSent, bind at 1 2, ask, get_db at 1. simpl.
    rewrite run_insert_rejected; [exact H | reflexivity].
  - reflexivity.
Qed.

(** A ledger the schema accepts holds no row of a type the CHECK rejects. *)
Lemma not_sent_when_rejected d card type :
  schema_ok (reminders d) -> type_check type = false ->
  wasReminderSent d card type = false.
Proof.
  intros Hs TC. unfold wasReminderSent.
  destruct (task_rowid d card) as [tid|]; [|reflexivity].
  apply not_true_is_false. intro E. apply existsb_exists in E.
  destruct E as [r [Hin Hr]]. unfold schema_ok in Hs. rewrite Forall_forall in Hs.
  specialize (Hs r Hin). apply andb_true_iff in Hr. destruct Hr as [Hr _].
  apply andb_true_iff in Hr. destruct Hr as [_ Hr]. apply String.eqb_eq in Hr.
  congruence.
Qed.

(** The guard of the window loop: a task whose ledger holds a sent row for
    the window type is passed over. *)
Lemma recorded_window_is_skipped type t env w :
  wasReminderSent (db w) (plankaCardId t) type = true ->
  remind_task type t env w = (w, Ok tt).
Proof.
  intro H. unfold remind_task.
  destruct (TaskStatus_eqb (status t) DONE); [reflexivity|].
  unfold bind, get_db. simpl. now rewrite H.
Qed.

(** The throttle of the overdue loop: a task whose last overdue row is at
    most 24 hours old is passed over. *)
Lemma recent_overdue_is_skipped t env w last :
  getLastOverdueReminder env (db w) (plankaCardId t) = Some last ->
  now env - last <= DAY_MS ->
  escalate_task t env w = (w, Ok tt).
Proof.
  intros H Hle. unfold escalate_task, bind, ask, get_db. simpl. rewrite H.
  assert (E : (now env - last >? DAY_MS) = false).
  { rewrite Z.gtb_ltb. apply Z.ltb_ge. exact Hle. }
  now rewrite E.
Qed.

(** A ledger the schema accepts holds no overdue row to throttle on. *)
Lemma no_overdue_record env d card :
  schema_ok (reminders d) -> getLastOverdueReminder env d card = None.
Proof.
  intro Hs. unfold getLastOverdueReminder.
  destruct (task_rowid d card) as [tid|]; [|reflexivity].
  replace (filter (fun r => (r_task_id r =? tid) && String.eqb (r_type r) "overdue")
                  (reminders d)) with (@nil ReminderRow); [reflexivity|].
  symmetry. unfold schema_ok in Hs. induction Hs as [|r rs Hr _ IH]; [reflexivity|].
  simpl. rewrite <- IH.
  destruct (String.eqb (r_type r) "overdue") eqn:E.
  - apply String.eqb_eq in E. rewrite E in Hr. discriminate.
  - now rewrite andb_false_r.
Qed.

End SweepFacts.

Section FiveHours.

Import reminders.

Variables (env : Env) (w : World) (row : TaskRow) (A B : Z).

Hypothesis only_task : tasks (db w) = [row].
Hypothesis is_todo : t_status row = TODO.
Hypothesis creator : t_created_by row = B.
Hypothesis assignee : t_assigned_to row = Some A.
Hypothesis A_nonzero : A <> 0.
Hypothesis A_not_B : A <> B.
Hypothesis due_5h : t_due_date row = Some (now env + 5 * Sql.MS_PER_HOUR).
Hypothesis A_known : usersRepo.getByTelegramId (db w) A <> None.
Hypothesis B_known : usersRepo.getByTelegramId (db w) B <> None.
Hypothesis ledger_valid : schema_ok (reminders (db w)).

Lemma upcoming_24 :
  tasksRepo.getUpcomingDeadlines env (db w) 24 = [tasksRepo.mapRowToTask row].
Proof.
  unfold tasksRepo.getUpcomingDeadlines. rewrite only_task. simpl.
  unfold tasksRepo.upcoming. rewrite due_5h, is_todo. simpl.
  unfold Sql.iso_le, Sql.iso_ge_current_timestamp, Sql.utc_day, Sql.MS_PER_HOUR,
    Sql.MS_PER_DAY.
  assert (H1 : (now env + 18000000 <=? now env + 86400000) = true)
    by (apply Z.leb_le; lia).
  assert (H2 : (now env / 86400000 <=? (now env + 18000000) / 86400000) = true)
    by (apply Z.leb_le, Z.div_le_mono; lia).
  rewrite H1, H2. reflexivity.
Qed.

Lemma recipients_B_A : recipients (tasksRepo.mapRowToTask row) = [B; A].
Proof.
  unfold recipients. simpl. rewrite assignee, creator.
  apply Z.eqb_neq in A_nonzero. rewrite A_nonzero. simpl.
  apply Z.eqb_neq in A_not_B. now rewrite A_not_B.
Qed.

Lemma first_not_sent :
  wasReminderSent (db w) (t_planka_card_id row) "FIRST" = false.
Proof. now apply not_sent_when_rejected. Qed.

Lemma send_to_known u type w1 :
  db w1 = db w -> usersRepo.getByTelegramId (db w) u <> None ->
  sendReminderToUser u (tasksRepo.mapRowToTask row) type env w1
  = (mkWorld (db w1) (board_calls w1)
             (outbox w1
              ++ [mkSent u (Some (t_planka_card_id row))
                         (Reminder type (window_line type)) (tg_ok env u)]),
     Ok tt).
Proof.
  intros Hdb Hu. destruct w1 as [d1 b1 o1]. simpl in Hdb. subst d1.
  unfold sendReminderToUser, try_log, bind, get_db, ask, log_sent. simpl.
  destruct (usersRepo.getByTelegramId (db w) u); [reflexivity | contradiction].
Qed.

Lemma mark_first_throws w1 :
  db w1 = db w ->
  markReminderSent (t_planka_card_id row) "FIRST" env w1
  = (w1, Throw SqliteConstraintCheck).
Proof.
  intro Hdb. destruct w1 as [d1 b1 o1]. simpl in Hdb. subst d1.
  unfold markReminderSent, run_insert, selected_rows, bind, ask, get_db, throw.
  simpl. rewrite only_task. simpl.
  unfold tasksRepo.has_card. rewrite String.eqb_refl. reflexivity.
Qed.

(** The 24-hour window notifies the creator and the assignee of the
    task, and stops at the INSERT of [markReminderSent]. *)
Lemma remind_first :
  remind_task "FIRST" (tasksRepo.mapRowToTask row) env w
  = (mkWorld (db w) (board_calls w)
             (outbox w ++ [first_to env (t_planka_card_id row) B;
                           first_to env (t_planka_card_id row) A]),
     Throw SqliteConstraintCheck).
Proof.
  unfold remind_task.
  replace (status (tasksRepo.mapRowToTask row)) with TODO
    by (symmetry; exact is_todo).
  cbv beta iota delta [TaskStatus_eqb].
  unfold bind at 1, get_db at 1.
  change (plankaCardId (tasksRepo.mapRowToTask row)) with (t_planka_card_id row).
  rewrite first_not_sent, recipients_B_A.
  unfold bind at 1. cbn [forM_]. unfold bind at 1 2.
  rewrite send_to_known by (reflexivity || assumption).
  rewrite send_to_known by (reflexivity || assumption).
  unfold ret at 1. rewrite mark_first_throws by reflexivity.
  cbn [db board_calls outbox]. rewrite <- app_assoc. reflexivity.
Qed.

Lemma first_window_pass :
  window_pass ("FIRST", 24) env w
  = (mkWorld (db w) (board_calls w)
             (outbox w ++ [first_to env (t_planka_card_id row) B;
                           first_to env (t_planka_card_id row) A]),
     Throw SqliteConstraintCheck).
Proof.
  unfold window_pass, bind at 1 2, ask at 1, get_db at 1.
  rewrite upcoming_24. cbn [forM_]. unfold bind at 1.
  now rewrite remind_first.
Qed.

Lemma sweep_after_first_window :
  sweep env w
  = mkWorld (db w) (board_calls w)
            (outbox w ++ [first_to env (t_planka_card_id row) B;
                          first_to env (t_planka_card_id row) A]).
Proof.
  unfold sweep, sendReminders, try_log, REMINDER_WINDOWS. cbn [forM_].
  unfold bind at 1 2. rewrite first_window_pass. reflexivity.
Qed.

End FiveHours.

(** C2, as the code has it.  Let the task store hold one task, in status
    [todo], due five hours after the time of the sweep, created by B and
    assigned to A, both known users and different from each other, and let
    the ledger satisfy the schema.  Then the first two notifications of the
    sweep are for the window key FIRST, the 24-hour window, which is the
    first of [REMINDER_WINDOWS] and whose query covers every due date up to
    24 hours ahead; they go to B and to A and are about the task; and no
    later notification of that sweep is for the key THIRD, the 2-hour
    window. *)
Theorem five_hour_task_first_window (env : Env) (w : World) (row : TaskRow) (A B : Z) :
  tasks (db w) = [row] ->
  t_status row = TODO ->
  t_created_by row = B ->
  t_assigned_to row = Some A ->
  A <> 0 ->
  A <> B ->
  t_due_date row = Some (now env + 5 * Sql.MS_PER_HOUR) ->
  usersRepo.getByTelegramId (db w) A <> None ->
  usersRepo.getByTelegramId (db w) B <> None ->
  schema_ok (reminders (db w)) ->
  hd_error reminders.REMINDER_WINDOWS = Some ("FIRST", 24)
  /\ exists sB sA rest,
      outbox (reminders.sweep env w) = outbox w ++ sB :: sA :: rest
      /\ to sB = B /\ to sA = A
      /\ about sB = Some (t_planka_card_id row)
      /\ about sA = Some (t_planka_card_id row)
      /\ (exists line, kind sB = Reminder "FIRST" line)
      /\ (exists line, kind sA = Reminder "FIRST" line)
      /\ Forall (fun s => forall line, kind s <> Reminder "THIRD" line) rest.
Proof.
  intros H1 H2 H3 H4 H5 H6 H7 H8 H9 H10. split; [reflexivity|].
  exists (first_to env (t_planka_card_id row) B),
         (first_to env (t_planka_card_id row) A), [].
  rewrite (@sweep_after_first_window env w row A B) by assumption.
  simpl. repeat split; try (eexists; reflexivity). constructor.
Qed.

Lemma five_hour_task_first_window_witness :
  hd_error reminders.REMINDER_WINDOWS = Some ("FIRST", 24)
  /\ exists sB sA rest,
      outbox (reminders.sweep Scenario.env0 Scenario.due_in_5h)
      = outbox Scenario.due_in_5h ++ sB :: sA :: rest
      /\ to sB = 100 /\ to sA = 200
      /\ about sB = Some "card-7"
      /\ about sA = Some "card-7"
      /\ (exists line, kind sB = Reminder "FIRST" line)
      /\ (exists line, kind sA = Reminder "FIRST" line)
      /\ Forall (fun s => forall line, kind s <> Reminder "THIRD" line) rest.
Proof.
  apply (@five_hour_task_first_window Scenario.env0 Scenario.due_in_5h
           (Scenario.task_with TODO (Some (Scenario.now0 + 5 * Sql.MS_PER_HOUR)))
           200 100);
    try reflexivity; try discriminate.
  constructor.
Defined.

(** C2, read literally, fails on the task due in five hours: the sweep
    notifies for the key FIRST and the ledger receives no row. *)
Lemma six_hour_example_fails :
  ~ six_hour_example_as_stated Scenario.env0 Scenario.due_in_5h 7 200 100.
Proof.
  intros [H _]. specialize (H (Scenario.reminder_to 100)).
  assert (Hin : In (Scenario.reminder_to 100)
                   (outbox (reminders.sweep Scenario.env0 Scenario.due_in_5h)))
    by (vm_compute; auto).
  specialize (H Hin). vm_compute in H. discriminate.
Qed.

(** The window reminders without a record.  The first sweep over the task
    due in five hours delivers the FIRST-window notification to the creator
    and to the assignee and records nothing, the INSERT of
    [markReminderSent] being rejected by the CHECK constraint; a second
    sweep at the same time, and one five minutes later, deliver the same
    notification to the same recipients again. *)
Example reminder_is_sent_again :
  let w1 := reminders.sweep Scenario.env0 Scenario.due_in_5h in
  outbox w1 = [Scenario.reminder_to 100; Scenario.reminder_to 200]
  /\ reminders (db w1) = []
  /\ outbox (reminders.sweep Scenario.env0 w1)
     = [Scenario.reminder_to 100; Scenario.reminder_to 200;
        Scenario.reminder_to 100; Scenario.reminder_to 200]
  /\ outbox (reminders.sweep Scenario.env_5min w1)
     = [Scenario.reminder_to 100; Scenario.reminder_to 200;
        Scenario.reminder_to 100; Scenario.reminder_to 200].
Proof. vm_compute. repeat split. Qed.

(** C6 at the failing input.  The first sweep notifies the creator and the
    assignee of the task overdue by two days and records nothing, the
    INSERT of [markOverdueReminderSent] being rejected by the CHECK
    constraint; the sweep 23 hours later finds no overdue row in the ledger
    and notifies both again.  The sweep 25 hours later notifies both again
    as well, and there is still no row whose [sent_at] it could refresh. *)
Theorem overdue_is_sent_again_after_23h :
  let w1 := reminders.sweep Scenario.env0 Scenario.overdue_2d in
  outbox w1 = [Scenario.overdue_to 100; Scenario.overdue_to 200]
  /\ reminders (db w1) = []
  /\ reminders.getLastOverdueReminder Scenario.env_23h (db w1) "card-7" = None
  /\ outbox (reminders.sweep Scenario.env_23h w1)
     = [Scenario.overdue_to 100; Scenario.overdue_to 200;
        Scenario.overdue_to 100; Scenario.overdue_to 200]
  /\ outbox (reminders.sweep Scenario.env_25h w1)
     = [Scenario.overdue_to 100; Scenario.overdue_to 200;
        Scenario.overdue_to 100; Scenario.overdue_to 200]
  /\ reminders (db (reminders.sweep Scenario.env_25h w1)) = [].
Proof. vm_compute. repeat split. Qed.

(** C9, read literally, fails for an employee: user 300 has no settings
    row and the morning run sends them nothing. *)
Lemma employee_without_settings_is_left_out :
  ~ defaults_include_every_user Scenario.env0 Scenario.digest_world.
Proof.
  intro H. specialize (H Scenario.userE).
  destruct H as [s [Hin [Hto _]]].
  - simpl. tauto.
  - reflexivity.
  - vm_compute in Hin. destruct Hin as [<-|[]]. discriminate.
Qed.

(* ------------------------------------------------------------------ *)
(** * The statements at concrete inputs *)

Lemma same_status_is_noop_witness :
  exists w' r,
    updateStatus.updateTaskStatus "card-7" DONE 100 Scenario.env0
                                  (Scenario.in_status DONE) = (w', Ok r)
    /\ updateStatus.task r = tasksRepo.mapRowToTask (Scenario.task_with DONE None)
    /\ updateStatus.previousStatus r = DONE
    /\ board_calls w' = []
    /\ db w' = db (Scenario.in_status DONE).
Proof.
  apply (@same_status_is_noop Scenario.env0 (Scenario.in_status DONE) "card-7"
           (tasksRepo.mapRowToTask (Scenario.task_with DONE None)) 100).
  reflexivity.
Defined.

Lemma invalid_transition_rejected_witness :
  exists w',
    updateStatus.updateTaskStatus "card-7" TODO 100 Scenario.env0
                                  (Scenario.in_status IN_REVIEW)
    = (w', Throw (AppError INVALID_STATUS_TRANSITION))
    /\ board_calls w' = []
    /\ db w' = db (Scenario.in_status IN_REVIEW)
    /\ option_map status (tasksRepo.getByPlankaId (db w') "card-7") = Some IN_REVIEW.
Proof.
  apply (@invalid_transition_rejected Scenario.env0 (Scenario.in_status IN_REVIEW)
           "card-7" (tasksRepo.mapRowToTask (Scenario.task_with IN_REVIEW None))
           TODO 100).
  - reflexivity.
  - discriminate.
  - simpl. intros [H|[H|[]]]; discriminate.
Defined.

(** On a board with the lists Alpha and Beta the review status resolves to
    no list: the transition from in_progress to in_review throws a
    [PlankaError] and the database is untouched. *)
Lemma persist_only_after_board_success_witness :
  exists w' r,
    updateStatus.updateTaskStatus "card-7" IN_REVIEW 100 Scenario.env_two_lists
                                  (Scenario.in_status IN_PROGRESS) = (w', r)
    /\ r = Throw (AppError PLANKA_ERROR)
    /\ db w' = db (Scenario.in_status IN_PROGRESS).
Proof.
  destruct (@persist_only_after_board_success Scenario.env_two_lists
              (Scenario.in_status IN_PROGRESS) "card-7"
              (tasksRepo.mapRowToTask (Scenario.task_with IN_PROGRESS None))
              IN_REVIEW 100)
    as [w' [r [E [Hfail [_ [Hnone _]]]]]].
  - reflexivity.
  - discriminate.
  - simpl. tauto.
  - exists w', r. split; [exact E|].
    assert (Hr : r = Throw (AppError PLANKA_ERROR))
      by (apply (Hnone [mkPlankaList "l1" "Alpha"; mkPlankaList "l2" "Beta"]);
          reflexivity).
    split; [exact Hr | exact (Hfail _ Hr)].
Defined.

Lemma auto_update_skips_witness :
  updateStatus.autoUpdateStatusOnAssign "card-404" 200 Scenario.env0
                                        (Scenario.in_status TODO)
  = (Scenario.in_status TODO, Ok None)
  /\ updateStatus.autoUpdateStatusOnAssign "card-7" 200 Scenario.env0
                                           (Scenario.in_status IN_REVIEW)
     = (Scenario.in_status IN_REVIEW,
        Ok (Some (tasksRepo.mapRowToTask (Scenario.task_with IN_REVIEW None)))).
Proof.
  split.
  - apply (proj1 (auto_update_skips Scenario.env0 (Scenario.in_status TODO)
                    "card-404" 200)).
    reflexivity.
  - apply (proj2 (auto_update_skips Scenario.env0 (Scenario.in_status IN_REVIEW)
                    "card-7" 200)).
    + reflexivity.
    + discriminate.
Defined.

Lemma ledger_invariant_witness :
  ledger_ok (reminders (db Scenario.with_ledger))
  /\ ledger_ok
       (reminders
          (db (reminders.sweeps [Scenario.env0; Scenario.env_5min; Scenario.env_23h]
                                Scenario.with_ledger))).
Proof.
  assert (H : ledger_ok (reminders (db Scenario.with_ledger))).
  { split.
    - apply Forall_forall. intros r [<-|[<-|[]]]; simpl; tauto.
    - simpl. constructor; [|constructor; [|constructor]].
      + intros [H|[]]. discriminate.
      + intros []. }
  split; [exact H|].
  apply (@ledger_invariant [Scenario.env0; Scenario.env_5min; Scenario.env_23h]
           Scenario.with_ledger H).
Defined.

Lemma morning_digest_gates_witness :
  sent_to 100 (outbox (fst (digest.sendDailyDigest digest.morning Scenario.env0
                                                   Scenario.digest_world)))
  = sent_to 100 (outbox Scenario.digest_world)
  /\ digest.getUserSettings (db Scenario.digest_world) 200
     = digest.mkUserSettings true 9 true
  /\ included_in_morning_run Scenario.env0 Scenario.digest_world 200.
Proof.
  destruct (morning_digest_gates Scenario.env0 Scenario.digest_world) as [H1 [H2 H3]].
  split; [apply H1; reflexivity|].
  split; [apply H2; reflexivity|].
  apply (H3 Scenario.userA).
  - simpl. tauto.
  - right. reflexivity.
  - reflexivity.
Defined.

(* ------------------------------------------------------------------ *)
(** * Further properties of the transition engine *)

Section MoreTransitions.

Import tasksRepo updateStatus.

Lemma find_by_names_In lists names l :
  find_by_names lists names = Some l -> In l lists.
Proof.
  induction names as [|name names IH]; simpl; [discriminate|].
  destruct (find (name_matches name) lists) as [l0|] eqn:F.
  - intro H. injection H as <-. now apply find_some in F.
  - exact IH.
Qed.

Lemma js_index_In {A} (l : list A) i x : js_index l i = Some x -> In x l.
Proof.
  unfold js_index. destruct (i <? 0); [discriminate|]. apply nth_error_In.
Qed.

Lemma js_index_None {A} (l : list A) i :
  js_index l i = None <-> i < 0 \/ Z.of_nat (List.length l) <= i.
Proof.
  unfold js_index. destruct (i <? 0) eqn:E.
  - apply Z.ltb_lt in E. split; [intros _; now left | reflexivity].
  - apply Z.ltb_ge in E. rewrite nth_error_None. split.
    + intro H. right. lia.
    + intros [H|H]; lia.
Qed.

(** The update of one card, seen from any card. *)
Lemma find_after_status_write env d card s c :
  find (has_card c) (tasks (status_written env d card s))
  = option_map (fun row =>
                  if has_card card row
                  then apply_patch (status_patch s) (Sql.current_timestamp env) row
                  else row)
               (find (has_card c) (tasks d)).
Proof.
  unfold status_written. simpl.
  induction (tasks d) as [|r rows IH]; simpl; [reflexivity|].
  destruct (has_card card r) eqn:E; simpl.
  - rewrite has_card_apply_patch.
    destruct (has_card c r); [simpl; now rewrite E | exact IH].
  - destruct (has_card c r); [simpl; now rewrite E | exact IH].
Qed.

(** The transition of an existing task along an edge of the table, in one
    equation: what is returned and what the world becomes, for each answer
    of the board. *)
Lemma transition_run env w taskId row s2 userId :
  find (has_card taskId) (tasks (db w)) = Some row ->
  t_status row <> s2 ->
  In s2 (allowedTransitions (t_status row)) ->
  updateTaskStatus taskId s2 userId env w
  = match board_lists env with
    | None =>
        (with_board_calls w [GetBoardLists false], Throw (AppError PLANKA_ERROR))
    | Some lists =>
        match getListForStatus lists s2 with
        | None =>
            (with_board_calls w [GetBoardLists true], Throw (AppError PLANKA_ERROR))
        | Some l =>
            if card_patch_ok env taskId (list_id l) then
              (mkWorld (status_written env (db w) taskId s2)
                       (board_calls w
                          ++ [GetBoardLists true; UpdateCard taskId (list_id l) true])
                       (outbox w),
               match usersRepo.getByTelegramId (db w) userId with
               | Some user =>
                   Ok (mkStatusUpdate
                         (with_status_at (mapRowToTask row) s2
                                         (Sql.current_timestamp env))
                         (t_status row) (Some user))
               | None => Throw JsTypeError
               end)
            else
              (with_board_calls w
                 [GetBoardLists true; UpdateCard taskId (list_id l) false],
               Throw (AppError PLANKA_ERROR))
        end
    end.
Proof.
  intros F Hneq Hin.
  assert (Hc : t_planka_card_id row = taskId).
  { apply find_some in F. destruct F as [_ F]. now apply String.eqb_eq in F. }
  unfold updateTaskStatus, bind at 1, get_db at 1. simpl.
  unfold getByPlankaId. rewrite F. simpl.
  rewrite (TaskStatus_eqb_neq Hneq).
  unfold validateStatusTransition. apply allowed_existsb in Hin. rewrite Hin.
  unfold plankaClient.getBoardLists, plankaClient.updateCard, with_board_calls.
  rewrite Hc.
  destruct (board_lists env) as [lists|] eqn:BL.
  - destruct (getListForStatus lists s2) as [l|] eqn:GL.
    + destruct (card_patch_ok env taskId (list_id l)) eqn:CP.
      * unfold bind, ret, ask, log_board, get_db. simpl. rewrite BL. simpl.
        rewrite GL, CP. simpl.
        unfold update, bind, ask, get_db, put_db, ret. simpl.
        rewrite (find_filter_nonempty _ _ F).
        unfold getByPlankaId. simpl.
        rewrite find_patched, F. simpl. rewrite <- app_assoc.
        unfold usersRepo.getByTelegramId. simpl.
        destruct (find (fun r => u_telegram_id r =? userId) (users (db w)));
          reflexivity.
      * unfold bind, ret, ask, log_board, throw. simpl. rewrite BL. simpl.
        rewrite GL, CP. simpl. rewrite <- app_assoc. reflexivity.
    + unfold bind, ret, ask, log_board, throw. simpl. rewrite BL. simpl.
      now rewrite GL.
  - unfold bind, ret, ask, log_board, throw. simpl. now rewrite BL.
Qed.

Lemma getListForStatus_In lists s l :
  getListForStatus lists s = Some l -> In l lists.
Proof.
  unfold getListForStatus.
  destruct (find_by_names lists (statusToListName s)) as [l0|] eqn:F.
  - intro H. injection H as <-. now apply find_by_names_In in F.
  - apply js_index_In.
Qed.

Lemma getListForStatus_None lists s :
  getListForStatus lists s = None
  <-> find_by_names lists (statusToListName s) = None
      /\ (List.length lists < min_lists s)%nat.
Proof.
  unfold getListForStatus.
  destruct (find_by_names lists (statusToListName s)) as [l0|] eqn:F.
  - split; [discriminate | intros [H _]; discriminate].
  - rewrite js_index_None. unfold statusToIndex, min_lists.
    destruct s; split; intro H.
    all: try (split; [reflexivity|]; lia).
    all: try (right; lia).
    all: destruct lists; simpl in *; lia.
Qed.

(** Every run of [updateTaskStatus] either throws an application error
    with the database as it was, or throws the [TypeError] of an
    unregistered caller with the one status written, or returns with the
    database as it was or with the one status written. *)
Lemma transition_outcome env w taskId s2 userId :
  exists w' r,
    updateTaskStatus taskId s2 userId env w = (w', r)
    /\ ((exists c, r = Throw (AppError c) /\ db w' = db w)
        \/ (r = Throw JsTypeError
            /\ usersRepo.getByTelegramId (db w) userId = None
            /\ option_map status (getByPlankaId (db w') taskId) = Some s2
            /\ db w' = status_written env (db w) taskId s2)
        \/ (exists u, r = Ok u
                      /\ option_map status (getByPlankaId (db w') taskId) = Some s2
                      /\ (db w' = db w
                          \/ db w' = status_written env (db w) taskId s2))).
Proof.
  destruct (getByPlankaId (db w) taskId) as [t|] eqn:G.
  - destruct (getByPlankaId_row _ _ G) as [row [F [Ht Hc]]].
    destruct (TaskStatus_eqb (status t) s2) eqn:E.
    + unfold updateTaskStatus, bind, get_db. simpl. rewrite G, E. unfold ret.
      do 2 eexists. split; [reflexivity|]. right. right.
      eexists. split; [reflexivity|].
      apply TaskStatus_eqb_eq in E. rewrite G. simpl. split; [now f_equal | now left].
    + assert (Hneq : t_status row <> s2).
      { intro H. subst t. simpl in E. rewrite H, TaskStatus_eqb_refl in E.
        discriminate. }
      destruct (existsb (TaskStatus_eqb s2) (allowedTransitions (t_status row))) eqn:A.
      * apply allowed_existsb in A.
        rewrite (@transition_run env w taskId row s2 userId F Hneq A).
        assert (W : option_map status
                      (getByPlankaId (status_written env (db w) taskId s2) taskId)
                    = Some s2).
        { unfold getByPlankaId. rewrite find_after_status_write, F. simpl.
          apply find_some in F. destruct F as [_ F]. now rewrite F. }
        destruct (board_lists env) as [lists|].
        { destruct (getListForStatus lists s2) as [l|].
          - destruct (card_patch_ok env taskId (list_id l)).
            + destruct (usersRepo.getByTelegramId (db w) userId) eqn:U.
              * do 2 eexists. split; [reflexivity|]. right. right. eexists.
                split; [reflexivity|]. simpl. split; [exact W | now right].
              * do 2 eexists. split; [reflexivity|]. right. left. simpl.
                repeat split. exact W.
            + do 2 eexists. split; [reflexivity|]. left. now eexists.
          - do 2 eexists. split; [reflexivity|]. left. now eexists. }
        do 2 eexists. split; [reflexivity|]. left. now eexists.
      * unfold updateTaskStatus, bind, get_db. simpl. rewrite G, E.
        unfold validateStatusTransition. subst t. simpl. rewrite A. unfold throw.
        do 2 eexists. split; [reflexivity|]. left. now eexists.
  - unfold updateTaskStatus, bind, get_db. simpl. rewrite G. unfold throw.
    do 2 eexists. split; [reflexivity|]. left. now eexists.
Qed.

(** A card that holds status [s] still holds it after the status [s] was
    written to any card. *)
Lemma status_kept_by_write env d card s c :
  option_map status (getByPlankaId d c) = Some s ->
  option_map status (getByPlankaId (status_written env d card s) c) = Some s.
Proof.
  unfold getByPlankaId. rewrite find_after_status_write.
  destruct (find (has_card c) (tasks d)) as [r0|]; simpl; [|discriminate].
  destruct (has_card card r0); [reflexivity | trivial].
Qed.

(** The loop of [bulkUpdateStatus]: it returns; every identifier goes to one
    of the two lists; and a card with the new status keeps it. *)
Lemma bulk_loop_spec newStatus userId env taskIds : forall w acc,
  exists w' r us fs,
    bulk_loop taskIds newStatus userId acc env w = (w', Ok r)
    /\ updated r = updated acc ++ us
    /\ failed r = failed acc ++ fs
    /\ (List.length us + List.length fs = List.length taskIds)%nat
    /\ (forall i, In i taskIds <-> In i us \/ In i (map fst fs))
    /\ (forall i, In i us ->
                  option_map status (getByPlankaId (db w') i) = Some newStatus)
    /\ (forall c, option_map status (getByPlankaId (db w) c) = Some newStatus ->
                  option_map status (getByPlankaId (db w') c) = Some newStatus).
Proof.
  induction taskIds as [|taskId rest IH]; intros w acc.
  - exists w, acc, [], []. simpl. unfold ret. rewrite !app_nil_r.
    repeat split; try tauto; auto.
  - destruct (transition_outcome env w taskId newStatus userId)
      as [w1 [r1 [E1 O1]]].
    assert (K1 : forall c,
               option_map status (getByPlankaId (db w) c) = Some newStatus ->
               option_map status (getByPlankaId (db w1) c) = Some newStatus).
    { intros c Hc.
      destruct O1 as [[e [_ D]]|[[_ [_ [_ D]]]|[u [_ [_ [D|D]]]]]]; rewrite D;
        try exact Hc; now apply status_kept_by_write. }
    assert (Failed : forall e,
               r1 = Throw e ->
               exists w' r us fs,
                 bulk_loop rest newStatus userId
                   (mkBulkResult (updated acc) (failed acc ++ [(taskId, e)])) env w1
                 = (w', Ok r)
                 /\ updated r = updated acc ++ us
                 /\ failed r = failed acc ++ fs
                 /\ (List.length us + List.length fs
                     = List.length (taskId :: rest))%nat
                 /\ (forall i, In i (taskId :: rest)
                               <-> In i us \/ In i (map fst fs))
                 /\ (forall i, In i us ->
                               option_map status (getByPlankaId (db w') i)
                               = Some newStatus)
                 /\ (forall c,
                        option_map status (getByPlankaId (db w) c) = Some newStatus ->
                        option_map status (getByPlankaId (db w') c) = Some newStatus)).
    { intros e _.
      destruct (IH w1 (mkBulkResult (updated acc) (failed acc ++ [(taskId, e)])))
        as [w' [r [us [fs [E [U [Fl [L [M [S K]]]]]]]]]].
      exists w', r, us, ((taskId, e) :: fs). simpl in *.
      split; [exact E|]. split; [exact U|].
      split; [now rewrite Fl, <- app_assoc|].
      split; [lia|]. split; [|split; [exact S | auto]].
      intro i. rewrite M. tauto. }
    simpl. unfold bind at 1, attempt. rewrite E1.
    destruct O1 as [[c [-> D]]|[[-> _]|[u [-> [P1 _]]]]].
    + now apply Failed.
    + now apply Failed.
    + destruct (IH w1 (mkBulkResult (updated acc ++ [taskId]) (failed acc)))
        as [w' [r [us [fs [E [U [Fl [L [M [S K]]]]]]]]]].
      exists w', r, (taskId :: us), fs. simpl in *.
      split; [exact E|]. split; [now rewrite U, <- app_assoc|].
      split; [exact Fl|]. split; [lia|]. split; [|split; [|auto]].
      * intro i. rewrite M. tauto.
      * intros i [<-|Hi]; [now apply K | now apply S].
Qed.

End MoreTransitions.

(** X1. Whenever [updateTaskStatus] throws, the outbox is as before and the
    error is one of four.  NOT_FOUND for an unknown card and
    INVALID_STATUS_TRANSITION come with no board call made and the database
    as it was; PLANKA_ERROR comes after the board was contacted, with the
    database as it was; and a [TypeError] comes only for a caller that is
    not a registered user, after the board has moved the card and the store
    holds the new status.  So for a registered caller a throw leaves the
    database as it was, and no run ends in DB_ERROR. *)
Theorem transition_failure_modes (env : Env) (w w' : World) (taskId : string)
        (s2 : TaskStatus) (userId : Z) (e : Error) :
  updateStatus.updateTaskStatus taskId s2 userId env w = (w', Throw e) ->
  outbox w' = outbox w
  /\ (usersRepo.getByTelegramId (db w) userId <> None -> db w' = db w)
  /\ ((e = AppError NOT_FOUND
       /\ tasksRepo.getByPlankaId (db w) taskId = None
       /\ board_calls w' = board_calls w
       /\ db w' = db w)
      \/ (e = AppError INVALID_STATUS_TRANSITION
          /\ tasksRepo.getByPlankaId (db w) taskId <> None
          /\ board_calls w' = board_calls w
          /\ db w' = db w)
      \/ (e = AppError PLANKA_ERROR
          /\ db w' = db w
          /\ exists ok rest,
              board_calls w' = board_calls w ++ GetBoardLists ok :: rest)
      \/ (e = JsTypeError
          /\ usersRepo.getByTelegramId (db w) userId = None
          /\ option_map status (tasksRepo.getByPlankaId (db w') taskId) = Some s2
          /\ exists l,
              board_calls w'
              = board_calls w ++ [GetBoardLists true;
                                  UpdateCard taskId (list_id l) true])).
Proof.
  destruct (tasksRepo.getByPlankaId (db w) taskId) as [t|] eqn:G.
  - destruct (getByPlankaId_row _ _ G) as [row [F [Ht _]]].
    destruct (TaskStatus_eqb (status t) s2) eqn:E.
    + unfold updateStatus.updateTaskStatus, bind, get_db. simpl.
      rewrite G, E. discriminate.
    + assert (Hneq : t_status row <> s2).
      { intro H. subst t. simpl in E. rewrite H, TaskStatus_eqb_refl in E.
        discriminate. }
      destruct (existsb (TaskStatus_eqb s2)
                        (updateStatus.allowedTransitions (t_status row))) eqn:A.
      * apply allowed_existsb in A.
        rewrite (@transition_run env w taskId row s2 userId F Hneq A).
        destruct (board_lists env) as [lists|].
        { destruct (updateStatus.getListForStatus lists s2) as [l|].
          - destruct (card_patch_ok env taskId (list_id l)).
            + destruct (usersRepo.getByTelegramId (db w) userId) eqn:U;
                [discriminate|].
              intro H. injection H as <- <-. simpl.
              split; [reflexivity|]. split; [intro C; now contradiction C|].
              right. right. right. split; [reflexivity|]. split; [reflexivity|].
              split; [|now exists l].
              unfold tasksRepo.getByPlankaId.
              rewrite find_after_status_write, F. simpl.
              apply find_some in F. destruct F as [_ F]. now rewrite F.
            + intro H. injection H as <- <-. repeat split.
              right. right. left. repeat split. now do 2 eexists.
          - intro H. injection H as <- <-. repeat split.
            right. right. left. repeat split. now do 2 eexists. }
        intro H. injection H as <- <-. repeat split.
        right. right. left. repeat split. now do 2 eexists.
      * unfold updateStatus.updateTaskStatus, bind, get_db. simpl.
        rewrite G, E. unfold updateStatus.validateStatusTransition.
        subst t. simpl. rewrite A. unfold throw.
        intro H. injection H as <- <-. repeat split.
        right. left. repeat split. discriminate.
  - unfold updateStatus.updateTaskStatus, bind, get_db. simpl. rewrite G.
    unfold throw. intro H. injection H as <- <-. repeat split. now left.
Qed.

Lemma transition_failure_modes_witness :
  exists w',
    updateStatus.updateTaskStatus "card-7" DONE 999 Scenario.env0
                                  (Scenario.in_status IN_REVIEW)
    = (w', Throw JsTypeError)
    /\ outbox w' = outbox (Scenario.in_status IN_REVIEW)
    /\ option_map status (tasksRepo.getByPlankaId (db w') "card-7") = Some DONE.
Proof.
  eexists. split; [vm_compute; reflexivity|].
  pose proof (@transition_failure_modes Scenario.env0 (Scenario.in_status IN_REVIEW)
                _ "card-7" DONE 999 JsTypeError eq_refl) as H.
  destruct H as [O [_ [[C _]|[[C _]|[[C _]|[_ [_ [S _]]]]]]]]; try discriminate C.
  split; [exact O | exact S].
Defined.

(** X2. Whenever [updateTaskStatus] returns, the status persisted for the
    card is the target status and the returned task is the one the store
    now holds; no other card changes, the cards of table [tasks] stay the
    same in number and order, and the tables [users], [reminders] and
    [settings] and the outbox are left alone. *)
Theorem transition_touches_one_card (env : Env) (w w' : World) (taskId : string)
        (s2 : TaskStatus) (userId : Z) (r : updateStatus.StatusUpdate) :
  updateStatus.updateTaskStatus taskId s2 userId env w = (w', Ok r) ->
  tasksRepo.getByPlankaId (db w') taskId = Some (updateStatus.task r)
  /\ status (updateStatus.task r) = s2
  /\ (forall c, c <> taskId ->
                tasksRepo.getByPlankaId (db w') c = tasksRepo.getByPlankaId (db w) c)
  /\ map t_planka_card_id (tasks (db w')) = map t_planka_card_id (tasks (db w))
  /\ users (db w') = users (db w)
  /\ reminders (db w') = reminders (db w)
  /\ settings (db w') = settings (db w)
  /\ outbox w' = outbox w.
Proof.
  destruct (tasksRepo.getByPlankaId (db w) taskId) as [t|] eqn:G.
  - destruct (getByPlankaId_row _ _ G) as [row [F [Ht Hc]]].
    destruct (TaskStatus_eqb (status t) s2) eqn:E.
    + unfold updateStatus.updateTaskStatus, bind, get_db. simpl.
      rewrite G, E. unfold ret. intro H. injection H as <- <-. simpl.
      apply TaskStatus_eqb_eq in E. repeat split; assumption.
    + assert (Hneq : t_status row <> s2).
      { intro H. subst t. simpl in E. rewrite H, TaskStatus_eqb_refl in E.
        discriminate. }
      destruct (existsb (TaskStatus_eqb s2)
                        (updateStatus.allowedTransitions (t_status row))) eqn:A.
      * apply allowed_existsb in A.
        rewrite (@transition_run env w taskId row s2 userId F Hneq A).
        destruct (board_lists env) as [lists|]; [|discriminate].
        destruct (updateStatus.getListForStatus lists s2) as [l|]; [|discriminate].
        destruct (card_patch_ok env taskId (list_id l)); [|discriminate].
        destruct (usersRepo.getByTelegramId (db w) userId); [|discriminate].
        intro H. injection H as <- <-. simpl. repeat split.
        { unfold tasksRepo.getByPlankaId. rewrite find_after_status_write, F.
          simpl. apply find_some in F. destruct F as [_ F]. now rewrite F. }
        { intros c Hne. unfold tasksRepo.getByPlankaId.
          rewrite find_after_status_write.
          destruct (find (tasksRepo.has_card c) (tasks (db w))) as [r0|] eqn:F0;
            [|reflexivity].
          simpl. apply find_some in F0. destruct F0 as [_ F0].
          apply String.eqb_eq in F0.
          destruct (tasksRepo.has_card taskId r0) eqn:E0; [|reflexivity].
          apply String.eqb_eq in E0. congruence. }
        { rewrite map_map. apply map_ext. intro r0.
          now destruct (tasksRepo.has_card taskId r0). }
      * unfold updateStatus.updateTaskStatus, bind, get_db. simpl.
        rewrite G, E. unfold updateStatus.validateStatusTransition.
        subst t. simpl. rewrite A. discriminate.
  - unfold updateStatus.updateTaskStatus, bind, get_db. simpl. rewrite G.
    discriminate.
Qed.

Lemma transition_touches_one_card_witness :
  exists w' r,
    updateStatus.updateTaskStatus "card-7" IN_PROGRESS 100 Scenario.env0
                                  (Scenario.in_status TODO) = (w', Ok r)
    /\ tasksRepo.getByPlankaId (db w') "card-7" = Some (updateStatus.task r)
    /\ status (updateStatus.task r) = IN_PROGRESS
    /\ users (db w') = users (db (Scenario.in_status TODO)).
Proof.
  do 2 eexists. split; [vm_compute; reflexivity|].
  pose proof (@transition_touches_one_card Scenario.env0 (Scenario.in_status TODO)
                _ "card-7" IN_PROGRESS 100 _ eq_refl) as H.
  destruct H as [H1 [H2 [_ [_ [H5 _]]]]].
  repeat split; assumption.
Defined.

(** X4. The list [getListForStatus] resolves, by name or by position, is
    one of the lists of the board it was given. *)
Theorem resolved_list_is_on_board (lists : list PlankaList) (s : TaskStatus)
        (l : PlankaList) :
  updateStatus.getListForStatus lists s = Some l -> In l lists.
Proof. apply getListForStatus_In. Qed.

Lemma resolved_list_is_on_board_witness :
  In (mkPlankaList "l4" "Done")
     [mkPlankaList "l1" "Backlog"; mkPlankaList "l2" "In progress";
      mkPlankaList "l3" "Review"; mkPlankaList "l4" "Done"].
Proof.
  apply (@resolved_list_is_on_board _ DONE). reflexivity.
Defined.

(** X5. [getListForStatus] resolves no list exactly when no list name
    contains a candidate name of the status and the board is too short for
    the positional fallback: fewer than one list for todo and done, fewer
    than two for in_progress, fewer than three for in_review.  So an empty
    board resolves nothing, and a board of three lists or more always
    resolves a list. *)
Theorem list_resolution_fails_iff (lists : list PlankaList) (s : TaskStatus) :
  updateStatus.getListForStatus lists s = None
  <-> updateStatus.find_by_names lists (updateStatus.statusToListName s) = None
      /\ (List.length lists < min_lists s)%nat.
Proof. apply getListForStatus_None. Qed.

Lemma list_resolution_fails_iff_witness :
  updateStatus.getListForStatus [] DONE = None
  /\ updateStatus.getListForStatus
       [mkPlankaList "l1" "Alpha"; mkPlankaList "l2" "Beta"] IN_REVIEW = None.
Proof.
  split.
  - apply (proj2 (list_resolution_fails_iff [] DONE)).
    split; [reflexivity | simpl; lia].
  - apply (proj2 (list_resolution_fails_iff
                    [mkPlankaList "l1" "Alpha"; mkPlankaList "l2" "Beta"] IN_REVIEW)).
    split; [reflexivity | simpl; lia].
Defined.

(** X3. A task in any status other than done can be moved to done in one
    transition by a registered user: when the board returns at least one
    list and accepts the card in each of its lists, [updateTaskStatus] with
    target done returns and the status persisted for the card is done. *)
Theorem open_task_can_be_completed (env : Env) (w : World) (taskId : string)
        (t : Task) (userId : Z) (lists : list PlankaList) :
  tasksRepo.getByPlankaId (db w) taskId = Some t ->
  status t <> DONE ->
  usersRepo.getByTelegramId (db w) userId <> None ->
  board_lists env = Some lists ->
  lists <> [] ->
  (forall l, In l lists -> card_patch_ok env taskId (list_id l) = true) ->
  exists w' r,
    updateStatus.updateTaskStatus taskId DONE userId env w = (w', Ok r)
    /\ updateStatus.previousStatus r = status t
    /\ option_map status (tasksRepo.getByPlankaId (db w') taskId) = Some DONE.
Proof.
  intros G Hopen Hreg BL Hne Hacc.
  destruct (getByPlankaId_row _ _ G) as [row [F [Ht _]]].
  assert (Hneq : t_status row <> DONE) by (subst t; exact Hopen).
  assert (A : In DONE (updateStatus.allowedTransitions (t_status row))).
  { destruct (t_status row); simpl; tauto. }
  rewrite (@transition_run env w taskId row DONE userId F Hneq A), BL.
  destruct (updateStatus.getListForStatus lists DONE) as [l|] eqn:GL.
  - rewrite (Hacc l (getListForStatus_In _ _ GL)).
    destruct (usersRepo.getByTelegramId (db w) userId) as [u|];
      [|now contradiction Hreg].
    do 2 eexists. split; [reflexivity|]. simpl. split; [now subst t|].
    unfold tasksRepo.getByPlankaId. rewrite find_after_status_write, F. simpl.
    apply find_some in F. destruct F as [_ F]. now rewrite F.
  - exfalso. apply getListForStatus_None in GL. destruct GL as [_ GL].
    destruct lists; simpl in GL; [contradiction | lia].
Qed.

Lemma open_task_can_be_completed_witness :
  exists w' r,
    updateStatus.updateTaskStatus "card-7" DONE 100 Scenario.env0
                                  (Scenario.in_status IN_REVIEW) = (w', Ok r)
    /\ updateStatus.previousStatus r = IN_REVIEW
    /\ option_map status (tasksRepo.getByPlankaId (db w') "card-7") = Some DONE.
Proof.
  apply (@open_task_can_be_completed Scenario.env0 (Scenario.in_status IN_REVIEW)
           "card-7" (tasksRepo.mapRowToTask (Scenario.task_with IN_REVIEW None)) 100
           [mkPlankaList "l1" "Backlog"; mkPlankaList "l2" "In progress";
            mkPlankaList "l3" "Review"; mkPlankaList "l4" "Done"]).
  - reflexivity.
  - discriminate.
  - discriminate.
  - reflexivity.
  - discriminate.
  - reflexivity.
Defined.

(** X6. Assigning a non-zero assignee to a task in status todo runs the
    ordinary transition to in_progress.  When the board resolves a list and
    accepts the card, the store then holds the task in in_progress, and for
    an assignee who is a registered user [autoUpdateStatusOnAssign] returns
    that task (for one who is not, the call throws a [TypeError] after the
    write).  When the board cannot be read, resolves no list or refuses the
    card, PLANKA_ERROR is thrown to the caller, not turned into [null], and
    the database keeps the task in todo. *)
Theorem assignment_starts_todo_task (env : Env) (w : World) (taskId : string)
        (t : Task) (assignee : Z) :
  tasksRepo.getByPlankaId (db w) taskId = Some t ->
  status t = TODO ->
  assignee <> 0 ->
  exists w' r,
    updateStatus.autoUpdateStatusOnAssign taskId assignee env w = (w', r)
    /\ (forall lists l,
           board_lists env = Some lists ->
           updateStatus.getListForStatus lists IN_PROGRESS = Some l ->
           card_patch_ok env taskId (list_id l) = true ->
           option_map status (tasksRepo.getByPlankaId (db w') taskId)
           = Some IN_PROGRESS
           /\ (usersRepo.getByTelegramId (db w) assignee <> None ->
               exists t', r = Ok (Some t')
                          /\ status t' = IN_PROGRESS
                          /\ tasksRepo.getByPlankaId (db w') taskId = Some t')
           /\ (usersRepo.getByTelegramId (db w) assignee = None ->
               r = Throw JsTypeError))
    /\ (board_lists env = None
        \/ (exists lists,
               board_lists env = Some lists
               /\ updateStatus.getListForStatus lists IN_PROGRESS = None)
        \/ (exists lists l,
               board_lists env = Some lists
               /\ updateStatus.getListForStatus lists IN_PROGRESS = Some l
               /\ card_patch_ok env taskId (list_id l) = false) ->
        r = Throw (AppError PLANKA_ERROR)
        /\ db w' = db w
        /\ board_calls w' <> board_calls w).
Proof.
  intros G Hs Ha.
  destruct (getByPlankaId_row _ _ G) as [row [F [Ht _]]].
  assert (Hrow : t_status row = TODO) by (subst t; exact Hs).
  assert (Hneq : t_status row <> IN_PROGRESS) by (rewrite Hrow; discriminate).
  assert (A : In IN_PROGRESS (updateStatus.allowedTransitions (t_status row)))
    by (rewrite Hrow; simpl; tauto).
  unfold updateStatus.autoUpdateStatusOnAssign, bind at 1, get_db at 1. simpl.
  rewrite G, Hs. simpl. apply Z.eqb_neq in Ha. rewrite Ha. simpl.
  unfold bind. rewrite (@transition_run env w taskId row IN_PROGRESS assignee F Hneq A).
  assert (Hgrow : forall (l : list BoardCall) c rest, l ++ c :: rest <> l).
  { intros l c rest H. apply (f_equal (@List.length _)) in H.
    rewrite length_app in H. simpl in H. lia. }
  assert (W : tasksRepo.getByPlankaId
                (status_written env (db w) taskId IN_PROGRESS) taskId
              = Some (with_status_at (tasksRepo.mapRowToTask row) IN_PROGRESS
                                     (Sql.current_timestamp env))).
  { unfold tasksRepo.getByPlankaId. rewrite find_after_status_write, F. simpl.
    apply find_some in F. destruct F as [_ F]. now rewrite F. }
  destruct (board_lists env) as [lists|] eqn:BL.
  - destruct (updateStatus.getListForStatus lists IN_PROGRESS) as [l|] eqn:GL.
    + destruct (card_patch_ok env taskId (list_id l)) eqn:CP.
      * destruct (usersRepo.getByTelegramId (db w) assignee) as [u|] eqn:U.
        -- do 2 eexists. split; [reflexivity|]. simpl. split.
           ++ intros lists' l' _ _ _. split; [now rewrite W|].
              split; [|discriminate].
              intros _. eexists. split; [reflexivity|].
              split; [reflexivity | exact W].
           ++ intros [B|[[ls [B1 B2]]|[ls [l' [B1 [B2 B3]]]]]];
                [discriminate B | |]; injection B1 as B1; subst ls;
                exfalso; congruence.
        -- do 2 eexists. split; [reflexivity|]. simpl. split.
           ++ intros lists' l' _ _ _. split; [now rewrite W|].
              split; [intro C; now contradiction C | reflexivity].
           ++ intros [B|[[ls [B1 B2]]|[ls [l' [B1 [B2 B3]]]]]];
                [discriminate B | |]; injection B1 as B1; subst ls;
                exfalso; congruence.
      * do 2 eexists. split; [reflexivity|]. simpl. split.
        -- intros lists' l' B1 B2 B3. injection B1 as B1; subst lists'.
           exfalso. congruence.
        -- intros _. repeat split. apply Hgrow.
    + do 2 eexists. split; [reflexivity|]. simpl. split.
      * intros lists' l' B1 B2 B3. injection B1 as B1; subst lists'.
        exfalso. congruence.
      * intros _. repeat split. apply Hgrow.
  - do 2 eexists. split; [reflexivity|]. simpl. split.
    + intros lists' l' B1. discriminate B1.
    + intros _. repeat split. apply Hgrow.
Qed.

Lemma assignment_starts_todo_task_witness :
  (exists w' t',
      updateStatus.autoUpdateStatusOnAssign "card-7" 200 Scenario.env0
                                            (Scenario.in_status TODO)
      = (w', Ok (Some t'))
      /\ status t' = IN_PROGRESS
      /\ tasksRepo.getByPlankaId (db w') "card-7" = Some t')
  /\ (exists w',
         updateStatus.autoUpdateStatusOnAssign "card-7" 200
           (mkEnv Scenario.now0 0 (fun _ => true) None (fun _ _ => true))
           (Scenario.in_status TODO)
         = (w', Throw (AppError PLANKA_ERROR))
         /\ db w' = db (Scenario.in_status TODO)).
Proof.
  split.
  - destruct (@assignment_starts_todo_task Scenario.env0 (Scenario.in_status TODO)
                "card-7" (tasksRepo.mapRowToTask (Scenario.task_with TODO None)) 200
                eq_refl eq_refl ltac:(discriminate))
      as [w' [r [E [S _]]]].
    destruct (S _ (mkPlankaList "l2" "In progress") eq_refl eq_refl eq_refl)
      as [_ [R _]].
    destruct R as [t' [-> [H1 H2]]]; [discriminate|].
    exists w', t'. repeat split; assumption.
  - destruct (@assignment_starts_todo_task
                (mkEnv Scenario.now0 0 (fun _ => true) None (fun _ _ => true))
                (Scenario.in_status TODO)
                "card-7" (tasksRepo.mapRowToTask (Scenario.task_with TODO None)) 200
                eq_refl eq_refl ltac:(discriminate))
      as [w' [r [E [_ B]]]].
    destruct B as [-> [D _]]; [now left|].
    exists w'. split; assumption.
Defined.

(** X7. [bulkUpdateStatus] always returns: an error of one task is caught
    and does not stop the loop.  Every entry of the input adds one entry to
    [updated] or to [failed], so the two lengths add up to the length of the
    input, and the identifiers of the two lists are those of the input. *)
Theorem bulk_update_sorts_every_id (env : Env) (w : World) (taskIds : list string)
        (newStatus : TaskStatus) (userId : Z) :
  exists w' r,
    updateStatus.bulkUpdateStatus taskIds newStatus userId env w = (w', Ok r)
    /\ (List.length (updateStatus.updated r) + List.length (updateStatus.failed r)
        = List.length taskIds)%nat
    /\ (forall i, In i taskIds
                  <-> In i (updateStatus.updated r)
                      \/ In i (map fst (updateStatus.failed r))).
Proof.
  destruct (bulk_loop_spec newStatus userId env taskIds w
                           (updateStatus.mkBulkResult [] []))
    as [w' [r [us [fs [E [U [Fl [L [M _]]]]]]]]].
  exists w', r. simpl in U, Fl. rewrite U, Fl. repeat split; try assumption.
  - now apply M.
  - now apply M.
Qed.

(** X8. After [bulkUpdateStatus], every card listed in [updated] holds the
    new status in the store, also when the same card or other cards came
    later in the input. *)
Theorem bulk_updated_hold_new_status (env : Env) (w w' : World)
        (taskIds : list string) (newStatus : TaskStatus) (userId : Z)
        (r : updateStatus.BulkResult) :
  updateStatus.bulkUpdateStatus taskIds newStatus userId env w = (w', Ok r) ->
  forall i, In i (updateStatus.updated r) ->
            option_map status (tasksRepo.getByPlankaId (db w') i) = Some newStatus.
Proof.
  intros E i Hi.
  destruct (bulk_loop_spec newStatus userId env taskIds w
                           (updateStatus.mkBulkResult [] []))
    as [w1 [r1 [us [fs [E1 [U [_ [_ [_ [S _]]]]]]]]]].
  unfold updateStatus.bulkUpdateStatus in E. rewrite E1 in E.
  injection E as <- <-. simpl in U. rewrite U in Hi. now apply S.
Qed.

Lemma bulk_updated_hold_new_status_witness :
  option_map status
    (tasksRepo.getByPlankaId
       (db (fst (updateStatus.bulkUpdateStatus ["card-404"; "card-7"; "card-7"]
                   IN_PROGRESS 100 Scenario.env0 (Scenario.in_status TODO))))
       "card-7")
  = Some IN_PROGRESS.
Proof.
  apply (@bulk_updated_hold_new_status Scenario.env0 (Scenario.in_status TODO) _
           ["card-404"; "card-7"; "card-7"] IN_PROGRESS 100
           (updateStatus.mkBulkResult ["card-7"; "card-7"]
                                      [("card-404", AppError NOT_FOUND)])).
  - reflexivity.
  - simpl. tauto.
Defined.

(* ------------------------------------------------------------------ *)
(** * Further properties of the task repository *)

Section MoreTasksRepo.

Import tasksRepo.

Lemma map_patch_absent card (f : TaskRow -> TaskRow) rows :
  find (has_card card) rows = None ->
  map (fun row => if has_card card row then f row else row) rows = rows.
Proof.
  induction rows as [|r rows IH]; simpl; [reflexivity|].
  destruct (has_card card r); [discriminate|]. intro H. now rewrite IH.
Qed.

Lemma find_filter_empty {A} (f : A -> bool) l :
  find f l = None -> filter f l = [].
Proof.
  induction l as [|x l IH]; simpl; [reflexivity|].
  destruct (f x); [discriminate | exact IH].
Qed.


Lemma upcoming_spec env h row :
  upcoming env h row = true
  <-> exists due,
      t_due_date row = Some due
      /\ due <= now env + h * Sql.MS_PER_HOUR
      /\ Sql.utc_day (now env) <= Sql.utc_day due
      /\ t_status row <> DONE.
Proof.
  unfold upcoming, Sql.iso_le, Sql.iso_ge_current_timestamp.
  destruct (t_due_date row) as [due|].
  - rewrite !andb_true_iff, !Z.leb_le, negb_true_iff. split.
    + intros [[H1 H2] H3]. exists due. repeat split; try assumption.
      intro H. rewrite H in H3. discriminate.
    + intros [d [E [H1 [H2 H3]]]]. injection E as <-. repeat split; try assumption.
      now apply TaskStatus_eqb_neq.
  - split; [discriminate | intros [d [E _]]; discriminate].
Qed.

Lemma overdue_spec env row :
  overdue env row = true
  <-> exists due,
      t_due_date row = Some due
      /\ Sql.utc_day due < Sql.utc_day (now env)
      /\ t_status row <> DONE.
Proof.
  unfold overdue, Sql.iso_lt_current_timestamp.
  destruct (t_due_date row) as [due|].
  - rewrite andb_true_iff, Z.ltb_lt, negb_true_iff. split.
    + intros [H1 H3]. exists due. repeat split; try assumption.
      intro H. rewrite H in H3. discriminate.
    + intros [d [E [H1 H3]]]. injection E as <-. split; [assumption|].
      now apply TaskStatus_eqb_neq.
  - split; [discriminate | intros [d [E _]]; discriminate].
Qed.

Lemma In_upcoming env d h t :
  In t (getUpcomingDeadlines env d h)
  <-> exists row, In row (tasks d) /\ upcoming env h row = true /\ t = mapRowToTask row.
Proof.
  unfold getUpcomingDeadlines. rewrite in_map_iff. split.
  - intros [row [<- H]]. apply In_sort_by, filter_In in H. exists row. tauto.
  - intros [row [H1 [H2 ->]]]. exists row. split; [reflexivity|].
    apply In_sort_by, filter_In. tauto.
Qed.

End MoreTasksRepo.

(** X9. [tasksRepo.update] on a card the store does not hold returns [null]
    and leaves the database as it was, whatever the patch. *)
Theorem update_of_unknown_card (env : Env) (w : World) (card : string)
        (p : tasksRepo.TaskPatch) :
  tasksRepo.getByPlankaId (db w) card = None ->
  exists w', tasksRepo.update card p env w = (w', Ok None) /\ db w' = db w.
Proof.
  unfold tasksRepo.getByPlankaId.
  destruct (find (tasksRepo.has_card card) (tasks (db w))) eqn:F; [discriminate|].
  intros _. unfold tasksRepo.update, bind, ask, get_db, put_db, ret. simpl.
  destruct (tasksRepo.patch_is_empty p).
  - exists w. unfold tasksRepo.getByPlankaId. now rewrite F.
  - rewrite (find_filter_empty _ _ F). simpl. eexists. split; [reflexivity|].
    simpl. rewrite (map_patch_absent _ _ _ F). now destruct (db w).
Qed.

Lemma update_of_unknown_card_witness :
  exists w',
    tasksRepo.update "card-404" (tasksRepo.status_patch DONE) Scenario.env0
                     (Scenario.in_status TODO) = (w', Ok None)
    /\ db w' = db (Scenario.in_status TODO).
Proof.
  apply (@update_of_unknown_card Scenario.env0 (Scenario.in_status TODO)
           "card-404" (tasksRepo.status_patch DONE)).
  reflexivity.
Defined.



(** X11. The window queries are cumulative: every task returned by
    [getUpcomingDeadlines] for a horizon of h1 hours is returned for every
    longer horizon h2 as well.  A returned task is never done and always has
    a due date, which is at most the horizon ahead of now. *)
Theorem upcoming_windows_are_cumulative (env : Env) (d : Db) (h1 h2 : Z) (t : Task) :
  h1 <= h2 ->
  In t (tasksRepo.getUpcomingDeadlines env d h1) ->
  In t (tasksRepo.getUpcomingDeadlines env d h2)
  /\ status t <> DONE
  /\ exists due, dueDate t = Some due /\ due <= now env + h1 * Sql.MS_PER_HOUR.
Proof.
  intros Hle Hin. apply In_upcoming in Hin. destruct Hin as [row [Hr [Hu ->]]].
  apply upcoming_spec in Hu. destruct Hu as [due [E [H1 [H2 H3]]]].
  split; [|split].
  - apply In_upcoming. exists row. split; [exact Hr|]. split; [|reflexivity].
    apply upcoming_spec. exists due. repeat split; try assumption.
    unfold Sql.MS_PER_HOUR in *. nia.
  - exact H3.
  - exists due. split; assumption.
Qed.

Lemma upcoming_windows_are_cumulative_witness :
  In (tasksRepo.mapRowToTask
        (Scenario.task_with TODO (Some (Scenario.now0 + 5 * Sql.MS_PER_HOUR))))
     (tasksRepo.getUpcomingDeadlines Scenario.env0 (db Scenario.due_in_5h) 24).
Proof.
  apply (@upcoming_windows_are_cumulative Scenario.env0 (db Scenario.due_in_5h) 6 24).
  - lia.
  - simpl. left. reflexivity.
Defined.

(** X12. The two queries of the sweep split the open tasks by the UTC day
    of the due date, because the stored ISO text is compared with the text
    of CURRENT_TIMESTAMP: no row is both upcoming and overdue; a row is
    overdue only when its due date lies on an earlier UTC day than now; and
    an open task whose due time has already passed, but on the current UTC
    day, is still returned by the window query of every horizon h >= 0 and
    not by the overdue query. *)
Theorem due_today_counts_as_upcoming (env : Env) (row : TaskRow) :
  (forall h, tasksRepo.upcoming env h row = true -> tasksRepo.overdue env row = false)
  /\ (forall due,
         tasksRepo.overdue env row = true ->
         t_due_date row = Some due ->
         Sql.utc_day due < Sql.utc_day (now env))
  /\ (forall due h,
         t_due_date row = Some due ->
         t_status row <> DONE ->
         due <= now env ->
         Sql.utc_day due = Sql.utc_day (now env) ->
         0 <= h ->
         tasksRepo.upcoming env h row = true /\ tasksRepo.overdue env row = false).
Proof.
  assert (D : forall h, tasksRepo.upcoming env h row = true ->
                        tasksRepo.overdue env row = false).
  { intros h Hu. apply upcoming_spec in Hu. destruct Hu as [due [E [_ [H2 _]]]].
    apply not_true_is_false. intro Ho. apply overdue_spec in Ho.
    destruct Ho as [due' [E' [H' _]]]. rewrite E in E'. injection E' as <-. lia. }
  split; [exact D|]. split.
  - intros due Ho E. apply overdue_spec in Ho. destruct Ho as [due' [E' [H' _]]].
    rewrite E in E'. injection E' as <-. exact H'.
  - intros due h E Hs Hpast Hday Hh.
    assert (Hu : tasksRepo.upcoming env h row = true).
    { apply upcoming_spec. exists due. repeat split; try assumption; try lia.
      unfold Sql.MS_PER_HOUR. nia. }
    split; [exact Hu | exact (D h Hu)].
Qed.

Lemma due_today_counts_as_upcoming_witness :
  tasksRepo.upcoming Scenario.env0 2
    (Scenario.task_with TODO (Some (Scenario.now0 - 3 * Sql.MS_PER_HOUR))) = true
  /\ tasksRepo.overdue Scenario.env0
       (Scenario.task_with TODO (Some (Scenario.now0 - 3 * Sql.MS_PER_HOUR))) = false.
Proof.
  apply (proj2 (proj2 (due_today_counts_as_upcoming Scenario.env0
                         (Scenario.task_with TODO
                            (Some (Scenario.now0 - 3 * Sql.MS_PER_HOUR)))))
           (Scenario.now0 - 3 * Sql.MS_PER_HOUR) 2).
  - reflexivity.
  - discriminate.
  - vm_compute. discriminate.
  - reflexivity.
  - lia.
Defined.

(* ------------------------------------------------------------------ *)
(** * The ORDER BY model and the reports built on it *)

Section SortFacts.

Context {A : Type} (le : A -> A -> bool).

Lemma insert_by_perm x l : Permutation (insert_by le x l) (x :: l).
Proof.
  induction l as [|y l IH]; simpl; [reflexivity|].
  destruct (le x y); [reflexivity|].
  rewrite IH. apply perm_swap.
Qed.

Lemma sort_by_perm l : Permutation (sort_by le l) l.
Proof.
  induction l as [|x l IH]; simpl; [reflexivity|].
  rewrite insert_by_perm. now constructor.
Qed.


Hypothesis le_total : forall a b, le a b = false -> le b a = true.
Hypothesis le_trans : forall a b c, le a b = true -> le b c = true -> le a c = true.

Lemma insert_by_sorted x l :
  StronglySorted (fun a b => le a b = true) l ->
  StronglySorted (fun a b => le a b = true) (insert_by le x l).
Proof.
  induction 1 as [|y l Hs IH Hall]; simpl.
  - constructor; constructor.
  - destruct (le x y) eqn:E.
    + constructor; [constructor; assumption|].
      constructor; [exact E|].
      rewrite Forall_forall in *. intros z Hz. eapply le_trans; eauto.
    + constructor; [exact IH|].
      rewrite Forall_forall in *. intros z Hz.
      apply (Permutation_in _ (insert_by_perm x l)) in Hz.
      destruct Hz as [<-|Hz]; [now apply le_total | now apply Hall].
Qed.

Lemma sort_by_sorted l : StronglySorted (fun a b => le a b = true) (sort_by le l).
Proof.
  induction l as [|x l IH]; simpl; [constructor | now apply insert_by_sorted].
Qed.

End SortFacts.

Lemma StronglySorted_weaken {A} (R R' : A -> A -> Prop) l :
  (forall a b, R a b -> R' a b) -> StronglySorted R l -> StronglySorted R' l.
Proof.
  intro H. induction 1 as [|x l Hs IH Hall]; constructor; [exact IH|].
  rewrite Forall_forall in *. auto.
Qed.

Section Workload.

Import assignTask.




Lemma compare_workload_le a b :
  compare_workload a b <= 0
  <-> (isAvailable a = true /\ isAvailable b = false)
      \/ (isAvailable a = isAvailable b /\ (activeTasks a <= activeTasks b)%nat).
Proof.
  unfold compare_workload.
  destruct (isAvailable a), (isAvailable b); simpl; split; intro H;
    try lia; try tauto;
    try (right; split; [reflexivity | lia]);
    try (destruct H as [[H1 H2]|[H1 H2]]; try discriminate; lia).
Qed.

End Workload.



(** X14. The workload report is ordered by its comparator: of two entries,
    the earlier one is available while the later one is not, or both have
    the same availability and the earlier one has no more active tasks. *)
Theorem workload_report_is_ordered (env : Env) (d : Db) :
  StronglySorted
    (fun a b =>
       (assignTask.isAvailable a = true /\ assignTask.isAvailable b = false)
       \/ (assignTask.isAvailable a = assignTask.isAvailable b
           /\ (assignTask.activeTasks a <= assignTask.activeTasks b)%nat))
    (assignTask.getAssigneesWithWorkload env d).
Proof.
  unfold assignTask.getAssigneesWithWorkload.
  eapply StronglySorted_weaken.
  - intros a b H. apply compare_workload_le. apply Z.leb_le. exact H.
  - apply sort_by_sorted.
    + intros a b H. apply Z.leb_gt in H. apply Z.leb_le.
      unfold assignTask.compare_workload in *.
      destruct (assignTask.isAvailable a), (assignTask.isAvailable b);
        simpl in *; lia.
    + intros a b c H1 H2. apply Z.leb_le in H1, H2. apply Z.leb_le.
      apply compare_workload_le in H1, H2. apply compare_workload_le.
      destruct H1 as [[A1 B1]|[E1 L1]], H2 as [[A2 B2]|[E2 L2]]; try congruence.
      * left. split; congruence.
      * left. split; congruence.
      * right. split; [congruence | lia].
Qed.

Section GroupBy.

Import tasksRepo.

Context {K : Type} (eqb : K -> K -> bool).
Hypothesis eqb_spec : forall a b, eqb a b = true <-> a = b.

Lemma eqb_same a : eqb a a = true.
Proof. now apply eqb_spec. Qed.

Lemma In_distinct k l : In k (distinct eqb l) <-> In k l.
Proof.
  induction l as [|x l IH]; simpl; [tauto|].
  destruct (existsb (eqb x) l) eqn:E; simpl; rewrite IH; [|tauto].
  split; [tauto|]. intros [<-|H]; [|exact H].
  apply existsb_exists in E. destruct E as [y [Hy E]].
  apply eqb_spec in E. now subst y.
Qed.

Lemma NoDup_distinct l : NoDup (distinct eqb l).
Proof.
  induction l as [|x l IH]; simpl; [constructor|].
  destruct (existsb (eqb x) l) eqn:E; [exact IH|].
  constructor; [|exact IH]. rewrite In_distinct. intro Hin.
  assert (existsb (eqb x) l = true); [|congruence].
  apply existsb_exists. exists x. split; [exact Hin | apply eqb_same].
Qed.

(** Counting one more element [x] under every key of a duplicate-free list
    adds one when [x] is among the keys. *)
Lemma sum_counts_cons x l ks :
  NoDup ks ->
  list_sum (map (fun k => List.length (filter (eqb k) (x :: l))) ks)
  = (list_sum (map (fun k => List.length (filter (eqb k) l)) ks)
     + if existsb (eqb x) ks then 1 else 0)%nat.
Proof.
  induction 1 as [|k ks Hk Hnd IH]; [reflexivity|].
  unfold list_sum in *. cbn [map fold_right existsb]. rewrite IH. cbn [filter].
  destruct (eqb k x) eqn:E; cbn [List.length].
  - apply eqb_spec in E. subst k. rewrite eqb_same. simpl.
    destruct (existsb (eqb x) ks) eqn:E2; [|lia].
    apply existsb_exists in E2. destruct E2 as [y [Hy E2]].
    apply eqb_spec in E2. subst y. contradiction.
  - destruct (eqb x k) eqn:E'; [|simpl; lia].
    apply eqb_spec in E'. subst k. rewrite eqb_same in E. discriminate.
Qed.

Lemma group_count_sum keys :
  list_sum (map snd (group_count eqb keys)) = List.length keys.
Proof.
  unfold group_count. rewrite map_map. cbn [snd].
  induction keys as [|x l IH]; [reflexivity|].
  cbn [distinct List.length].
  assert (Hx : existsb (eqb x) (distinct eqb l) = existsb (eqb x) l).
  { destruct (existsb (eqb x) l) eqn:E.
    - apply existsb_exists in E. destruct E as [y [Hy E]].
      apply existsb_exists. exists y. split; [now apply In_distinct | exact E].
    - apply not_true_is_false. intro E'. apply existsb_exists in E'.
      destruct E' as [y [Hy E']]. apply (proj1 (In_distinct y l)) in Hy.
      assert (existsb (eqb x) l = true); [|congruence].
      apply existsb_exists. now exists y. }
  pose proof (sum_counts_cons x l (NoDup_distinct l)) as S.
  rewrite IH, Hx in S.
  destruct (existsb (eqb x) l) eqn:E.
  - rewrite S. lia.
  - cbn [map]. unfold list_sum in *. cbn [fold_right]. rewrite S.
    cbn [filter]. rewrite eqb_same. cbn [List.length].
    assert (Z0 : List.length (filter (eqb x) l) = 0%nat).
    { destruct (filter (eqb x) l) as [|y ys] eqn:F; [reflexivity|].
      assert (Hy : In y (filter (eqb x) l)) by (rewrite F; now left).
      apply filter_In in Hy. destruct Hy as [Hy Ey].
      assert (existsb (eqb x) l = true); [|congruence].
      apply existsb_exists. now exists y. }
    rewrite Z0. lia.
Qed.

Lemma group_count_keys keys :
  NoDup (map fst (group_count eqb keys))
  /\ forall k n, In (k, n) (group_count eqb keys) ->
                 In k keys /\ n = List.length (filter (eqb k) keys) /\ (0 < n)%nat.
Proof.
  unfold group_count. split.
  - rewrite map_map. simpl. rewrite map_id. apply NoDup_distinct.
  - intros k n Hin. apply in_map_iff in Hin. destruct Hin as [k' [E Hk]].
    injection E as -> <-. apply (proj1 (In_distinct k keys)) in Hk.
    repeat split; [exact Hk|].
    destruct (filter (eqb k) keys) as [|y ys] eqn:F; simpl; [|lia].
    assert (Hy : In k (filter (eqb k) keys))
      by (apply filter_In; split; [exact Hk | apply eqb_same]).
    rewrite F in Hy. contradiction.
Qed.

End GroupBy.

(** X15. The numbers of [tasksRepo.getStats] add up: the counts by status
    and the counts by priority each sum to the total; a status is listed at
    most once and only with a positive count; the overdue count does not
    exceed the total; and without a chat filter it is the number of tasks
    that the overdue query of the sweep returns. *)
Theorem stats_add_up (env : Env) (d : Db) (chat : option Z) :
  let s := tasksRepo.getStats env d chat in
  list_sum (map snd (tasksRepo.byStatus s)) = tasksRepo.total s
  /\ list_sum (map snd (tasksRepo.byPriority s)) = tasksRepo.total s
  /\ NoDup (map fst (tasksRepo.byStatus s))
  /\ (forall k n, In (k, n) (tasksRepo.byStatus s) -> (0 < n)%nat)
  /\ (tasksRepo.overdue_count s <= tasksRepo.total s)%nat
  /\ (chat = None ->
      tasksRepo.overdue_count s = List.length (tasksRepo.getOverdueTasks env d)).
Proof.
  simpl. repeat split.
  - rewrite (group_count_sum _ TaskStatus_eqb_eq). apply length_map.
  - rewrite (group_count_sum _ String.eqb_eq). apply length_map.
  - apply (group_count_keys _ TaskStatus_eqb_eq).
  - intros k n H. now apply (group_count_keys _ TaskStatus_eqb_eq) in H.
  - apply List.filter_length_le.
  - intros ->. simpl. unfold tasksRepo.getOverdueTasks.
    rewrite length_map, (Permutation_length (sort_by_perm _ _)).
    f_equal. f_equal. clear. induction (tasks d) as [|r l IH]; simpl; congruence.
Qed.

Lemma stats_add_up_witness :
  list_sum (map snd (tasksRepo.byStatus
                       (tasksRepo.getStats Scenario.env0 (db Scenario.overdue_2d) None)))
  = tasksRepo.total (tasksRepo.getStats Scenario.env0 (db Scenario.overdue_2d) None)
  /\ tasksRepo.overdue_count
       (tasksRepo.getStats Scenario.env0 (db Scenario.overdue_2d) None)
     = List.length (tasksRepo.getOverdueTasks Scenario.env0 (db Scenario.overdue_2d)).
Proof.
  pose proof (stats_add_up Scenario.env0 (db Scenario.overdue_2d) None) as H.
  cbv zeta in H. destruct H as [H1 [_ [_ [_ [_ H6]]]]].
  split; [exact H1 | apply H6; reflexivity].
Defined.

(* ------------------------------------------------------------------ *)
(** * Further properties of the sweep *)

Section SweepOutcome.

Import reminders.

Lemma world_eta w : mkWorld (db w) (board_calls w) (outbox w ++ []) = w.
Proof. rewrite app_nil_r. now destruct w. Qed.

Lemma send_reminders_run env t type us : forall w,
  forM_ us (fun userId => sendReminderToUser userId t type) env w
  = (mkWorld (db w) (board_calls w) (outbox w ++ reminder_msgs env (db w) t type us),
     Ok tt).
Proof.
  induction us as [|u us IH]; intro w; simpl.
  - unfold ret. now rewrite world_eta.
  - unfold bind. unfold sendReminderToUser at 1, try_log, bind, get_db, ask, log_sent.
    simpl. destruct (usersRepo.getByTelegramId (db w) u); simpl.
    + rewrite IH. simpl. now rewrite <- app_assoc.
    + unfold ret. rewrite IH. reflexivity.
Qed.

Lemma send_overdue_run env t us : forall w,
  forM_ us (fun userId => sendOverdueReminderToUser userId t) env w
  = (mkWorld (db w) (board_calls w) (outbox w ++ overdue_msgs env (db w) t us), Ok tt).
Proof.
  induction us as [|u us IH]; intro w; simpl.
  - unfold ret. now rewrite world_eta.
  - unfold bind. unfold sendOverdueReminderToUser at 1, try_log, bind, get_db, ask,
      log_sent.
    simpl. destruct (usersRepo.getByTelegramId (db w) u); simpl.
    + rewrite IH. simpl. now rewrite <- app_assoc.
    + unfold ret. rewrite IH. reflexivity.
Qed.

(** On a stored card, an INSERT with a type the CHECK rejects throws and
    changes nothing. *)
Lemma rejected_insert_throws mode env card type w row :
  type_check type = false ->
  find (tasksRepo.has_card card) (tasks (db w)) = Some row ->
  run_insert mode (selected_rows env (db w) card type) env w
  = (w, Throw SqliteConstraintCheck).
Proof.
  intros TC F. unfold run_insert, selected_rows, bind, get_db, throw. simpl.
  destruct (filter (tasksRepo.has_card card) (tasks (db w))) as [|r l] eqn:E.
  - apply find_some in F. destruct F as [Hin Hc].
    assert (In row (filter (tasksRepo.has_card card) (tasks (db w))))
      by (apply filter_In; tauto).
    rewrite E in H. contradiction.
  - simpl. unfold insert_row. simpl. now rewrite TC.
Qed.

(** What the body of the window loop does for a window key and a task of
    the table: nothing, or it notifies the recipients and throws. *)
Lemma remind_task_run env w type t row :
  type_check type = false ->
  find (tasksRepo.has_card (plankaCardId t)) (tasks (db w)) = Some row ->
  remind_task type t env w
  = if TaskStatus_eqb (status t) DONE
       || wasReminderSent (db w) (plankaCardId t) type
    then (w, Ok tt)
    else (mkWorld (db w) (board_calls w)
                  (outbox w ++ reminder_msgs env (db w) t type (recipients t)),
          Throw SqliteConstraintCheck).
Proof.
  intros TC F. unfold remind_task.
  destruct (TaskStatus_eqb (status t) DONE); [reflexivity|].
  unfold bind at 1, get_db at 1.
  destruct (wasReminderSent (db w) (plankaCardId t) type); [reflexivity|].
  cbn [orb]. unfold bind. rewrite send_reminders_run.
  unfold markReminderSent, bind, ask, get_db.
  pose proof (@rejected_insert_throws DoUpdateSentAt env (plankaCardId t) type
                (mkWorld (db w) (board_calls w)
                         (outbox w ++ reminder_msgs env (db w) t type (recipients t)))
                row TC F) as R.
  cbn [db board_calls outbox] in *. now rewrite R.
Qed.

Lemma escalate_task_run env w t row :
  find (tasksRepo.has_card (plankaCardId t)) (tasks (db w)) = Some row ->
  escalate_task t env w
  = if match getLastOverdueReminder env (db w) (plankaCardId t) with
       | Some last => now env - last >? DAY_MS
       | None => true
       end
    then (mkWorld (db w) (board_calls w)
                  (outbox w ++ overdue_msgs env (db w) t (recipients t)),
          Throw SqliteConstraintCheck)
    else (w, Ok tt).
Proof.
  intros F. unfold escalate_task, bind at 1 2, ask at 1, get_db at 1. cbv zeta.
  destruct (match getLastOverdueReminder env (db w) (plankaCardId t) with
            | Some last => now env - last >? DAY_MS
            | None => true
            end); [|reflexivity].
  unfold bind. rewrite send_overdue_run.
  unfold markOverdueReminderSent, bind, ask, get_db.
  pose proof (@rejected_insert_throws OrReplace env (plankaCardId t) "overdue"
                (mkWorld (db w) (board_calls w)
                         (outbox w ++ overdue_msgs env (db w) t (recipients t)))
                row eq_refl F) as R.
  cbn [db board_calls outbox] in *. now rewrite R.
Qed.

(** A loop whose body either does nothing or throws stops at the first
    element that throws. *)
Lemma forM_first_throw {A} (body : A -> M unit) env w (xs : list A) :
  (forall x, In x xs ->
             body x env w = (w, Ok tt)
             \/ exists w', body x env w = (w', Throw SqliteConstraintCheck)) ->
  forM_ xs body env w = (w, Ok tt)
  \/ exists x, In x xs /\ forM_ xs body env w = body x env w
               /\ exists w', body x env w = (w', Throw SqliteConstraintCheck).
Proof.
  induction xs as [|x xs IH]; intro H; simpl.
  - now left.
  - unfold bind. destruct (H x (or_introl eq_refl)) as [E|[w' E]].
    + rewrite E. destruct IH as [E'|[y [Hy [E' T]]]].
      * intros y Hy. apply H. now right.
      * now left.
      * right. exists y. split; [now right|]. split; assumption.
    + right. exists x. split; [now left|]. rewrite E. split; [reflexivity|].
      now exists w'.
Qed.

Lemma task_of_row_is_found d row :
  In row (tasks d) ->
  exists row', find (tasksRepo.has_card (t_planka_card_id row)) (tasks d) = Some row'.
Proof.
  intro Hin.
  destruct (find (tasksRepo.has_card (t_planka_card_id row)) (tasks d)) eqn:F;
    [eauto|].
  apply (find_none _ _ F) in Hin. unfold tasksRepo.has_card in Hin.
  rewrite String.eqb_refl in Hin. discriminate.
Qed.

Lemma window_pass_outcome env w type hours :
  type_check type = false ->
  window_pass (type, hours) env w = (w, Ok tt)
  \/ exists row,
      In row (tasks (db w))
      /\ tasksRepo.upcoming env hours row = true
      /\ wasReminderSent (db w) (t_planka_card_id row) type = false
      /\ window_pass (type, hours) env w
         = (mkWorld (db w) (board_calls w)
                    (outbox w ++ reminder_msgs env (db w) (tasksRepo.mapRowToTask row)
                                               type
                                               (recipients (tasksRepo.mapRowToTask row))),
            Throw SqliteConstraintCheck).
Proof.
  intro TC.
  assert (W : window_pass (type, hours) env w
              = forM_ (tasksRepo.getUpcomingDeadlines env (db w) hours)
                      (remind_task type) env w) by reflexivity.
  rewrite W. clear W.
  assert (Hrun : forall x,
             In x (tasksRepo.getUpcomingDeadlines env (db w) hours) ->
             exists row,
               In row (tasks (db w)) /\ tasksRepo.upcoming env hours row = true
               /\ x = tasksRepo.mapRowToTask row
               /\ remind_task type x env w
                  = if TaskStatus_eqb (status x) DONE
                       || wasReminderSent (db w) (plankaCardId x) type
                    then (w, Ok tt)
                    else (mkWorld (db w) (board_calls w)
                                  (outbox w ++ reminder_msgs env (db w) x type
                                                             (recipients x)),
                          Throw SqliteConstraintCheck)).
  { intros x Hx. apply In_upcoming in Hx. destruct Hx as [row [Hr [Hu ->]]].
    exists row. repeat split; try assumption.
    destruct (task_of_row_is_found _ _ Hr) as [row' F].
    now apply (@remind_task_run env w type (tasksRepo.mapRowToTask row) row'). }
  destruct (@forM_first_throw _ (remind_task type) env w
              (tasksRepo.getUpcomingDeadlines env (db w) hours)) as [E|[x [Hx [E T]]]].
  - intros x Hx. destruct (Hrun x Hx) as [row [_ [_ [_ R]]]]. rewrite R.
    destruct (_ || _); [now left | right; eauto].
  - now left.
  - right. destruct (Hrun x Hx) as [row [Hr [Hu [-> R]]]]. exists row.
    destruct T as [w' T]. rewrite R in T. rewrite E, R.
    destruct (TaskStatus_eqb (status (tasksRepo.mapRowToTask row)) DONE);
      [discriminate T|].
    destruct (wasReminderSent (db w) (plankaCardId (tasksRepo.mapRowToTask row)) type)
      eqn:WS; [discriminate T|].
    split; [exact Hr|]. split; [exact Hu|]. split; [exact WS | reflexivity].
Qed.

Lemma In_overdue_tasks env d t :
  In t (tasksRepo.getOverdueTasks env d)
  <-> exists row, In row (tasks d) /\ tasksRepo.overdue env row = true
                  /\ t = tasksRepo.mapRowToTask row.
Proof.
  unfold tasksRepo.getOverdueTasks. rewrite in_map_iff. split.
  - intros [row [<- H]]. apply In_sort_by, filter_In in H. exists row. tauto.
  - intros [row [H1 [H2 ->]]]. exists row. split; [reflexivity|].
    apply In_sort_by, filter_In. tauto.
Qed.

Lemma overdue_pass_outcome env w :
  overdue_pass env w = (w, Ok tt)
  \/ exists row,
      In row (tasks (db w))
      /\ tasksRepo.overdue env row = true
      /\ overdue_pass env w
         = (mkWorld (db w) (board_calls w)
                    (outbox w ++ overdue_msgs env (db w) (tasksRepo.mapRowToTask row)
                                             (recipients (tasksRepo.mapRowToTask row))),
            Throw SqliteConstraintCheck).
Proof.
  assert (W : overdue_pass env w
              = forM_ (tasksRepo.getOverdueTasks env (db w)) escalate_task env w)
    by reflexivity.
  rewrite W. clear W.
  assert (Hrun : forall x,
             In x (tasksRepo.getOverdueTasks env (db w)) ->
             exists row row',
               In row (tasks (db w)) /\ tasksRepo.overdue env row = true
               /\ x = tasksRepo.mapRowToTask row
               /\ find (tasksRepo.has_card (plankaCardId x)) (tasks (db w))
                  = Some row').
  { intros x Hx. apply In_overdue_tasks in Hx. destruct Hx as [row [Hr [Hu ->]]].
    destruct (task_of_row_is_found _ _ Hr) as [row' F].
    exists row, row'. repeat split; assumption. }
  destruct (@forM_first_throw _ escalate_task env w
              (tasksRepo.getOverdueTasks env (db w))) as [E|[x [Hx [E T]]]].
  - intros x Hx. destruct (Hrun x Hx) as [row [row' [_ [_ [_ F]]]]].
    rewrite (@escalate_task_run env w x row' F).
    destruct (match getLastOverdueReminder env (db w) (plankaCardId x) with
              | Some last => now env - last >? DAY_MS
              | None => true
              end); [right; eauto | now left].
  - now left.
  - right. destruct (Hrun x Hx) as [row [row' [Hr [Hu [-> F]]]]]. exists row.
    repeat split; try assumption. rewrite E.
    destruct T as [w' T]. rewrite (@escalate_task_run env w _ row' F) in *.
    destruct (match getLastOverdueReminder env (db w) _ with
              | Some last => now env - last >? DAY_MS
              | None => true
              end); [reflexivity | discriminate].
Qed.

(** One sweep in one equation: the world is left as it was, or the outbox
    grows by the messages about one task that is upcoming in one of the
    windows or overdue. *)
Lemma sweep_outcome env w :
  sweep env w = w
  \/ exists row,
      In row (tasks (db w))
      /\ ((exists type hours,
             In (type, hours) REMINDER_WINDOWS
             /\ tasksRepo.upcoming env hours row = true
             /\ wasReminderSent (db w) (t_planka_card_id row) type = false
             /\ sweep env w
                = mkWorld (db w) (board_calls w)
                          (outbox w
                           ++ reminder_msgs env (db w) (tasksRepo.mapRowToTask row) type
                                (recipients (tasksRepo.mapRowToTask row))))
          \/ (tasksRepo.overdue env row = true
              /\ sweep env w
                 = mkWorld (db w) (board_calls w)
                           (outbox w
                            ++ overdue_msgs env (db w) (tasksRepo.mapRowToTask row)
                                 (recipients (tasksRepo.mapRowToTask row))))).
Proof.
  assert (S : sweep env w
              = fst (match window_pass ("FIRST", 24) env w with
                     | (w1, Ok _) =>
                         match window_pass ("SECOND", 6) env w1 with
                         | (w2, Ok _) =>
                             match window_pass ("THIRD", 2) env w2 with
                             | (w3, Ok _) => overdue_pass env w3
                             | (w3, Throw e) => (w3, Throw e)
                             end
                         | (w2, Throw e) => (w2, Throw e)
                         end
                     | (w1, Throw e) => (w1, Throw e)
                     end)).
  { unfold sweep, sendReminders, try_log, REMINDER_WINDOWS. cbn [forM_].
    unfold bind, ret.
    destruct (window_pass ("FIRST", 24) env w) as [w1 [[]|e1]]; [|reflexivity].
    destruct (window_pass ("SECOND", 6) env w1) as [w2 [[]|e2]]; [|reflexivity].
    destruct (window_pass ("THIRD", 2) env w2) as [w3 [[]|e3]]; [|reflexivity].
    now destruct (overdue_pass env w3). }
  rewrite S. clear S.
  destruct (@window_pass_outcome env w "FIRST" 24 eq_refl)
    as [E1|[row [Hr [Hu [Hw E1]]]]];
    rewrite E1.
  2:{ right. exists row. split; [exact Hr|]. left. exists "FIRST", 24.
      simpl. tauto. }
  destruct (@window_pass_outcome env w "SECOND" 6 eq_refl)
    as [E2|[row [Hr [Hu [Hw E2]]]]];
    rewrite E2.
  2:{ right. exists row. split; [exact Hr|]. left. exists "SECOND", 6.
      simpl. tauto. }
  destruct (@window_pass_outcome env w "THIRD" 2 eq_refl)
    as [E3|[row [Hr [Hu [Hw E3]]]]];
    rewrite E3.
  2:{ right. exists row. split; [exact Hr|]. left. exists "THIRD", 2.
      simpl. tauto. }
  destruct (overdue_pass_outcome env w) as [E4|[row [Hr [Ho E4]]]]; rewrite E4.
  - now left.
  - right. exists row. split; [exact Hr|]. right. simpl. tauto.
Qed.

Lemma recipients_of_row row u :
  In u (recipients (tasksRepo.mapRowToTask row)) ->
  u = t_created_by row \/ t_assigned_to row = Some u.
Proof.
  unfold recipients. simpl. intros [<-|H]; [now left|].
  destruct (t_assigned_to row) as [a|]; [|contradiction].
  destruct (a =? 0); [contradiction|]. simpl in H.
  destruct (a =? t_created_by row); [contradiction|].
  destruct H as [<-|[]]. now right.
Qed.

Lemma recipients_at_most_two t : (List.length (recipients t) <= 2)%nat.
Proof.
  unfold recipients. destruct (assigneeId t) as [a|]; simpl; [|lia].
  destruct (a =? createdBy t); simpl; lia.
Qed.

Lemma reminder_msgs_spec env d t type us s :
  In s (reminder_msgs env d t type us) ->
  In (to s) us /\ about s = Some (plankaCardId t)
  /\ usersRepo.getByTelegramId d (to s) <> None
  /\ kind s = Reminder type (window_line type).
Proof.
  unfold reminder_msgs. rewrite in_flat_map. intros [u [Hu Hs]].
  destruct (usersRepo.getByTelegramId d u) eqn:G; [|contradiction].
  destruct Hs as [<-|[]]. simpl. repeat split; try assumption. now rewrite G.
Qed.

Lemma overdue_msgs_spec env d t us s :
  In s (overdue_msgs env d t us) ->
  In (to s) us /\ about s = Some (plankaCardId t)
  /\ usersRepo.getByTelegramId d (to s) <> None
  /\ kind s = OverdueNotice.
Proof.
  unfold overdue_msgs. rewrite in_flat_map. intros [u [Hu Hs]].
  destruct (usersRepo.getByTelegramId d u) eqn:G; [|contradiction].
  destruct Hs as [<-|[]]. simpl. repeat split; try assumption. now rewrite G.
Qed.

Lemma flat_map_length_le {X Y} (f : X -> list Y) l :
  (forall x, (List.length (f x) <= 1)%nat) ->
  (List.length (flat_map f l) <= List.length l)%nat.
Proof.
  intro H. induction l as [|x l IH]; simpl; [lia|].
  rewrite length_app. specialize (H x). lia.
Qed.

End SweepOutcome.

(** X16. A sweep only adds to the outbox, and every message it adds is a
    reminder or an overdue notice about a task of the table that is not
    done and has a due date, addressed to the creator or the assignee of
    that task, and only if that recipient is a registered user. *)
Theorem sweep_notifies_only_stakeholders (env : Env) (w : World) :
  exists new,
    outbox (reminders.sweep env w) = outbox w ++ new
    /\ forall s, In s new ->
         exists row,
           In row (tasks (db w))
           /\ t_status row <> DONE
           /\ t_due_date row <> None
           /\ sweep_message_for (db w) row s.
Proof.
  destruct (sweep_outcome env w)
    as [E|[row [Hr [[type [hours [_ [Hu [_ E]]]]]|[Ho E]]]]];
    rewrite E.
  - exists []. rewrite app_nil_r. split; [reflexivity | intros s []].
  - eexists. split; [reflexivity|]. intros s Hs. exists row.
    apply upcoming_spec in Hu. destruct Hu as [due [Ed [_ [_ Hst]]]].
    split; [exact Hr|]. split; [exact Hst|]. split; [rewrite Ed; discriminate|].
    apply reminder_msgs_spec in Hs. destruct Hs as [Hto [Hab [Hreg Hk]]].
    unfold sweep_message_for. simpl in Hab. repeat split; try assumption.
    + now apply recipients_of_row.
    + left. eauto.
  - eexists. split; [reflexivity|]. intros s Hs. exists row.
    apply overdue_spec in Ho. destruct Ho as [due [Ed [_ Hst]]].
    split; [exact Hr|]. split; [exact Hst|]. split; [rewrite Ed; discriminate|].
    apply overdue_msgs_spec in Hs. destruct Hs as [Hto [Hab [Hreg Hk]]].
    unfold sweep_message_for. simpl in Hab. repeat split; try assumption.
    + now apply recipients_of_row.
    + now right.
Qed.

(** X17. One sweep notifies about at most one task: the INSERT that should
    record the notification is rejected by the CHECK constraint and the
    error ends the sweep, so the messages added are at most two, to the
    creator and the assignee, and all about the same card. *)
Theorem sweep_handles_one_task (env : Env) (w : World) :
  exists new card,
    outbox (reminders.sweep env w) = outbox w ++ new
    /\ (List.length new <= 2)%nat
    /\ (forall s, In s new -> about s = Some card)
    /\ db (reminders.sweep env w) = db w.
Proof.
  destruct (sweep_outcome env w)
    as [E|[row [Hr [[type [hours [_ [Hu [_ E]]]]]|[Ho E]]]]];
    rewrite E.
  - exists [], "". rewrite app_nil_r. repeat split; [simpl; lia | intros s []].
  - eexists. exists (t_planka_card_id row). split; [reflexivity|]. repeat split.
    + etransitivity; [|apply (recipients_at_most_two (tasksRepo.mapRowToTask row))].
      unfold reminder_msgs. apply flat_map_length_le. intro u.
      destruct (usersRepo.getByTelegramId (db w) u); simpl; lia.
    + intros s Hs. now apply reminder_msgs_spec in Hs.
  - eexists. exists (t_planka_card_id row). split; [reflexivity|]. repeat split.
    + etransitivity; [|apply (recipients_at_most_two (tasksRepo.mapRowToTask row))].
      unfold overdue_msgs. apply flat_map_length_le. intro u.
      destruct (usersRepo.getByTelegramId (db w) u); simpl; lia.
    + intros s Hs. now apply overdue_msgs_spec in Hs.
Qed.

(** X18. When every task of the table is done or has no due date, a sweep
    changes nothing at all: no message, no ledger row, at any time. *)
Theorem sweep_with_nothing_due (env : Env) (w : World) :
  (forall row, In row (tasks (db w)) -> t_due_date row = None \/ t_status row = DONE) ->
  reminders.sweep env w = w.
Proof.
  intro H.
  destruct (sweep_outcome env w)
    as [E|[row [Hr [[type [hours [_ [Hu [_ E]]]]]|[Ho E]]]]].
  - exact E.
  - exfalso. apply upcoming_spec in Hu. destruct Hu as [due [Ed [_ [_ Hst]]]].
    destruct (H row Hr) as [Hn|Hd]; [congruence | contradiction].
  - exfalso. apply overdue_spec in Ho. destruct Ho as [due [Ed [_ Hst]]].
    destruct (H row Hr) as [Hn|Hd]; [congruence | contradiction].
Qed.

Lemma sweep_with_nothing_due_witness :
  reminders.sweep Scenario.env0 (Scenario.in_status DONE) = Scenario.in_status DONE.
Proof.
  apply (@sweep_with_nothing_due Scenario.env0 (Scenario.in_status DONE)).
  intros row [<-|[]]. left. reflexivity.
Defined.

(* ------------------------------------------------------------------ *)
(** * The ledger for the window types the schema admits *)

Section LedgerRoundTrip.

Import reminders.

Lemma insert_row_sent new rows ts :
  type_check (r_type new) = true ->
  r_sent_at new = Some ts ->
  exists rows',
    insert_row DoUpdateSentAt new rows = Ok rows'
    /\ has_sent rows' (ledger_key new)
    /\ forall k, has_sent rows k -> has_sent rows' k.
Proof.
  intros TC Hs. unfold insert_row. rewrite TC. simpl.
  destruct (existsb (same_key new) rows) eqn:EX.
  - eexists. split; [reflexivity|]. split.
    + apply existsb_exists in EX. destruct EX as [r [Hr Hk]].
      exists (mkReminderRow (r_task_id r) (r_user_id r) (r_type r) (r_sent_at new)).
      split; [|split].
      * apply in_map_iff. exists r. now rewrite Hk.
      * apply same_key_iff in Hk. now symmetry.
      * simpl. rewrite Hs. discriminate.
    + intros k [r [Hr [Hk Hn]]].
      exists (if same_key new r
              then mkReminderRow (r_task_id r) (r_user_id r) (r_type r) (r_sent_at new)
              else r).
      split; [|split].
      * apply in_map_iff. now exists r.
      * now destruct (same_key new r).
      * destruct (same_key new r); [simpl; rewrite Hs; discriminate | exact Hn].
  - eexists. split; [reflexivity|]. split.
    + exists new. split; [apply in_or_app; right; now left|].
      split; [reflexivity | rewrite Hs; discriminate].
    + intros k [r [Hr H]]. exists r. split; [apply in_or_app; now left | exact H].
Qed.

Lemma insert_rows_sent ts news : forall rows,
  (forall n, In n news -> type_check (r_type n) = true /\ r_sent_at n = Some ts) ->
  exists rows',
    insert_rows DoUpdateSentAt news rows = Ok rows'
    /\ (forall n, In n news -> has_sent rows' (ledger_key n))
    /\ forall k, has_sent rows k -> has_sent rows' k.
Proof.
  induction news as [|n news IH]; intros rows H; simpl.
  - exists rows. repeat split; [intros n [] | auto].
  - destruct (H n (or_introl eq_refl)) as [TC Hs].
    destruct (@insert_row_sent n rows ts TC Hs) as [rows1 [E1 [S1 K1]]].
    rewrite E1.
    destruct (IH rows1) as [rows' [E [S K]]].
    { intros m Hm. apply H. now right. }
    exists rows'. split; [exact E|]. split.
    + intros m [<-|Hm]; [now apply K | now apply S].
    + intros k Hk. now apply K, K1.
Qed.

Lemma find_filter_head {A} (f : A -> bool) l x :
  find f l = Some x -> exists l', filter f l = x :: l'.
Proof.
  induction l as [|y l IH]; simpl; [discriminate|].
  destruct (f y) eqn:E.
  - intro H. injection H as <-. eauto.
  - exact IH.
Qed.

Lemma mark_then_was_sent env w card type row :
  type_check type = true ->
  find (tasksRepo.has_card card) (tasks (db w)) = Some row ->
  exists w',
    markReminderSent card type env w = (w', Ok tt)
    /\ wasReminderSent (db w') card type = true
    /\ tasks (db w') = tasks (db w)
    /\ outbox w' = outbox w.
Proof.
  intros TC F.
  unfold markReminderSent, run_insert, bind, ask, get_db, put_db. simpl.
  destruct (@insert_rows_sent (Sql.current_timestamp env)
              (selected_rows env (db w) card type) (reminders (db w)))
    as [rows' [E [S _]]].
  { intros n Hn. unfold selected_rows in Hn. apply in_map_iff in Hn.
    destruct Hn as [t [<- _]]. simpl. now split. }
  rewrite E. eexists. split; [reflexivity|]. simpl. repeat split.
  unfold wasReminderSent, task_rowid. simpl. rewrite F. simpl.
  destruct (@find_filter_head _ _ _ _ F) as [l' Hl].
  destruct (S (mkReminderRow (t_id row) (t_created_by row) type
                             (Some (Sql.current_timestamp env))))
    as [r [Hr [Hk Hn]]].
  { unfold selected_rows. rewrite Hl. now left. }
  apply existsb_exists. exists r. split; [exact Hr|].
  unfold ledger_key in Hk. simpl in Hk. injection Hk as H1 H2 H3.
  rewrite H1, H3, Z.eqb_refl, String.eqb_refl. simpl.
  destruct (r_sent_at r); [reflexivity | contradiction].
Qed.

End LedgerRoundTrip.

(** X19. For a window type the schema admits (24h, 6h, 2h) the two ledger
    functions agree: after [markReminderSent] on a stored card,
    [wasReminderSent] answers true for that card and type, whatever the
    ledger held before, and the loop body of the sweep passes the task over
    for that type.  Tasks and outbox are not touched.  The creator of the
    task, whom the ledger row names, is a registered user, as the foreign
    key of the ledger asks. *)
Theorem marked_reminder_is_found (env : Env) (w : World) (card type : string)
        (t : Task) :
  reminders.type_check type = true ->
  tasksRepo.getByPlankaId (db w) card = Some t ->
  usersRepo.getByTelegramId (db w) (createdBy t) <> None ->
  exists w',
    reminders.markReminderSent card type env w = (w', Ok tt)
    /\ reminders.wasReminderSent (db w') card type = true
    /\ reminders.remind_task type t env w' = (w', Ok tt)
    /\ tasks (db w') = tasks (db w)
    /\ outbox w' = outbox w.
Proof.
  intros TC G _. destruct (getByPlankaId_row _ _ G) as [row [F [Ht Hc]]].
  destruct (@mark_then_was_sent env w card type row TC F) as [w' [E [S [T O]]]].
  exists w'. repeat split; try assumption.
  apply recorded_window_is_skipped. subst t. simpl. now rewrite Hc.
Qed.

Lemma marked_reminder_is_found_witness :
  exists w',
    reminders.markReminderSent "card-7" "6h" Scenario.env0 Scenario.with_ledger
    = (w', Ok tt)
    /\ reminders.wasReminderSent (db w') "card-7" "6h" = true.
Proof.
  destruct (@marked_reminder_is_found Scenario.env0 Scenario.with_ledger "card-7" "6h"
              (tasksRepo.mapRowToTask
                 (Scenario.task_with TODO
                    (Some (Scenario.now0 + 5 * Sql.MS_PER_HOUR)))))
    as [w' [E [S _]]].
  - reflexivity.
  - reflexivity.
  - discriminate.
  - exists w'. split; assumption.
Defined.

(* ------------------------------------------------------------------ *)
(** * Who a digest run reaches *)

Section DigestReach.

Import digest.

Lemma digest_messages_spec ty env d v s :
  In s (digest_messages ty env d v) ->
  s = mkSent (telegramId v) None (digest_kind ty) (tg_ok env (telegramId v))
  /\ digestEnabled (getUserSettings d (telegramId v)) = true
  /\ (is_morning ty = true -> digestHour (getUserSettings d (telegramId v)) = 9).
Proof.
  unfold digest_messages, digest_kind.
  destruct (digestEnabled (getUserSettings d (telegramId v))); simpl; [|intros []].
  destruct (is_morning ty); simpl.
  - destruct (digestHour (getUserSettings d (telegramId v)) =? 9) eqn:E; simpl;
      [|intros []].
    destruct (usersRepo.getByTelegramId d (telegramId v)); [|intros []].
    intros [<-|[]]. repeat split. intros _. now apply Z.eqb_eq.
  - destruct (usersRepo.getByTelegramId d (telegramId v)); [|intros []].
    intros [<-|[]]. repeat split. discriminate.
Qed.

Lemma digest_messages_sent ty env d row :
  In row (users d) ->
  digestEnabled (getUserSettings d (u_telegram_id row)) = true ->
  (is_morning ty = true -> digestHour (getUserSettings d (u_telegram_id row)) = 9) ->
  digest_messages ty env d (usersRepo.mapRowToUser row)
  = [mkSent (u_telegram_id row) None (digest_kind ty) (tg_ok env (u_telegram_id row))].
Proof.
  intros Hin Hen Hh. unfold digest_messages, digest_kind. simpl. rewrite Hen. simpl.
  destruct (is_morning ty); simpl.
  - rewrite (Hh eq_refl). simpl.
    destruct (usersRepo.getByTelegramId d (u_telegram_id row)) eqn:G; [reflexivity|].
    exfalso. now apply (@user_row_is_found d row Hin).
  - destruct (usersRepo.getByTelegramId d (u_telegram_id row)) eqn:G; [reflexivity|].
    exfalso. now apply (@user_row_is_found d row Hin).
Qed.

Lemma digest_messages_to ty env d v s :
  In s (digest_messages ty env d v) -> to s = telegramId v.
Proof. intro H. apply digest_messages_spec in H. destruct H as [-> _]. reflexivity. Qed.

Lemma digest_messages_short ty env d v :
  (List.length (digest_messages ty env d v) <= 1)%nat.
Proof.
  unfold digest_messages.
  destruct (negb _); [simpl; lia|].
  destruct (_ && _); [simpl; lia|].
  destruct (usersRepo.getByTelegramId d (telegramId v)); simpl; lia.
Qed.

Lemma sent_to_none ty env d u l :
  ~ In u (map telegramId l) ->
  sent_to u (flat_map (digest_messages ty env d) l) = [].
Proof.
  induction l as [|v l IH]; simpl; intro H; [reflexivity|].
  rewrite sent_to_app, IH by tauto. rewrite app_nil_r.
  unfold sent_to.
  destruct (filter (fun s => to s =? u) (digest_messages ty env d v)) as [|s rest] eqn:F;
    [reflexivity|].
  exfalso. assert (Hs : In s (filter (fun s => to s =? u) (digest_messages ty env d v)))
    by (rewrite F; now left).
  apply filter_In in Hs. destruct Hs as [Hs Hu]. apply Z.eqb_eq in Hu.
  apply digest_messages_to in Hs. apply H. left. congruence.
Qed.

Lemma sent_to_at_most_one ty env d u l :
  NoDup (map telegramId l) ->
  (List.length (sent_to u (flat_map (digest_messages ty env d) l)) <= 1)%nat.
Proof.
  induction l as [|v l IH]; simpl; intro H; [lia|].
  inversion H as [|x xs Hx Hnd]; subst.
  rewrite sent_to_app, length_app.
  destruct (Z.eq_dec (telegramId v) u) as [E|E].
  - rewrite (@sent_to_none ty env d u l) by (rewrite <- E; exact Hx). simpl.
    pose proof (List.filter_length_le (fun s => to s =? u) (digest_messages ty env d v)).
    pose proof (digest_messages_short ty env d v). unfold sent_to. lia.
  - assert (Z0 : sent_to u (digest_messages ty env d v) = []).
    { unfold sent_to.
      destruct (filter (fun s => to s =? u) (digest_messages ty env d v))
        as [|s rest] eqn:F; [reflexivity|].
      exfalso.
      assert (Hs : In s (filter (fun s => to s =? u) (digest_messages ty env d v)))
        by (rewrite F; now left).
      apply filter_In in Hs. destruct Hs as [Hs Hu]. apply Z.eqb_eq in Hu.
      apply digest_messages_to in Hs. congruence. }
    rewrite Z0. simpl. now apply IH.
Qed.

Lemma NoDup_map_filter_app {A B} (f : A -> B) (p q : A -> bool) l :
  (forall x, p x = true -> q x = true -> False) ->
  NoDup (map f l) ->
  NoDup (map f (filter p l ++ filter q l)).
Proof.
  intros D. induction l as [|x l IH]; simpl; intro H; [constructor|].
  inversion H as [|y ys Hx Hnd]; subst.
  assert (N : forall r, ~ In (f x) (map f (filter r l))).
  { intros r Hin. apply Hx. apply in_map_iff in Hin.
    destruct Hin as [z [Hz Hin]]. apply filter_In in Hin.
    apply in_map_iff. exists z. tauto. }
  destruct (p x) eqn:P, (q x) eqn:Q.
  - exfalso. eauto.
  - simpl. constructor; [|now apply IH].
    rewrite map_app, in_app_iff. intros [H1|H1]; now apply N in H1.
  - rewrite map_app. simpl. apply NoDup_Add with (a := f x) (l := map f (filter p l) ++ map f (filter q l)).
    + apply Add_app.
    + split; [rewrite <- map_app; now apply IH|].
      rewrite in_app_iff. intros [H1|H1]; now apply N in H1.
  - now apply IH.
Qed.

Lemma recipients_unique d :
  users_unique d -> NoDup (map telegramId (digest_recipients d)).
Proof.
  intro U. unfold digest_recipients, usersRepo.getAll.
  rewrite <- map_app, map_map. simpl.
  apply (@Permutation_NoDup _
           (map u_telegram_id
                (filter (fun row => UserRole_eqb (u_role row) OWNER) (users d)
                 ++ filter (fun row => UserRole_eqb (u_role row) ADMIN) (users d)))).
  - apply Permutation_map. apply Permutation_app; symmetry; apply sort_by_perm.
  - apply NoDup_map_filter_app; [|exact U].
    intros x. destruct (u_role x); simpl; discriminate.
Qed.

End DigestReach.

(** X20. A digest run only reads the store and only sends digests: the
    database and the board trace are as before, the run returns normally,
    and every message it adds to the outbox is a digest of the run's kind,
    about no card, addressed to a registered owner or admin whose settings
    have the digest enabled, and for a morning run have digest hour 9.
    Employees are never written to. *)
Theorem digest_reaches_only_enabled_managers (ty : digest.DigestType)
        (env : Env) (w : World) :
  exists new,
    digest.sendDailyDigest ty env w
    = (mkWorld (db w) (board_calls w) (outbox w ++ new), Ok tt)
    /\ forall s, In s new ->
         kind s = digest_kind ty
         /\ about s = None
         /\ is_manager (db w) (to s)
         /\ digest.digestEnabled (digest.getUserSettings (db w) (to s)) = true
         /\ (ty = digest.morning ->
             digest.digestHour (digest.getUserSettings (db w) (to s)) = 9).
Proof.
  eexists. split; [apply sendDailyDigest_run|].
  intros s Hs. apply in_flat_map in Hs. destruct Hs as [v [Hv Hs]].
  apply digest_recipients_spec in Hv. destruct Hv as [row [Hin [Hrole ->]]].
  apply digest_messages_spec in Hs. destruct Hs as [-> [En Hh]]. simpl.
  repeat split; try assumption.
  - exists row. auto.
  - intros ->. now apply Hh.
Qed.

Lemma digest_reaches_only_enabled_managers_witness :
  exists new,
    digest.sendDailyDigest digest.morning Scenario.env0 Scenario.digest_at_18
    = (mkWorld (db Scenario.digest_at_18) (board_calls Scenario.digest_at_18)
               (outbox Scenario.digest_at_18 ++ new), Ok tt)
    /\ forall s, In s new -> is_manager (db Scenario.digest_at_18) (to s).
Proof.
  destruct (digest_reaches_only_enabled_managers digest.morning Scenario.env0
              Scenario.digest_at_18) as [new [E H]].
  exists new. split; [exact E|].
  intros s Hs. destruct (H s Hs) as [_ [_ [M _]]]. exact M.
Defined.

(** X21. The digest hour of a user's settings gates the morning run only.
    A registered owner or admin with the digest enabled is sent the evening
    digest by every evening run, whatever hour they chose; the morning run
    writes to them exactly when the hour is 9, and with any other hour the
    messages addressed to them stay as they were. *)
Theorem digest_hour_gates_morning_only (env : Env) (w : World) (row : UserRow) :
  In row (users (db w)) ->
  u_role row = OWNER \/ u_role row = ADMIN ->
  digest.digestEnabled (digest.getUserSettings (db w) (u_telegram_id row)) = true ->
  (exists new,
      outbox (fst (digest.sendDailyDigest digest.evening env w)) = outbox w ++ new
      /\ In (mkSent (u_telegram_id row) None EveningDigest
                    (tg_ok env (u_telegram_id row))) new)
  /\ (digest.digestHour (digest.getUserSettings (db w) (u_telegram_id row)) = 9 ->
      exists new,
        outbox (fst (digest.sendDailyDigest digest.morning env w)) = outbox w ++ new
        /\ In (mkSent (u_telegram_id row) None MorningDigest
                      (tg_ok env (u_telegram_id row))) new)
  /\ (digest.digestHour (digest.getUserSettings (db w) (u_telegram_id row)) <> 9 ->
      sent_to (u_telegram_id row)
              (outbox (fst (digest.sendDailyDigest digest.morning env w)))
      = sent_to (u_telegram_id row) (outbox w)).
Proof.
  intros Hin Hrole En.
  assert (R : In (usersRepo.mapRowToUser row) (digest.digest_recipients (db w))).
  { apply digest_recipients_spec. exists row. auto. }
  split; [|split].
  - rewrite sendDailyDigest_run. simpl. eexists. split; [reflexivity|].
    apply in_flat_map. exists (usersRepo.mapRowToUser row). split; [exact R|].
    rewrite (@digest_messages_sent digest.evening env (db w) row Hin En);
      [now left | discriminate].
  - intro H9. rewrite sendDailyDigest_run. simpl. eexists. split; [reflexivity|].
    apply in_flat_map. exists (usersRepo.mapRowToUser row). split; [exact R|].
    rewrite (@digest_messages_sent digest.morning env (db w) row Hin En);
      [now left | intros _; exact H9].
  - intro Hne. rewrite sendDailyDigest_run. simpl.
    rewrite sent_to_app.
    destruct (sent_to (u_telegram_id row)
                (flat_map (digest_messages digest.morning env (db w))
                          (digest.digest_recipients (db w)))) as [|s rest] eqn:F;
      [apply app_nil_r|].
    exfalso.
    assert (Hs : In s (sent_to (u_telegram_id row)
                (flat_map (digest_messages digest.morning env (db w))
                          (digest.digest_recipients (db w)))))
      by (rewrite F; now left).
    apply filter_In in Hs. destruct Hs as [Hs Hu]. apply Z.eqb_eq in Hu.
    apply in_flat_map in Hs. destruct Hs as [v [_ Hs]].
    apply digest_messages_spec in Hs. destruct Hs as [-> [_ Hh]]. simpl in Hu.
    apply Hne. rewrite <- Hu. now apply Hh.
Qed.

Lemma digest_hour_gates_morning_only_witness :
  (exists new,
      outbox (fst (digest.sendDailyDigest digest.evening Scenario.env0
                     Scenario.digest_at_18))
      = outbox Scenario.digest_at_18 ++ new
      /\ In (mkSent 100 None EveningDigest true) new)
  /\ sent_to 100 (outbox (fst (digest.sendDailyDigest digest.morning Scenario.env0
                                 Scenario.digest_at_18)))
     = sent_to 100 (outbox Scenario.digest_at_18).
Proof.
  destruct (@digest_hour_gates_morning_only Scenario.env0 Scenario.digest_at_18
              Scenario.userB)
    as [E [_ M]].
  - left. reflexivity.
  - left. reflexivity.
  - reflexivity.
  - split; [exact E|]. apply M. discriminate.
Defined.

(** X22. With telegram ids unique among the users, as the schema has them,
    a digest run sends each user at most one message, although it gathers
    its recipients from two queries. *)
Theorem one_digest_per_user (ty : digest.DigestType) (env : Env) (w : World) (u : Z) :
  users_unique (db w) ->
  exists new,
    outbox (fst (digest.sendDailyDigest ty env w)) = outbox w ++ new
    /\ (List.length (sent_to u new) <= 1)%nat.
Proof.
  intro U. rewrite sendDailyDigest_run. simpl. eexists. split; [reflexivity|].
  apply sent_to_at_most_one. now apply recipients_unique.
Qed.

Lemma one_digest_per_user_witness :
  exists new,
    outbox (fst (digest.sendDailyDigest digest.evening Scenario.env0
                   Scenario.digest_world))
    = outbox Scenario.digest_world ++ new
    /\ (List.length (sent_to 200 new) <= 1)%nat.
Proof.
  apply (@one_digest_per_user digest.evening Scenario.env0 Scenario.digest_world 200).
  unfold users_unique. simpl.
  repeat (constructor; [simpl; intuition discriminate|]). constructor.
Defined.

(* ------------------------------------------------------------------ *)
(** * The settings repository *)

Section Settings.

Import settingsRepo.

Lemma find_map_keyed {A} (f : A -> bool) (h : A -> A) l :
  (forall r, f (h r) = f r) ->
  find f (map h l) = option_map h (find f l).
Proof.
  intro K. induction l as [|r l IH]; simpl; [reflexivity|].
  rewrite K. destruct (f r); [reflexivity | exact IH].
Qed.

Lemma Boolean_flag b : digest.Boolean (flag b) = b.
Proof. now destruct b. Qed.

Lemma map_set_fields i row :
  mapRowToSettings (set_fields i row) = apply_input i (mapRowToSettings row).
Proof.
  unfold mapRowToSettings, set_fields, apply_input. simpl.
  destruct (i_digestHour i), (i_digestEnabled i), (i_notificationsEnabled i);
    rewrite ?Boolean_flag; reflexivity.
Qed.

Lemma key_kept i v r :
  has_user v (if has_user (i_userId i) r then set_fields i r else r) = has_user v r.
Proof. destruct (has_user (i_userId i) r); reflexivity. Qed.

Lemma get_run_update_same d i :
  get (run_update d i) (i_userId i) = option_map (apply_input i) (get d (i_userId i)).
Proof.
  unfold get, run_update. simpl.
  rewrite find_map_keyed.
  - destruct (find (has_user (i_userId i)) (settings d)) as [row|] eqn:F; simpl;
      [|reflexivity].
    apply find_some in F. destruct F as [_ F]. rewrite F. now rewrite map_set_fields.
  - intro r. apply key_kept.
Qed.

Lemma get_run_update_other d i v :
  v <> i_userId i -> get (run_update d i) v = get d v.
Proof.
  intro Hne. unfold get, run_update. simpl.
  rewrite find_map_keyed.
  - destruct (find (has_user v) (settings d)) as [row|] eqn:F; simpl; [|reflexivity].
    apply find_some in F. destruct F as [_ F].
    unfold has_user in *. apply Z.eqb_eq in F.
    destruct (s_user_id row =? i_userId i) eqn:E; [|reflexivity].
    apply Z.eqb_eq in E. congruence.
  - intro r. apply key_kept.
Qed.

Lemma run_update_keys d i :
  map s_user_id (settings (run_update d i)) = map s_user_id (settings d).
Proof.
  unfold run_update. simpl. rewrite map_map. apply map_ext.
  intro r. now destruct (has_user (i_userId i) r).
Qed.

Lemma apply_empty_input i s :
  input_is_empty i = true -> apply_input i s = s.
Proof.
  unfold input_is_empty, apply_input.
  destruct (i_digestHour i), (i_digestEnabled i), (i_notificationsEnabled i);
    try discriminate.
  now destruct s.
Qed.

Lemma get_none_not_stored d u :
  get d u = None -> existsb (has_user u) (settings d) = false /\ ~ In u (map s_user_id (settings d)).
Proof.
  unfold get. intro G.
  destruct (find (has_user u) (settings d)) eqn:F; [discriminate|].
  split.
  - destruct (existsb (has_user u) (settings d)) eqn:E; [|reflexivity].
    apply existsb_exists in E. destruct E as [r [Hr Hu]].
    apply (find_none _ _ F) in Hr. congruence.
  - intro Hin. apply in_map_iff in Hin. destruct Hin as [r [Hu Hr]].
    apply (find_none _ _ F) in Hr. unfold has_user in Hr.
    rewrite Hu, Z.eqb_refl in Hr. discriminate.
Qed.

Lemma find_app_last {A} (f : A -> bool) l x :
  find f (l ++ [x]) = match find f l with
                      | Some y => Some y
                      | None => if f x then Some x else None
                      end.
Proof.
  induction l as [|y l IH]; simpl; [reflexivity|].
  destruct (f y); [reflexivity | exact IH].
Qed.

Lemma registered_iff d u :
  registered d u = true <-> usersRepo.getByTelegramId d u <> None.
Proof.
  unfold registered, usersRepo.getByTelegramId. split.
  - intro E. apply existsb_exists in E. destruct E as [r [Hr Hu]].
    destruct (find (fun row => u_telegram_id row =? u) (users d)) eqn:F;
      [discriminate|].
    apply (find_none _ _ F) in Hr. congruence.
  - destruct (find (fun row => u_telegram_id row =? u) (users d)) eqn:F;
      [|intro H; now contradiction H].
    intros _. apply find_some in F. apply existsb_exists. eauto.
Qed.

(** What [update] does for a user the store knows. *)
Lemma update_spec d i :
  registered d (i_userId i) = true ->
  exists d',
    update d i = (d', Returned (Some (apply_input i (getOrDefault d (i_userId i)))))
    /\ get d' (i_userId i) = Some (apply_input i (getOrDefault d (i_userId i)))
    /\ (forall v, v <> i_userId i -> get d' v = get d v)
    /\ same_but_settings d d'
    /\ (settings_unique d -> settings_unique d').
Proof.
  intro R. unfold update, getOrDefault.
  destruct (get d (i_userId i)) as [s|] eqn:G.
  - destruct (input_is_empty i) eqn:Em.
    + exists d. rewrite (@apply_empty_input i _ Em). rewrite G.
      repeat split; auto.
    + exists (run_update d i). rewrite get_run_update_same, G. simpl.
      repeat split; auto.
      * intros v Hv. now apply get_run_update_other.
      * unfold settings_unique. now rewrite run_update_keys.
  - destruct (get_none_not_stored _ _ G) as [Ex Nin].
    unfold create. rewrite Ex, R.
    set (d1 := with_settings d (settings d ++ [mkSettingsRow (i_userId i) 9 1 1])).
    assert (G1 : get d1 (i_userId i) = Some (mkUserSettings (i_userId i) 9 true true)).
    { unfold get, d1. simpl. rewrite find_app_last.
      unfold get in G.
      destruct (find (has_user (i_userId i)) (settings d)); [discriminate|].
      unfold has_user. simpl. now rewrite Z.eqb_refl. }
    assert (O1 : forall v, v <> i_userId i -> get d1 v = get d v).
    { intros v Hv. unfold get, d1. simpl. rewrite find_app_last.
      destruct (find (has_user v) (settings d)); [reflexivity|].
      unfold has_user. simpl.
      destruct (i_userId i =? v) eqn:E; [|reflexivity].
      apply Z.eqb_eq in E. congruence. }
    assert (U1 : settings_unique d -> settings_unique d1).
    { unfold settings_unique, d1. simpl. intro U. rewrite map_app. simpl.
      now apply NoDup_snoc. }
    destruct (input_is_empty i) eqn:Em.
    + exists d1. rewrite (@apply_empty_input i _ Em). rewrite G1.
      repeat split; auto.
    + exists (run_update d1 i). rewrite get_run_update_same, G1. simpl.
      repeat split; auto.
      * intros v Hv. rewrite get_run_update_other by exact Hv. now apply O1.
      * intro U. unfold settings_unique. rewrite run_update_keys. now apply U1.
Qed.

Lemma getOrDefault_userId d u : userId (getOrDefault d u) = u.
Proof.
  unfold getOrDefault, get.
  destruct (find (has_user u) (settings d)) as [row|] eqn:F; simpl; [|reflexivity].
  apply find_some in F. destruct F as [_ F]. now apply Z.eqb_eq in F.
Qed.

(** The digest job and the repository read the same row the same way. *)
Lemma two_readers_agree d u :
  digest.getUserSettings d u
  = digest.mkUserSettings (digestEnabled (getOrDefault d u))
                          (digestHour (getOrDefault d u))
                          (notificationsEnabled (getOrDefault d u)).
Proof.
  unfold digest.getUserSettings, getOrDefault, get, has_user.
  destruct (find (fun s => s_user_id s =? u) (settings d)); reflexivity.
Qed.

Lemma set_enabled_spec d u b :
  registered d u = true ->
  exists d',
    setDigestEnabled d u b = (d', Returned true)
    /\ getOrDefault d' u
       = mkUserSettings u (digestHour (getOrDefault d u)) b
                        (notificationsEnabled (getOrDefault d u))
    /\ (forall v, v <> u -> get d' v = get d v)
    /\ same_but_settings d d'.
Proof.
  intro R. unfold setDigestEnabled.
  destruct (@update_spec d (mkInput u None (Some b) None) R)
    as [d' [E [G [O [F _]]]]].
  simpl in *. exists d'. rewrite E. simpl. split; [reflexivity|].
  split; [|split; assumption].
  unfold getOrDefault at 1. rewrite G. unfold apply_input. simpl.
  now rewrite getOrDefault_userId.
Qed.

Lemma set_hour_spec d u h :
  registered d u = true ->
  0 <= h <= 23 ->
  exists d',
    setDigestHour d u h = (d', Returned true)
    /\ getOrDefault d' u
       = mkUserSettings u h (digestEnabled (getOrDefault d u))
                        (notificationsEnabled (getOrDefault d u))
    /\ (forall v, v <> u -> get d' v = get d v)
    /\ same_but_settings d d'.
Proof.
  intros R Hh. unfold setDigestHour.
  assert (B : (h <? 0) || (h >? 23) = false).
  { apply orb_false_iff. split; [apply Z.ltb_ge; lia|].
    rewrite Z.gtb_ltb. apply Z.ltb_ge. lia. }
  rewrite B.
  destruct (@update_spec d (mkInput u (Some h) None None) R)
    as [d' [E [G [O [F _]]]]].
  simpl in *. exists d'. rewrite E. simpl. split; [reflexivity|].
  split; [|split; assumption].
  unfold getOrDefault at 1. rewrite G. unfold apply_input. simpl.
  now rewrite getOrDefault_userId.
Qed.

Lemma registered_kept d d' u :
  same_but_settings d d' -> registered d u = true -> registered d' u = true.
Proof. intros [_ [U _]] R. unfold registered in *. now rewrite U. Qed.

Lemma off_hour_contributes_nothing env d u l :
  digest.digestHour (digest.getUserSettings d u) <> 9 ->
  sent_to u (flat_map (digest_messages digest.morning env d) l) = [].
Proof.
  intro Hne.
  destruct (sent_to u (flat_map (digest_messages digest.morning env d) l))
    as [|s rest] eqn:F; [reflexivity|].
  exfalso.
  assert (Hs : In s (sent_to u (flat_map (digest_messages digest.morning env d) l)))
    by (rewrite F; now left).
  apply filter_In in Hs. destruct Hs as [Hs Hu]. apply Z.eqb_eq in Hu.
  apply in_flat_map in Hs. destruct Hs as [v [_ Hs]].
  apply digest_messages_spec in Hs. destruct Hs as [-> [_ Hh]]. simpl in Hu.
  apply Hne. rewrite <- Hu. now apply Hh.
Qed.

End Settings.

(** X23. [settingsRepo.update] is an upsert for a registered user: it
    returns the settings the store holds for the user afterwards, which are
    the ones in force before (the stored row, or the defaults hour 9,
    digest on, notifications on when there was none) with the fields the
    input names replaced.  The settings of every other user read as before,
    the other tables are untouched, and user ids stay unique in the table. *)
Theorem settings_update_reads_back (d : Db) (i : settingsRepo.UpdateSettingsInput) :
  usersRepo.getByTelegramId d (settingsRepo.i_userId i) <> None ->
  exists d' s',
    settingsRepo.update d i = (d', settingsRepo.Returned (Some s'))
    /\ s' = apply_input i (settingsRepo.getOrDefault d (settingsRepo.i_userId i))
    /\ settingsRepo.get d' (settingsRepo.i_userId i) = Some s'
    /\ (forall v, v <> settingsRepo.i_userId i ->
                  settingsRepo.get d' v = settingsRepo.get d v)
    /\ same_but_settings d d'
    /\ (settings_unique d -> settings_unique d').
Proof.
  intro R. apply registered_iff in R.
  destruct (@update_spec d i R) as [d' [E H]].
  exists d', (apply_input i (settingsRepo.getOrDefault d (settingsRepo.i_userId i))).
  split; [exact E|]. split; [reflexivity | exact H].
Qed.

Lemma settings_update_reads_back_witness :
  exists d' s',
    settingsRepo.update (db Scenario.digest_world)
      (settingsRepo.mkInput 200 (Some 7) None None)
    = (d', settingsRepo.Returned (Some s'))
    /\ s' = settingsRepo.mkUserSettings 200 7 true true
    /\ settingsRepo.get d' 200 = Some s'.
Proof.
  destruct (@settings_update_reads_back (db Scenario.digest_world)
              (settingsRepo.mkInput 200 (Some 7) None None))
    as [d' [s' [E [S [G _]]]]].
  - discriminate.
  - exists d', s'. split; [exact E|]. split; [exact S | exact G].
Defined.

(** X24. [setDigestHour] checks the hour before it touches the store: an
    hour below 0 or above 23 raises the range error and leaves the store as
    it was; an hour from 0 to 23 is stored for a registered user, the call
    answers true, and the user's other settings are kept. *)
Theorem digest_hour_is_validated (d : Db) (u h : Z) :
  (h < 0 \/ 23 < h ->
   settingsRepo.setDigestHour d u h = (d, settingsRepo.Raised settingsRepo.HourOutOfRange))
  /\ (0 <= h <= 23 ->
      usersRepo.getByTelegramId d u <> None ->
      exists d',
        settingsRepo.setDigestHour d u h = (d', settingsRepo.Returned true)
        /\ settingsRepo.getOrDefault d' u
           = settingsRepo.mkUserSettings u h
               (settingsRepo.digestEnabled (settingsRepo.getOrDefault d u))
               (settingsRepo.notificationsEnabled (settingsRepo.getOrDefault d u))).
Proof.
  split.
  - intro Hh. unfold settingsRepo.setDigestHour.
    assert (B : (h <? 0) || (h >? 23) = true).
    { apply orb_true_iff. destruct Hh as [Hh|Hh].
      - left. now apply Z.ltb_lt.
      - right. rewrite Z.gtb_ltb. now apply Z.ltb_lt. }
    now rewrite B.
  - intros Hh R. apply registered_iff in R.
    destruct (@set_hour_spec d u h R Hh) as [d' [E [G _]]].
    exists d'. split; assumption.
Qed.

Lemma digest_hour_is_validated_witness :
  settingsRepo.setDigestHour (db Scenario.digest_world) 100 24
  = (db Scenario.digest_world, settingsRepo.Raised settingsRepo.HourOutOfRange)
  /\ exists d',
       settingsRepo.setDigestHour (db Scenario.digest_world) 100 23
       = (d', settingsRepo.Returned true)
       /\ settingsRepo.getOrDefault d' 100
          = settingsRepo.mkUserSettings 100 23 false true.
Proof.
  split.
  - apply (proj1 (digest_hour_is_validated (db Scenario.digest_world) 100 24)). lia.
  - apply (proj2 (digest_hour_is_validated (db Scenario.digest_world) 100 23));
      [lia | discriminate].
Defined.

(** X25. [toggleDigest] flips the digest switch of a registered user, and
    flipping twice gives back the settings the user started from; both
    calls answer true.  A user without a row starts from the default, so
    the first toggle switches the digest off. *)
Theorem toggle_twice_restores (d : Db) (u : Z) :
  usersRepo.getByTelegramId d u <> None ->
  exists d1 d2,
    settingsRepo.toggleDigest d u = (d1, settingsRepo.Returned true)
    /\ settingsRepo.digestEnabled (settingsRepo.getOrDefault d1 u)
       = negb (settingsRepo.digestEnabled (settingsRepo.getOrDefault d u))
    /\ settingsRepo.toggleDigest d1 u = (d2, settingsRepo.Returned true)
    /\ settingsRepo.getOrDefault d2 u = settingsRepo.getOrDefault d u.
Proof.
  intro R. apply registered_iff in R. unfold settingsRepo.toggleDigest.
  destruct (@set_enabled_spec d u
              (negb (settingsRepo.digestEnabled (settingsRepo.getOrDefault d u))) R)
    as [d1 [E1 [G1 [_ F1]]]].
  pose proof (@registered_kept d d1 u F1 R) as R1.
  destruct (@set_enabled_spec d1 u
              (negb (settingsRepo.digestEnabled (settingsRepo.getOrDefault d1 u))) R1)
    as [d2 [E2 [G2 _]]].
  exists d1, d2. split; [exact E1|]. split; [now rewrite G1|].
  split; [exact E2|].
  rewrite G2, G1. simpl. rewrite negb_involutive.
  pose proof (getOrDefault_userId d u) as Hu.
  destruct (settingsRepo.getOrDefault d u). simpl in *. now subst.
Qed.

Lemma toggle_twice_restores_witness :
  exists d1 d2,
    settingsRepo.toggleDigest (db Scenario.digest_world) 200
    = (d1, settingsRepo.Returned true)
    /\ settingsRepo.digestEnabled (settingsRepo.getOrDefault d1 200) = false
    /\ settingsRepo.toggleDigest d1 200 = (d2, settingsRepo.Returned true)
    /\ settingsRepo.getOrDefault d2 200
       = settingsRepo.mkUserSettings 200 9 true true.
Proof.
  destruct (@toggle_twice_restores (db Scenario.digest_world) 200)
    as [d1 [d2 [E1 [N [E2 G]]]]].
  - discriminate.
  - exists d1, d2. repeat split; assumption.
Defined.

(** X26. The repository and the digest job meet in table [settings]: once
    [setDigestEnabled] has switched the digest off for a registered user,
    no digest run of either type on that store writes to the user; once
    [setDigestHour] has stored an hour other than 9, no morning run does. *)
Theorem settings_silence_the_digest (d : Db) (u : Z) :
  usersRepo.getByTelegramId d u <> None ->
  (exists d',
      settingsRepo.setDigestEnabled d u false = (d', settingsRepo.Returned true)
      /\ forall ty env w,
           db w = d' ->
           sent_to u (outbox (fst (digest.sendDailyDigest ty env w)))
           = sent_to u (outbox w))
  /\ (forall h,
         0 <= h <= 23 -> h <> 9 ->
         exists d',
           settingsRepo.setDigestHour d u h = (d', settingsRepo.Returned true)
           /\ forall env w,
                db w = d' ->
                sent_to u (outbox (fst (digest.sendDailyDigest digest.morning env w)))
                = sent_to u (outbox w)).
Proof.
  intro R. apply registered_iff in R. split.
  - destruct (@set_enabled_spec d u false R) as [d' [E [G _]]].
    exists d'. split; [exact E|].
    intros ty env w <-. rewrite sendDailyDigest_run. simpl.
    rewrite sent_to_app, disabled_contributes_nothing; [apply app_nil_r|].
    rewrite two_readers_agree, G. reflexivity.
  - intros h Hh H9.
    destruct (@set_hour_spec d u h R Hh) as [d' [E [G _]]].
    exists d'. split; [exact E|].
    intros env w <-. rewrite sendDailyDigest_run. simpl.
    rewrite sent_to_app, off_hour_contributes_nothing; [apply app_nil_r|].
    rewrite two_readers_agree, G. exact H9.
Qed.

Lemma settings_silence_the_digest_witness :
  exists d',
    settingsRepo.setDigestEnabled (db Scenario.due_in_5h) 200 false
    = (d', settingsRepo.Returned true)
    /\ forall ty env w,
         db w = d' ->
         sent_to 200 (outbox (fst (digest.sendDailyDigest ty env w)))
         = sent_to 200 (outbox w).
Proof.
  apply (proj1 (@settings_silence_the_digest (db Scenario.due_in_5h) 200
                  ltac:(discriminate))).
Defined.

(* ------------------------------------------------------------------ *)
(** * Cleaning the ledger *)

Section Cleanup.

Import cleanup.





End Cleanup.



(* ------------------------------------------------------------------ *)
(** * Settings of many users, and settings removed *)

Section SettingsMore.

Import settingsRepo.

Lemma same_but_settings_trans d1 d2 d3 :
  same_but_settings d1 d2 -> same_but_settings d2 d3 -> same_but_settings d1 d3.
Proof.
  intros [A [B C]] [A' [B' C']]. repeat split; congruence.
Qed.

Lemma apply_input_twice i j s :
  i_digestHour i = i_digestHour j ->
  i_digestEnabled i = i_digestEnabled j ->
  i_notificationsEnabled i = i_notificationsEnabled j ->
  apply_input i (apply_input j s) = apply_input j s.
Proof.
  intros H1 H2 H3. unfold apply_input. simpl. rewrite H1, H2, H3.
  destruct (i_digestHour j), (i_digestEnabled j), (i_notificationsEnabled j);
    reflexivity.
Qed.

Lemma bulk_loop_settings hour enabled notifications : forall userIds d n,
  (forall u, In u userIds -> registered d u = true) ->
  exists d',
    bulk_loop d userIds (fun u => mkInput u hour enabled notifications) n
    = (d', Returned (n + List.length userIds)%nat)
    /\ same_but_settings d d'
    /\ (forall u, In u userIds ->
                  get d' u
                  = Some (apply_input (mkInput u hour enabled notifications)
                                      (getOrDefault d u)))
    /\ (forall v, ~ In v userIds -> get d' v = get d v).
Proof.
  induction userIds as [|u rest IH]; intros d n R; simpl.
  - exists d. rewrite Nat.add_0_r. repeat split; auto. intros u [].
  - destruct (@update_spec d (mkInput u hour enabled notifications)
                (R u (or_introl eq_refl)))
      as [d1 [E [G [O [F _]]]]].
    simpl in E, G, O. rewrite E.
    destruct (IH d1 (S n)) as [d' [E' [F' [G' O']]]].
    { intros v Hv. apply (@registered_kept d d1 v F). apply R. now right. }
    exists d'. rewrite E'. split; [f_equal; f_equal; lia|].
    split; [now apply (@same_but_settings_trans d d1 d')|].
    split.
    + intros v [<-|Hv].
      * destruct (In_dec Z.eq_dec u rest) as [Hin|Hout].
        -- rewrite (G' u Hin). unfold getOrDefault at 1. rewrite G.
           now rewrite apply_input_twice.
        -- rewrite (O' u Hout). exact G.
      * rewrite (G' v Hv).
        destruct (Z.eq_dec v u) as [->|Hne].
        -- unfold getOrDefault at 1. rewrite G. now rewrite apply_input_twice.
        -- unfold getOrDefault. now rewrite (O v Hne).
    + intros v Hv. rewrite O' by tauto. apply O. intro. subst. apply Hv. now left.
Qed.

Lemma find_after_delete u v l :
  find (has_user v) (filter (fun row => negb (has_user u row)) l)
  = if v =? u then None else find (has_user v) l.
Proof.
  induction l as [|r l IH]; simpl.
  - now destruct (v =? u).
  - destruct (has_user u r) eqn:E; simpl.
    + rewrite IH. destruct (v =? u) eqn:Ev; [reflexivity|].
      destruct (has_user v r) eqn:E2; [|reflexivity].
      unfold has_user in E, E2.
      apply Z.eqb_eq in E, E2. apply Z.eqb_neq in Ev. congruence.
    + destruct (has_user v r) eqn:E2.
      * destruct (v =? u) eqn:Ev; [|reflexivity].
        unfold has_user in E, E2.
        apply Z.eqb_eq in E2, Ev. apply Z.eqb_neq in E. congruence.
      * exact IH.
Qed.

Lemma existsb_find {A} (f : A -> bool) l :
  existsb f l = true <-> find f l <> None.
Proof.
  induction l as [|x l IH]; simpl.
  - split; [discriminate | intro H; now contradiction H].
  - destruct (f x); simpl; [split; [discriminate | reflexivity] | exact IH].
Qed.

End SettingsMore.

(** X28. [settingsRepo.bulkUpdate] over registered users reaches every one
    of them: it answers the number of identifiers given, every listed user
    then holds the settings they had (or the defaults) with the given fields
    replaced, also when listed twice, and users that are not listed keep
    theirs.  The other tables are untouched. *)
Theorem settings_bulk_update_reaches_all (d : Db) (userIds : list Z)
        (hour : option Z) (enabled notifications : option bool) :
  (forall u, In u userIds -> usersRepo.getByTelegramId d u <> None) ->
  exists d',
    settingsRepo.bulkUpdate d userIds hour enabled notifications
    = (d', settingsRepo.Returned (List.length userIds))
    /\ (forall u, In u userIds ->
                  settingsRepo.get d' u
                  = Some (apply_input (settingsRepo.mkInput u hour enabled notifications)
                                      (settingsRepo.getOrDefault d u)))
    /\ (forall v, ~ In v userIds -> settingsRepo.get d' v = settingsRepo.get d v)
    /\ same_but_settings d d'.
Proof.
  intro R. unfold settingsRepo.bulkUpdate.
  destruct (@bulk_loop_settings hour enabled notifications userIds d 0%nat)
    as [d' [E [F [G O]]]].
  { intros u Hu. apply registered_iff. now apply R. }
  exists d'. simpl in E. repeat split; try assumption; apply F.
Qed.

Lemma settings_bulk_update_reaches_all_witness :
  exists d',
    settingsRepo.bulkUpdate (db Scenario.digest_world) [100; 200; 100]
                            None (Some true) None
    = (d', settingsRepo.Returned 3%nat)
    /\ settingsRepo.get d' 200 = Some (settingsRepo.mkUserSettings 200 9 true true).
Proof.
  destruct (@settings_bulk_update_reaches_all (db Scenario.digest_world)
              [100; 200; 100] None (Some true) None)
    as [d' [E [G _]]].
  - intros u [<-|[<-|[<-|[]]]]; discriminate.
  - exists d'. split; [exact E|]. apply (G 200). right. now left.
Defined.

(** X29. [settingsRepo.delete] answers whether the user had settings, and
    afterwards the user has none: both readers of the table, the repository
    and the digest job, fall back to the defaults (hour 9, digest on,
    notifications on), so a user who had switched the digest off is back in
    the morning run.  Other users keep their settings and the other tables
    are untouched. *)
Theorem delete_falls_back_to_defaults (d : Db) (u : Z) :
  (snd (settingsRepo.delete d u) = true <-> settingsRepo.get d u <> None)
  /\ settingsRepo.get (fst (settingsRepo.delete d u)) u = None
  /\ settingsRepo.getOrDefault (fst (settingsRepo.delete d u)) u
     = settingsRepo.mkUserSettings u 9 true true
  /\ digest.getUserSettings (fst (settingsRepo.delete d u)) u
     = digest.mkUserSettings true 9 true
  /\ (forall v, v <> u ->
                settingsRepo.get (fst (settingsRepo.delete d u)) v
                = settingsRepo.get d v)
  /\ same_but_settings d (fst (settingsRepo.delete d u)).
Proof.
  assert (N : settingsRepo.get (fst (settingsRepo.delete d u)) u = None).
  { unfold settingsRepo.get, settingsRepo.delete. simpl.
    now rewrite find_after_delete, Z.eqb_refl. }
  split; [|split; [exact N|split; [|split; [|split]]]].
  - unfold settingsRepo.delete, settingsRepo.get. simpl. rewrite existsb_find.
    destruct (find (settingsRepo.has_user u) (settings d)); simpl;
      split; intro H; try discriminate; now contradiction H.
  - unfold settingsRepo.getOrDefault. now rewrite N.
  - rewrite two_readers_agree. unfold settingsRepo.getOrDefault. now rewrite N.
  - intros v Hv. unfold settingsRepo.get, settingsRepo.delete. simpl.
    rewrite find_after_delete. apply Z.eqb_neq in Hv. now rewrite Hv.
  - repeat split.
Qed.

Lemma delete_falls_back_to_defaults_witness :
  settingsRepo.get (db Scenario.digest_world) 100 <> None
  /\ snd (settingsRepo.delete (db Scenario.digest_world) 100) = true
  /\ digest.getUserSettings (fst (settingsRepo.delete (db Scenario.digest_world) 100)) 100
     = digest.mkUserSettings true 9 true.
Proof.
  destruct (delete_falls_back_to_defaults (db Scenario.digest_world) 100)
    as [B [_ [_ [D _]]]].
  assert (G : settingsRepo.get (db Scenario.digest_world) 100 <> None) by discriminate.
  split; [exact G|]. split; [apply B; exact G | exact D].
Defined.

(* ------------------------------------------------------------------ *)
(** * A reminder on record is not sent again *)

Section Recorded.

Import reminders.



End Recorded.


